(** * Patient ingestion and classification pipeline: a shallow embedding

    The Python sources embedded here are [sanitizer.py], [patient.py],
    [risk_scorer.py], [high_risk_classifier.py], [fever_classifier.py],
    [data_quality.py] and [getPatients] of [routes.py]; the cases of
    [test_classifiers.py] are replayed on the embedding.

    - Values.  Python is dynamically typed, so a field of a record is a
      value of one inductive type [pyval], the values a decoded JSON
      document can hold; the [isinstance] tests of the sources are
      pattern matches.  An [int] is a [Z]; a [float] is an IEEE 754
      binary64 number ([spec_float], with its infinities and its NaN); a
      [str] is a [string] read as a sequence of code points below 256; a
      [dict] with string keys is a [gmap string pyval].
    - Comparisons.  Python orders an [int] and a [float] by exact value,
      and a NaN is unordered: [PyNum.compare] works on rationals.
    - Exceptions.  A function that can raise returns a [result]; a
      [try]/[except] is a match on the exception.
    - Effects.  [getPatients] takes the upstream as the list of the
      responses to its successive requests and returns, with its value,
      the requests and sleeps it made, in order.
    - The interpreter.  [str.strip], [str.split], [str.upper], [int],
      [float] of an int, and the pattern of [re.match] are written out;
      the digits of a float's [repr], the [repr] of a list or dict and
      [float] of a string are parameters ([runtime]). *)

From Stdlib Require Import ZArith QArith Qabs Lia Bool List Ascii String.
From Stdlib Require Import DecimalString DecimalPos.
From Stdlib Require Import Floats.SpecFloat.
From stdpp Require Import base gmap strings.

Import ListNotations.
Local Open Scope Z_scope.

(** ** The Python runtime: strings *)

Module PyStr.

(** [str.isspace] on one character: the code points below 256 that
    CPython classifies as whitespace. *)
Definition is_space (c : ascii) : bool :=
  let n := N_of_ascii c in
  (((9 <=? n) && (n <=? 13)) || ((28 <=? n) && (n <=? 32))
   || (n =? 133) || (n =? 160))%N.

Definition is_digit (c : ascii) : bool :=
  let n := N_of_ascii c in ((48 <=? n) && (n <=? 57))%N.

Definition digit_val (c : ascii) : option Z :=
  if is_digit c then Some (Z.of_N (N_of_ascii c) - 48) else None.

(** The whitespace that [int()] skips around a literal: of the ASCII
    characters only 9..13 and the space, as the separators 28..31 are
    not whitespace for the parser. *)
Definition is_int_space (c : ascii) : bool :=
  let n := N_of_ascii c in
  (((9 <=? n) && (n <=? 13)) || (n =? 32) || (n =? 133) || (n =? 160))%N.

Fixpoint lstrip_by (sp : ascii -> bool) (s : string) : string :=
  match s with
  | EmptyString => EmptyString
  | String c r => if sp c then lstrip_by sp r else s
  end.

Fixpoint rstrip_by (sp : ascii -> bool) (s : string) : string :=
  match s with
  | EmptyString => EmptyString
  | String c r =>
      match rstrip_by sp r with
      | EmptyString => if sp c then EmptyString else String c EmptyString
      | r' => String c r'
      end
  end.

Definition strip_by (sp : ascii -> bool) (s : string) : string :=
  rstrip_by sp (lstrip_by sp s).

(** [s.strip()] *)
Definition strip (s : string) : string := strip_by is_space s.

Definition upper_char (c : ascii) : ascii :=
  let n := N_of_ascii c in
  if ((97 <=? n) && (n <=? 122))%N then ascii_of_N (n - 32) else c.

(** [s.upper()], on the ASCII letters.  The sources compare the result
    with ASCII words only; of the other characters below 256 only one has
    an upper case made of ASCII characters (SS), which no such word
    contains. *)
Fixpoint upper (s : string) : string :=
  match s with
  | EmptyString => EmptyString
  | String c r => String (upper_char c) (upper r)
  end.

(** [s.split(sep)] for a one-character separator: never an empty list. *)
Fixpoint split (sep : ascii) (s : string) : list string :=
  match s with
  | EmptyString => [EmptyString]
  | String c r =>
      if Ascii.eqb c sep then EmptyString :: split sep r
      else match split sep r with
           | p :: ps => String c p :: ps
           | [] => [String c EmptyString]
           end
  end.

(** [sep in s] *)
Fixpoint contains (sep : ascii) (s : string) : bool :=
  match s with
  | EmptyString => false
  | String c r => Ascii.eqb c sep || contains sep r
  end.

(** [x in [s1, ..., sn]] for strings. *)
Definition str_in (x : string) (l : list string) : bool :=
  existsb (String.eqb x) l.

(** The digits of a decimal integer literal as [int()] reads them: one or
    more digits, single underscores allowed between digits. *)
Fixpoint int_digits (s : string) (acc : Z) (after_digit : bool) : option Z :=
  match s with
  | EmptyString => if after_digit then Some acc else None
  | String c r =>
      match digit_val c with
      | Some d => int_digits r (10 * acc + d) true
      | None =>
          if Ascii.eqb c "_" && after_digit then int_digits r acc false
          else None
      end
  end.

(** The interpreter's limit on the digits of an integer literal
    ([sys.int_info.default_max_str_digits]). *)
Definition max_str_digits : Z := 4300.

(** The digits of a literal, leading zeros included and underscores
    left out. *)
Fixpoint count_digits (s : string) : Z :=
  match s with
  | EmptyString => 0
  | String c r => (if is_digit c then 1 else 0) + count_digits r
  end.

(** The literal after the sign: read, and refused when it has more than
    [max_str_digits] digits. *)
Definition int_literal (s : string) : option Z :=
  match int_digits s 0 false with
  | Some z => if count_digits s >? max_str_digits then None else Some z
  | None => None
  end.

(** [int(s)] for a string [s] in base 10; [None] stands for [ValueError].
    Surrounding whitespace is ignored and one sign is allowed; a literal
    of more than 4300 digits is refused. *)
Definition int_of_str (s : string) : option Z :=
  match strip_by is_int_space s with
  | EmptyString => None
  | String c r =>
      if Ascii.eqb c "+" then int_literal r
      else if Ascii.eqb c "-" then option_map Z.opp (int_literal r)
      else int_literal (String c r)
  end.

(** [\d+] over a whole string. *)
Fixpoint all_digits (s : string) : bool :=
  match s with
  | EmptyString => true
  | String c r => is_digit c && all_digits r
  end.

Definition digits1 (s : string) : bool :=
  match s with
  | EmptyString => false
  | _ => all_digits s
  end.

(** [$] also matches just before a newline that ends the subject. *)
Fixpoint chop_final_newline (s : string) : string :=
  match s with
  | EmptyString => EmptyString
  | String c EmptyString => if Ascii.eqb c "010" then EmptyString else s
  | String c r => String c (chop_final_newline r)
  end.

(** [re.match(r"^(\d+)/(\d+)$", s)] as a truth value. *)
Definition re_match_bp (s : string) : bool :=
  match split "/" (chop_final_newline s) with
  | [a; b] => digits1 a && digits1 b
  | _ => false
  end.

(** A digit or a minus sign: how the text of a number starts. *)
Definition plain (c : ascii) : Prop := is_digit c = true \/ c = "-"%char.

Definition not_plain_head (w : string) : bool :=
  match w with
  | EmptyString => true
  | String d _ => negb (is_digit d) && negb (Ascii.eqb d "-")
  end.

End PyStr.

(** ** The Python runtime: numbers *)

Module PyNum.

(** What a comparison sees of a number.  Python compares an [int] with a
    [float] by exact value, so a finite number is a rational here. *)
Inductive xval : Type :=
  | XNaN
  | XInf (neg : bool)
  | XFin (q : Q).

(** [m * 2 ^ e] *)
Definition dyadic (m e : Z) : Q :=
  match e with
  | Z0 => m # 1
  | Zpos p => (m * 2 ^ Zpos p) # 1
  | Zneg p => m # (2 ^ p)%positive
  end.

Definition float_val (f : spec_float) : xval :=
  match f with
  | S754_zero _ => XFin 0
  | S754_infinity s => XInf s
  | S754_nan => XNaN
  | S754_finite s m e => XFin (dyadic (if s then Zneg m else Zpos m) e)
  end.

(** The values for which [isinstance(v, (int, float))] holds. *)
Inductive num : Type :=
  | NInt (z : Z)
  | NFloat (f : spec_float).

Definition val (n : num) : xval :=
  match n with
  | NInt z => XFin (z # 1)
  | NFloat f => float_val f
  end.

(** [None] when one side is NaN: every ordering test is then false. *)
Definition xcompare (a b : xval) : option comparison :=
  match a, b with
  | XNaN, _ | _, XNaN => None
  | XInf s1, XInf s2 =>
      Some (match s1, s2 with
            | true, false => Lt
            | false, true => Gt
            | _, _ => Eq
            end)
  | XInf s, XFin _ => Some (if s then Lt else Gt)
  | XFin _, XInf s => Some (if s then Gt else Lt)
  | XFin p, XFin q => Some (p ?= q)%Q
  end.

Definition compare (a b : num) : option comparison := xcompare (val a) (val b).

(** [a < b], [a <= b], [a > b], [a >= b] *)
Definition lt (a b : num) : bool :=
  match compare a b with Some Lt => true | _ => false end.
Definition le (a b : num) : bool :=
  match compare a b with Some Lt | Some Eq => true | _ => false end.
Definition gt (a b : num) : bool :=
  match compare a b with Some Gt => true | _ => false end.
Definition ge (a b : num) : bool :=
  match compare a b with Some Gt | Some Eq => true | _ => false end.

Definition is_nan (a : num) : bool :=
  match val a with XNaN => true | _ => false end.

(** The binary64 format: 53 bits of precision, exponents below 1024. *)
Definition binary64 (f : spec_float) : bool := valid_binary 53 1024 f.

(** The float literals of the sources, each the binary64 number nearest
    to its decimal numeral. *)
Definition F99_5 : spec_float := S754_finite false 7001690045677568 (-46).
Definition F99_6 : spec_float := S754_finite false 7008726920095334 (-46).
Definition F100_9 : spec_float := S754_finite false 7100206287526298 (-46).
Definition F101_0 : spec_float := S754_finite false 7107243161944064 (-46).

(** Three more numbers for examples: [98.6], and [99.55] and [100.95],
    which lie between the thresholds above. *)
Definition F98_6 : spec_float := S754_finite false 6938358175917670 (-46).
Definition F99_55 : spec_float := S754_finite false 7005208482886451 (-46).
Definition F100_95 : spec_float := S754_finite false 7103724724735181 (-46).

(** [int(f)] for a float: truncation toward zero. *)
Inductive int_of_float_result : Type :=
  | IntOk (z : Z)
  | IntNaN          (* ValueError: cannot convert float NaN to integer *)
  | IntInfinite.    (* OverflowError: cannot convert float infinity to integer *)

Definition int_of_float (f : spec_float) : int_of_float_result :=
  match f with
  | S754_zero _ => IntOk 0
  | S754_infinity _ => IntInfinite
  | S754_nan => IntNaN
  | S754_finite s m e =>
      let a := match e with
               | Zneg p => Zpos m / 2 ^ Zpos p
               | _ => Zpos m * 2 ^ e
               end in
      IntOk (if s then - a else a)
  end.

(** [float(z)] for an int: round to nearest, ties to even; [None] stands
    for [OverflowError: int too large to convert to float]. *)
Definition float_of_int (z : Z) : option spec_float :=
  match binary_normalize 53 1024 z 0 false with
  | S754_infinity _ => None
  | f => Some f
  end.

End PyNum.

(** ** Python values *)

#[local] Set Warnings "-register-all".

(** The values a decoded JSON document can hold. *)
Inductive pyval : Type :=
  | VNone
  | VBool (b : bool)
  | VInt (z : Z)
  | VFloat (f : spec_float)
  | VStr (s : string)
  | VList (l : list pyval)
  | VDict (d : list (string * pyval)).

(** [isinstance(v, (int, float))], together with the number [v] is;
    [bool] is a subclass of [int].  [None] is not a number, so
    [v is None or not isinstance(v, (int, float))] is [number_of v = None]. *)
Definition number_of (v : pyval) : option PyNum.num :=
  match v with
  | VBool b => Some (PyNum.NInt (if b then 1 else 0))
  | VInt z => Some (PyNum.NInt z)
  | VFloat f => Some (PyNum.NFloat f)
  | _ => None
  end.

Definition is_none (v : pyval) : bool :=
  match v with VNone => true | _ => false end.

(** [isinstance(v, str)] *)
Definition is_str (v : pyval) : bool :=
  match v with VStr _ => true | _ => false end.

(** The truth value of [v], as [not v] tests it. *)
Definition truthy (v : pyval) : bool :=
  match v with
  | VNone => false
  | VBool b => b
  | VInt z => negb (z =? 0)
  | VFloat (S754_zero _) => false
  | VFloat _ => true
  | VStr s => negb (String.eqb s "")
  | VList l => match l with [] => false | _ => true end
  | VDict d => match d with [] => false | _ => true end
  end.

(** [v == ""] *)
Definition eq_empty_str (v : pyval) : bool :=
  match v with VStr EmptyString => true | _ => false end.

(** Python exceptions that the modelled code can meet. *)
Inductive exn : Type :=
  | ValueError
  | TypeError
  | OverflowError.

(** A computation that returns or raises. *)
Inductive result (A : Type) : Type :=
  | Ok (a : A)
  | Raise (e : exn).
Arguments Ok {A} a.
Arguments Raise {A} e.

(** [result] is a monad for stdpp's notations: [x ← c; k] runs [c], and
    runs [k] on its value unless [c] raised. *)
#[global] Instance result_ret : MRet result := fun A a => Ok a.
#[global] Instance result_bind : MBind result := fun A B k r =>
  match r with
  | Ok a => k a
  | Raise e => Raise e
  end.

(** ** patient.py *)

Record Patient : Type := mkPatient {
  patient_id : pyval;
  age : pyval;
  blood_pressure : pyval;
  temperature : pyval
}.

(** [Patient.to_dict] *)
Definition to_dict (self : Patient) : gmap string pyval :=
  <["patient_id" := patient_id self]>
    (<["age" := age self]>
      (<["blood_pressure" := blood_pressure self]>
        (<["temperature" := temperature self]> ∅))).

(** The typing of a canonical record: [patient_id: str],
    [age: Optional[int]], [blood_pressure: Optional[str]],
    [temperature: Optional[float]]. *)
Definition canonical (p : Patient) : Prop :=
  (exists s, patient_id p = VStr s)
  /\ (age p = VNone \/ exists z, age p = VInt z)
  /\ (blood_pressure p = VNone \/ exists s, blood_pressure p = VStr s)
  /\ (temperature p = VNone \/ exists f, temperature p = VFloat f).

(** ** risk_scorer.py *)

Definition calculate_bp_risk (bp : pyval) : Z :=
  if negb (truthy bp) || negb (is_str bp) then 0
  else
    match bp with
    | VStr s =>
        (* parts = bp.split("/"); len(parts) != 2 returns 0 *)
        match PyStr.split "/" s with
        | [part0; part1] =>
            match PyStr.int_of_str (PyStr.strip part0),
                  PyStr.int_of_str (PyStr.strip part1) with
            | Some systolic, Some diastolic =>
                let systolic_risk :=
                  if systolic <? 120 then 0
                  else if (120 <=? systolic) && (systolic <=? 129) then 1
                  else if (130 <=? systolic) && (systolic <=? 139) then 2
                  else 3 in
                let diastolic_risk :=
                  if diastolic <? 80 then 0
                  else if (80 <=? diastolic) && (diastolic <=? 89) then 2
                  else 3 in
                Z.max systolic_risk diastolic_risk
            | _, _ => 0   (* except (ValueError, AttributeError) *)
            end
        | _ => 0
        end
    | _ => 0
    end.

Definition calculate_temp_risk (temperature : pyval) : Z :=
  match number_of temperature with
  | None => 0
  | Some t =>
      if PyNum.le t (PyNum.NFloat PyNum.F99_5) then 0
      else if PyNum.le (PyNum.NFloat PyNum.F99_6) t
              && PyNum.le t (PyNum.NFloat PyNum.F100_9) then 1
      else 2
  end.

Definition calculate_age_risk (age : pyval) : Z :=
  match number_of age with
  | None => 0
  | Some a =>
      if PyNum.lt a (PyNum.NInt 40) then 0
      else if PyNum.le (PyNum.NInt 40) a && PyNum.le a (PyNum.NInt 65) then 1
      else 2
  end.

Definition calculate_total_risk (patient : Patient) : Z :=
  let bp_score := calculate_bp_risk (blood_pressure patient) in
  let temp_score := calculate_temp_risk (temperature patient) in
  let age_score := calculate_age_risk (age patient) in
  bp_score + temp_score + age_score.

(** ** high_risk_classifier.py, fever_classifier.py *)

(** The loops append to a list that starts empty; [fold_left] carries it. *)
Definition get_high_risk_patients (patients : list Patient) : list pyval :=
  fold_left
    (fun high_risk_ids patient =>
       let total_risk := calculate_total_risk patient in
       if total_risk >=? 4 then high_risk_ids ++ [patient_id patient]
       else high_risk_ids)
    patients [].

Definition get_fever_patients (patients : list Patient) : list pyval :=
  fold_left
    (fun fever_ids patient =>
       match number_of (temperature patient) with
       | Some t =>
           if PyNum.ge t (PyNum.NFloat PyNum.F99_6)
           then fever_ids ++ [patient_id patient]
           else fever_ids
       | None => fever_ids
       end)
    patients [].

(** ** data_quality.py *)

Definition _is_valid_bp (bp : pyval) : bool :=
  match bp with
  | VStr s =>
      match PyStr.split "/" s with
      | [part0; part1] =>
          match PyStr.int_of_str (PyStr.strip part0),
                PyStr.int_of_str (PyStr.strip part1) with
          | Some systolic, Some diastolic =>
              if (systolic <=? 0) || (systolic >? 300)
                 || (diastolic <=? 0) || (diastolic >? 200)
              then false else true
          | _, _ => false
          end
      | _ => false
      end
  | _ => false
  end.

Definition _is_valid_age (age : pyval) : bool :=
  match number_of age with
  | None => false
  | Some a =>
      if PyNum.lt a (PyNum.NInt 0) || PyNum.gt a (PyNum.NInt 150) then false
      else true
  end.

Definition _is_valid_temperature (temperature : pyval) : bool :=
  match number_of temperature with
  | None => false
  | Some t =>
      if PyNum.le t (PyNum.NInt 0) || PyNum.gt t (PyNum.NInt 115) then false
      else true
  end.

Definition get_data_quality_issues (patients : list Patient) : list pyval :=
  fold_left
    (fun patient_ids_with_issues patient =>
       let has_issue := false in
       let has_issue :=
         if negb (_is_valid_bp (blood_pressure patient)) then true else has_issue in
       let has_issue :=
         if negb (_is_valid_age (age patient)) then true else has_issue in
       let has_issue :=
         if negb (_is_valid_temperature (temperature patient)) then true else has_issue in
       if has_issue then patient_ids_with_issues ++ [patient_id patient]
       else patient_ids_with_issues)
    patients [].

(** ** The Python runtime: conversions of values *)

(** Three conversions of the interpreter are parameters of the model:
    [dtoa m e] is the shortest digit string that reads back as the float
    [m * 2^e], as a number, with the position of its decimal point
    (CPython's [_Py_dg_dtoa], mode 0); [container_repr v] is [str(v)] for a
    list or a dict; [float_of_str s] is [float(s)] for a string, [None]
    standing for [ValueError]. *)
Record runtime : Type := mkRuntime {
  dtoa : positive -> Z -> positive * Z;
  container_repr : pyval -> string;
  float_of_str : string -> option spec_float
}.

Module PyConv.

Definition str_of_pos (n : positive) : string :=
  NilEmpty.string_of_uint (Pos.to_uint n).

(** [str(z)] for an int. *)
Definition str_of_int (z : Z) : string := NilZero.string_of_int (Z.to_int z).

Fixpoint zeros (n : nat) : string :=
  match n with
  | O => EmptyString
  | S k => String "0" (zeros k)
  end.

(** ["%+.02d"] *)
Definition exponent_str (e : Z) : string :=
  let d := str_of_int (Z.abs e) in
  String (if e <? 0 then "-" else "+")
    (if Nat.ltb (String.length d) 2 then String "0" d else d).

(** [repr] of a finite non-zero float from its shortest digits [digits]
    and decimal point position [decpt]: positional notation when
    [-4 < decpt <= 16], with [.0] after an integer, and exponent notation
    otherwise. *)
Definition format_finite (digits : string) (decpt : Z) : string :=
  let n := Z.of_nat (String.length digits) in
  if (decpt <=? -4) || (decpt >? 16) then
    let mantissa :=
      match digits with
      | String d EmptyString => digits
      | String d r => String d (String "." r)
      | EmptyString => EmptyString
      end in
    mantissa +:+ String "e" (exponent_str (decpt - 1))
  else if decpt <=? 0 then
    String "0" (String "." (zeros (Z.to_nat (- decpt)) +:+ digits))
  else if decpt <? n then
    String.substring 0 (Z.to_nat decpt) digits
    +:+ String "." (String.substring (Z.to_nat decpt) (Z.to_nat (n - decpt)) digits)
  else
    digits +:+ zeros (Z.to_nat (decpt - n)) +:+ ".0".

Section WithRuntime.
Context (rt : runtime).

(** [str(f)] for a float. *)
Definition str_of_float (f : spec_float) : string :=
  match f with
  | S754_nan => "nan"
  | S754_infinity s => if s then "-inf" else "inf"
  | S754_zero s => if s then "-0.0" else "0.0"
  | S754_finite s m e =>
      let '(digits, decpt) := dtoa rt m e in
      let body := format_finite (str_of_pos digits) decpt in
      if s then String "-" body else body
  end.

(** [str(v)].  CPython refuses to print an int of more than 4300 digits
    (ValueError); that failure is left out here, and the statements that
    depend on it say for which values they hold. *)
Definition str (v : pyval) : string :=
  match v with
  | VNone => "None"
  | VBool b => if b then "True" else "False"
  | VInt z => str_of_int z
  | VFloat f => str_of_float f
  | VStr s => s
  | VList _ | VDict _ => container_repr rt v
  end.

(** [int(v)] *)
Definition int (v : pyval) : result Z :=
  match v with
  | VBool b => Ok (if b then 1 else 0)
  | VInt z => Ok z
  | VFloat f =>
      match PyNum.int_of_float f with
      | PyNum.IntOk z => Ok z
      | PyNum.IntNaN => Raise ValueError
      | PyNum.IntInfinite => Raise OverflowError
      end
  | VStr s =>
      match PyStr.int_of_str s with
      | Some z => Ok z
      | None => Raise ValueError
      end
  | VNone | VList _ | VDict _ => Raise TypeError
  end.

(** [float(v)] *)
Definition float (v : pyval) : result spec_float :=
  match v with
  | VBool b =>
      Ok (if b then S754_finite false 4503599627370496 (-52) else S754_zero false)
  | VInt z =>
      match PyNum.float_of_int z with
      | Some f => Ok f
      | None => Raise OverflowError
      end
  | VFloat f => Ok f
  | VStr s =>
      match float_of_str rt s with
      | Some f => Ok f
      | None => Raise ValueError
      end
  | VNone | VList _ | VDict _ => Raise TypeError
  end.

End WithRuntime.

End PyConv.

(** ** sanitizer.py *)

Section Sanitizer.
Context (rt : runtime).

Definition validate_blood_pressure (bp_value : pyval) : pyval :=
  if is_none bp_value || eq_empty_str bp_value then VNone
  else
    let bp_str := PyStr.strip (PyConv.str rt bp_value) in
    if PyStr.str_in (PyStr.upper bp_str)
         ["N/A"; "NA"; "INVALID"; "UNKNOWN"; "INVALID_BP_FORMAT"]
    then VNone
    else
      if negb (PyStr.re_match_bp bp_str) then
        (* the tests for "150/" and "/90" under this branch return None,
           and so does the branch after them *)
        if PyStr.contains "/" bp_str then
          match PyStr.split "/" bp_str with
          | [part0; part1] =>
              if String.eqb part0 "" || String.eqb part1 "" then VNone else VNone
          | _ => VNone
          end
        else VNone
      else VStr bp_str.

Definition validate_age (age_value : pyval) : result pyval :=
  if is_none age_value || eq_empty_str age_value then Ok VNone
  else
    match PyConv.int age_value with
    | Ok age => Ok (VInt age)
    | Raise ValueError | Raise TypeError => Ok VNone
    | Raise e => Raise e
    end.

Definition validate_temperature (temp_value : pyval) : result pyval :=
  if is_none temp_value || eq_empty_str temp_value then Ok VNone
  else
    let temp_str := PyStr.upper (PyStr.strip (PyConv.str rt temp_value)) in
    if PyStr.str_in temp_str ["TEMP_ERROR"; "INVALID"; "UNKNOWN"; "N/A"; "NA"]
    then Ok VNone
    else
      match PyConv.float rt temp_value with
      | Ok temp => Ok (VFloat temp)
      | Raise ValueError | Raise TypeError => Ok VNone
      | Raise e => Raise e
      end.

(** [d.get(key)]: the value, or [None] when the key is absent. *)
Definition get (d : gmap string pyval) (key : string) : pyval :=
  default VNone (d !! key).

Definition sanitize_patient (patient_data : gmap string pyval) : result Patient :=
  let patient_id := get patient_data "patient_id" in
  let age_raw := get patient_data "age" in
  age ← validate_age age_raw;
  let bp_raw := get patient_data "blood_pressure" in
  let blood_pressure := validate_blood_pressure bp_raw in
  let temp_raw := get patient_data "temperature" in
  temperature ← validate_temperature temp_raw;
  Ok (mkPatient (VStr (PyConv.str rt patient_id)) age blood_pressure temperature).

End Sanitizer.

(** ** routes.py *)

(** What one call of [requests.get] gives: an exception of the transport
    ([requests.RequestException]: a timeout, a connection error), or a
    response with its status code.  The body is read only when the status
    is 200; it is then a JSON object, whose ["data"], when present, is a
    list of raw records and whose ["pagination"], when present, is an
    object. *)
Record body : Type := mkBody {
  body_data : option (list (gmap string pyval));
  body_pagination : option (gmap string pyval)
}.

Inductive response : Type :=
  | RequestException
  | Response (status_code : Z) (json : body).

(** The effects of the loop that the outside sees, in order. *)
Inductive event : Type :=
  | Get (page : Z)        (* requests.get(f"{base_url}?page={page}") *)
  | Sleep (seconds : Z).  (* time.sleep(seconds) *)

(** The local variables of [getPatients], and the effects so far. *)
Record state : Type := mkState {
  all_patients : list (gmap string pyval);
  last_pagination : gmap string pyval;
  page : Z;
  has_next : pyval;
  trace : list event
}.

Definition do_event (ev : event) (st : state) : state :=
  mkState (all_patients st) (last_pagination st) (page st) (has_next st)
          (trace st ++ [ev]).

Definition set_has_next (v : pyval) (st : state) : state :=
  mkState (all_patients st) (last_pagination st) (page st) v (trace st).

Definition set_last_pagination (d : gmap string pyval) (st : state) : state :=
  mkState (all_patients st) d (page st) (has_next st) (trace st).

Definition set_all_patients (l : list (gmap string pyval)) (st : state) : state :=
  mkState l (last_pagination st) (page st) (has_next st) (trace st).

Definition next_page (st : state) : state :=
  mkState (all_patients st) (last_pagination st) (page st + 1) (has_next st)
          (trace st).

(** What [getPatients] returns: the fields of the dictionary that depend
    on the run. *)
Record fetched : Type := mkFetched {
  data : list (gmap string pyval);
  total : Z;
  sourcePages : pyval
}.

Inductive outcome : Type :=
  | Returns (r : fetched) (effects : list event)
  | Raises (e : exn) (effects : list event)
  | Starved (effects : list event).
      (* the upstream sequence ended before the loop did *)

Definition max_retries : Z := 10.
Definition backoff_factor : Z := 1.

Section Routes.
Context (rt : runtime).

(** [for raw_patient in raw_patients: all_patients.append(sanitize_patient(raw_patient).to_dict())] *)
Fixpoint sanitize_page (raw_patients : list (gmap string pyval))
    (acc : list (gmap string pyval)) : result (list (gmap string pyval)) :=
  match raw_patients with
  | [] => Ok acc
  | raw_patient :: rest =>
      sanitized_patient ← sanitize_patient rt raw_patient;
      sanitize_page rest (acc ++ [to_dict sanitized_patient])
  end.

(** The [return] of [getPatients]. *)
Definition finish (st : state) : outcome :=
  Returns
    (mkFetched (all_patients st) (Z.of_nat (length (all_patients st)))
       (default (VInt (page st - 1)) (last_pagination st !! "totalPages")))
    (trace st).

(** The two loops, from the call of [requests.get] of attempt [attempt]
    for page [page st]; each request takes the next upstream response. *)
Fixpoint fetch (upstream : list response) (st : state) (attempt : Z)
    {struct upstream} : outcome :=
  match upstream with
  | [] => Starved (trace st)
  | r :: upstream' =>
      (* after the [for] loop, by [break] or by exhaustion *)
      let after_for (st : state) : outcome :=
        let st := if truthy (has_next st) then do_event (Sleep 1) st else st in
        let st := next_page st in
        if truthy (has_next st) then fetch upstream' st 0 else finish st in
      (* the end of one iteration that did not [break] *)
      let continue (st : state) : outcome :=
        if attempt + 1 <? max_retries then fetch upstream' st (attempt + 1)
        else after_for st in
      let st := do_event (Get (page st)) st in
      match r with
      | Response status_code json =>
          if status_code =? 200 then
            let sanitized :=
              match body_data json with
              | Some raw_patients => sanitize_page raw_patients (all_patients st)
              | None => Ok (all_patients st)
              end in
            match sanitized with
            | Raise e => Raises e (trace st)
            | Ok patients =>
                let st := set_all_patients patients st in
                let st :=
                  match body_pagination json with
                  | Some pagination =>
                      set_has_next
                        (default (VBool false) (pagination !! "hasNext"))
                        (set_last_pagination pagination st)
                  | None => set_has_next (VBool false) st
                  end in
                after_for st
            end
          else if status_code =? 429 then
            let wait_time := 2 * 2 ^ attempt in
            continue (do_event (Sleep wait_time) st)
          else if (status_code >=? 500) && (attempt <? max_retries - 1) then
            let wait_time := backoff_factor * 2 ^ attempt in
            continue (do_event (Sleep wait_time) st)
          else
            after_for (set_has_next (VBool false) st)
      | RequestException =>
          if attempt <? max_retries - 1 then
            let wait_time := backoff_factor * 2 ^ attempt in
            continue (do_event (Sleep wait_time) st)
          else
            after_for (set_has_next (VBool false) st)
      end
  end.

Definition initial : state := mkState [] ∅ 1 (VBool true) [].

Definition getPatients (upstream : list response) : outcome :=
  fetch upstream initial 0.

End Routes.

(** ** The notions the specification names *)

(** "Parseable as S/D with integer S and D": the value is a string with
    a slash between two sides that are, whitespace around them apart,
    integer literals as [int()] reads them. *)
Definition bp_parses (bp : pyval) (S D : Z) : Prop :=
  exists a b : string,
    bp = VStr (a +:+ String "/" b)
    /\ PyStr.int_of_str (PyStr.strip a) = Some S
    /\ PyStr.int_of_str (PyStr.strip b) = Some D.

(** S<120 is 0, 120-129 is 1, 130-139 is 2, 140 and above is 3. *)
Definition systolic_bucket (S : Z) : Z :=
  if S <? 120 then 0 else if S <=? 129 then 1 else if S <=? 139 then 2 else 3.

(** D<80 is 0, 80-89 is 2, 90 and above is 3. *)
Definition diastolic_bucket (D : Z) : Z :=
  if D <? 80 then 0 else if D <=? 89 then 2 else 3.

(** The predicates of the three classifiers, one patient at a time. *)
Definition is_high_risk (patient : Patient) : bool :=
  calculate_total_risk patient >=? 4.

Definition has_fever (patient : Patient) : bool :=
  match number_of (temperature patient) with
  | Some t => PyNum.ge t (PyNum.NFloat PyNum.F99_6)
  | None => false
  end.

Definition has_data_quality_issue (patient : Patient) : bool :=
  negb (_is_valid_bp (blood_pressure patient))
  || negb (_is_valid_age (age patient))
  || negb (_is_valid_temperature (temperature patient)).

(** The three range checks in the specification's words. *)
Definition bp_in_range (bp : pyval) : Prop :=
  exists S D : Z, bp_parses bp S D /\ 0 < S <= 300 /\ 0 < D <= 200.

Definition age_in_range (age : pyval) : Prop :=
  exists a : PyNum.num,
    number_of age = Some a
    /\ PyNum.le (PyNum.NInt 0) a = true /\ PyNum.le a (PyNum.NInt 150) = true.

Definition temperature_in_range (temperature : pyval) : Prop :=
  exists t : PyNum.num,
    number_of temperature = Some t
    /\ PyNum.lt (PyNum.NInt 0) t = true /\ PyNum.le t (PyNum.NInt 115) = true.

(** The value is not a NaN (it may be no number at all). *)
Definition not_nan (v : pyval) : Prop :=
  forall n : PyNum.num, number_of v = Some n -> PyNum.is_nan n = false.

(** The state after a page is given up: the request is on the record,
    has_next is False and the page counter has moved on. *)
Definition abandoned (st : state) : state :=
  next_page (set_has_next (VBool false) (do_event (Get (page st)) st)).

(** The state before the next attempt at the same page. *)
Definition retrying (st : state) (wait_time : Z) : state :=
  do_event (Sleep wait_time) (do_event (Get (page st)) st).

(** ** test_classifiers.py *)

Module Tests.

Definition f (m : positive) : pyval := VFloat (S754_finite false m (-46)).
Definition t98_6 := f 6938358175917670.
Definition t98_0 := f 6896136929411072.
Definition t99_5 := VFloat PyNum.F99_5.
Definition t99_6 := VFloat PyNum.F99_6.
Definition t100_0 := f 7036874417766400.
Definition t101_0 := VFloat PyNum.F101_0.
Definition t101_5 := f 7142427534032896.
Definition t102_0 := f 7177611906121728.
Definition t103_5 := f 7283165022388224.

Definition P (id : string) (age : pyval) (bp : pyval) (temp : pyval) : Patient :=
  mkPatient (VStr id) age bp temp.

(** [run_test] compares the three counts. *)
Definition counts (patients : list Patient) : nat * nat * nat :=
  (length (get_high_risk_patients patients),
   length (get_fever_patients patients),
   length (get_data_quality_issues patients)).

Definition test_case_1 : list Patient :=
  [P "TEST001" (VInt 35) (VStr "119/79") t98_6;
   P "TEST002" (VInt 70) (VStr "119/79") t98_6;
   P "TEST003" (VInt 35) (VStr "128/79") t98_6;
   P "TEST004" (VInt 50) (VStr "135/79") t99_6].

Definition test_case_2 : list Patient :=
  [P "TEST005" (VInt 45) (VStr "120/80") t99_5;
   P "TEST006" (VInt 45) (VStr "120/80") t99_6;
   P "TEST007" (VInt 45) (VStr "120/80") t100_0;
   P "TEST008" (VInt 45) (VStr "120/80") t101_5].

Definition test_case_3 : list Patient :=
  [P "TEST009" (VInt 40) (VStr "115/75") t98_6;
   P "TEST010" (VInt 40) (VStr "125/75") t98_6;
   P "TEST011" (VInt 40) (VStr "135/75") t98_6;
   P "TEST012" (VInt 40) (VStr "115/85") t98_6;
   P "TEST013" (VInt 40) (VStr "145/75") t98_6;
   P "TEST014" (VInt 40) (VStr "115/95") t98_6].

Definition test_case_4 : list Patient :=
  [P "TEST015" (VInt 45) VNone t98_6;
   P "TEST016" (VInt 45) (VStr "120/80") VNone;
   P "TEST017" VNone (VStr "120/80") t98_6;
   P "TEST018" (VInt 45) (VStr "120/80") t98_6;
   P "TEST019" VNone (VStr "120/80") t101_0].

Definition test_case_7 : list Patient :=
  [P "TEST028" (VInt 45) (VStr "120/") t98_6;
   P "TEST029" (VInt 45) (VStr "/80") t98_6;
   P "TEST030" (VInt 45) (VStr "INVALID") t98_6;
   P "TEST031" (VInt 45) (VStr "120/80") t98_6].

Definition test_case_9 : list Patient :=
  [P "TEST035" (VInt 70) (VStr "145/95") t101_0;
   P "TEST036" (VInt 35) (VStr "115/75") t98_0;
   P "TEST037" VNone VNone VNone;
   P "TEST038" (VInt 70) VNone t101_0].

Definition test_case_10 : list Patient :=
  [P "TEST039" (VInt 40) (VStr "200/120") t98_6;
   P "TEST040" (VInt 100) (VStr "120/80") t98_6;
   P "TEST041" (VInt 18) (VStr "115/75") t103_5;
   P "TEST042" (VInt 80) (VStr "180/100") t102_0].

(** A page of the upstream: one record per id, and the hasNext flag. *)
Definition record (id : string) : gmap string pyval := {["patient_id" := VStr id]}.

Definition page_of (ids : list string) (hasNext : bool) : response :=
  Response 200
    (mkBody (Some (List.map record ids))
       (Some (<["hasNext" := VBool hasNext]> {["totalPages" := VInt 3]}))).

Definition sanitized (id : string) : gmap string pyval :=
  to_dict (mkPatient (VStr id) VNone VNone VNone).

Definition failure (status_code : Z) : response :=
  Response status_code (mkBody None None).

End Tests.

(** * Further functions of the sources *)

(** ** risk_scorer.py: get_risk_breakdown *)

Definition get_risk_breakdown (patient : Patient) : gmap string pyval :=
  let bp_score := calculate_bp_risk (blood_pressure patient) in
  let temp_score := calculate_temp_risk (temperature patient) in
  let age_score := calculate_age_risk (age patient) in
  let total_score := bp_score + temp_score + age_score in
  <["patient_id" := patient_id patient]>
    (<["bp_score" := VInt bp_score]>
      (<["temp_score" := VInt temp_score]>
        (<["age_score" := VInt age_score]>
          (<["total_score" := VInt total_score]> ∅)))).

(** ** data_quality.py: debug_data_quality_issues *)

(** The dictionaries this function builds are [VDict] values, their
    entries in insertion order. *)
Definition issue (field : string) (value : pyval) : pyval :=
  VDict [("field", VStr field); ("status", VStr "missing/invalid");
         ("value", value)].

(** [patient_issues["issues"].append(x)]: the list held under "issues"
    grows in place. *)
Definition append_issue (patient_issues : pyval) (x : pyval) : pyval :=
  match patient_issues with
  | VDict d =>
      VDict
        (List.map
           (fun '(k, v) =>
              if String.eqb k "issues"
              then match v with
                   | VList l => (k, VList (l ++ [x]))
                   | _ => (k, v)
                   end
              else (k, v))
           d)
  | _ => patient_issues
  end.

(** [d[key]] on a dictionary; [None] stands for [KeyError]. *)
Fixpoint lookup_entry (d : list (string * pyval)) (key : string) : option pyval :=
  match d with
  | [] => None
  | (k, v) :: rest => if String.eqb k key then Some v else lookup_entry rest key
  end.

Definition subscript (v : pyval) (key : string) : option pyval :=
  match v with
  | VDict d => lookup_entry d key
  | _ => None
  end.

Definition debug_data_quality_issues (patients : list Patient) : list pyval :=
  fold_left
    (fun issues_details patient =>
       let patient_issues :=
         VDict [("patient_id", patient_id patient); ("issues", VList [])] in
       let patient_issues :=
         if negb (_is_valid_bp (blood_pressure patient))
         then append_issue patient_issues
                (issue "blood_pressure" (blood_pressure patient))
         else patient_issues in
       let patient_issues :=
         if negb (_is_valid_age (age patient))
         then append_issue patient_issues (issue "age" (age patient))
         else patient_issues in
       let patient_issues :=
         if negb (_is_valid_temperature (temperature patient))
         then append_issue patient_issues
                (issue "temperature" (temperature patient))
         else patient_issues in
       (* if patient_issues["issues"]: *)
       match subscript patient_issues "issues" with
       | Some v =>
           if truthy v then issues_details ++ [patient_issues] else issues_details
       | None => issues_details
       end)
    patients [].

(** The issues of one patient, in the order of the three tests, and the
    dictionary that reports them. *)
Definition issues_of (patient : Patient) : list pyval :=
  (if _is_valid_bp (blood_pressure patient) then []
   else [issue "blood_pressure" (blood_pressure patient)])
  ++ (if _is_valid_age (age patient) then []
      else [issue "age" (age patient)])
  ++ (if _is_valid_temperature (temperature patient) then []
      else [issue "temperature" (temperature patient)]).

Definition entry_of (patient : Patient) : pyval :=
  VDict [("patient_id", patient_id patient); ("issues", VList (issues_of patient))].

(** ** data_quality.py: print_data_quality_report *)

(** The lines the report prints, one constructor for each [print] of the
    function, with the values its text is formatted from. *)
Inductive printed : Type :=
  | PRule (leading_newline : bool)   (* "=" * 80, or "\n" + "=" * 80 *)
  | PTitle (title : string)
  | PTotalChecked (n : nat)          (* len(patients) *)
  | PWithIssues (n : nat)            (* len(patient_ids_with_issues) *)
  | PIds (ids : list string)         (* ', '.join(patient_ids_with_issues) *)
  | PPatientId (id : pyval)          (* patient_issue['patient_id'] *)
  | PName (name : pyval)             (* patient_issue['name'] *)
  | PIssuesHeader                    (* "Issues:" *)
  | PIssue (field status value : pyval)
  | PNoIssues
  | PFetching                        (* "Fetching patient data from API...\n" *)
  | PTotalFetched (n : nat).         (* len(all_patients) *)

Inductive report_exn : Type :=
  | KeyError (key : string)
  | JoinTypeError.   (* TypeError: sequence item: expected str instance *)

(** The items of [', '.join(l)]: every one must be a [str]. *)
Fixpoint join_items (l : list pyval) : option (list string) :=
  match l with
  | [] => Some []
  | VStr s :: rest => option_map (cons s) (join_items rest)
  | _ :: _ => None
  end.

(** What has been printed, and the exception that ended the report, if
    one did. *)
Definition report : Type := list printed * option report_exn.

(** [for issue in patient_issue["issues"]: print(...)] *)
Fixpoint print_issues (issues : list pyval) (out : list printed) : report :=
  match issues with
  | [] => (out, None)
  | i :: rest =>
      match subscript i "field" with
      | None => (out, Some (KeyError "field"))
      | Some field =>
          match subscript i "status" with
          | None => (out, Some (KeyError "status"))
          | Some status =>
              match subscript i "value" with
              | None => (out, Some (KeyError "value"))
              | Some value => print_issues rest (out ++ [PIssue field status value])
              end
          end
      end
  end.

(** [for patient_issue in detailed_issues: ...] *)
Fixpoint print_details (detailed_issues : list pyval) (out : list printed)
    : report :=
  match detailed_issues with
  | [] => (out, None)
  | patient_issue :: rest =>
      match subscript patient_issue "patient_id" with
      | None => (out, Some (KeyError "patient_id"))
      | Some id =>
          let out := out ++ [PPatientId id] in
          match subscript patient_issue "name" with
          | None => (out, Some (KeyError "name"))
          | Some name =>
              let out := out ++ [PName name; PIssuesHeader] in
              match subscript patient_issue "issues" with
              | Some (VList issues) =>
                  match print_issues issues out with
                  | (out, None) => print_details rest out
                  | failed => failed
                  end
              | _ => (out, Some (KeyError "issues"))
              end
          end
      end
  end.

Definition print_data_quality_report (patients : list Patient) : report :=
  let out := [PRule false; PTitle "DATA QUALITY REPORT"; PRule false] in
  let patient_ids_with_issues := get_data_quality_issues patients in
  let out :=
    out ++ [PTotalChecked (length patients);
            PWithIssues (length patient_ids_with_issues)] in
  let joined :=
    match patient_ids_with_issues with
    | [] => (out, None)
    | _ =>
        match join_items patient_ids_with_issues with
        | Some ids => (out ++ [PIds ids], None)
        | None => (out, Some JoinTypeError)
        end
    end in
  match joined with
  | (out, None) =>
      let detailed_issues := debug_data_quality_issues patients in
      let detailed :=
        match detailed_issues with
        | [] => (out ++ [PNoIssues], None)
        | _ =>
            print_details detailed_issues
              (out ++ [PRule true; PTitle "DETAILED ISSUES"; PRule false])
        end in
      match detailed with
      | (out, None) => (out ++ [PRule true], None)
      | failed => failed
      end
  | failed => failed
  end.

(** ** data_quality.py: the script under [if __name__ == "__main__"] *)

(** [Patient(patient_id=patient_dict["patient_id"], age=patient_dict["age"],
    ...)]: the four subscripts in the order of the arguments. *)
Definition patient_of_dict (patient_dict : gmap string pyval)
    : report_exn + Patient :=
  match patient_dict !! "patient_id" with
  | None => inl (KeyError "patient_id")
  | Some patient_id =>
      match patient_dict !! "age" with
      | None => inl (KeyError "age")
      | Some age =>
          match patient_dict !! "blood_pressure" with
          | None => inl (KeyError "blood_pressure")
          | Some blood_pressure =>
              match patient_dict !! "temperature" with
              | None => inl (KeyError "temperature")
              | Some temperature =>
                  inr (mkPatient patient_id age blood_pressure temperature)
              end
          end
      end
  end.

(** [for patient_dict in result.get("data", []): all_patients.append(...)] *)
Fixpoint patients_of_data (data : list (gmap string pyval))
    (all_patients : list Patient) : report_exn + list Patient :=
  match data with
  | [] => inr all_patients
  | patient_dict :: rest =>
      match patient_of_dict patient_dict with
      | inl e => inl e
      | inr patient => patients_of_data rest (all_patients ++ [patient])
      end
  end.

(** The script from the return of [getPatients] on. *)
Definition report_fetched (result : fetched) : report :=
  let out := [PFetching] in
  match patients_of_data (data result) [] with
  | inl e => (out, Some e)
  | inr all_patients =>
      let out := out ++ [PTotalFetched (length all_patients)] in
      let '(printed_by_report, e) := print_data_quality_report all_patients in
      (out ++ printed_by_report, e)
  end.

(** ** routes.py: one request of the loop *)

(** What [getPatients] does from one call of [requests.get] up to the
    next: it ends the run, or it goes on to another request, with the
    state and the attempt number of that request.  The body is that of
    [fetch]. *)
Inductive progress : Type :=
  | Done (o : outcome)
  | Next (st : state) (attempt : Z).

Section Step.
Context (rt : runtime).

Definition step (r : response) (st : state) (attempt : Z) : progress :=
  let after_for (st : state) : progress :=
    let st := if truthy (has_next st) then do_event (Sleep 1) st else st in
    let st := next_page st in
    if truthy (has_next st) then Next st 0 else Done (finish st) in
  let continue (st : state) : progress :=
    if attempt + 1 <? max_retries then Next st (attempt + 1)
    else after_for st in
  let st := do_event (Get (page st)) st in
  match r with
  | Response status_code json =>
      if status_code =? 200 then
        let sanitized :=
          match body_data json with
          | Some raw_patients => sanitize_page rt raw_patients (all_patients st)
          | None => Ok (all_patients st)
          end in
        match sanitized with
        | Raise e => Done (Raises e (trace st))
        | Ok patients =>
            let st := set_all_patients patients st in
            let st :=
              match body_pagination json with
              | Some pagination =>
                  set_has_next
                    (default (VBool false) (pagination !! "hasNext"))
                    (set_last_pagination pagination st)
              | None => set_has_next (VBool false) st
              end in
            after_for st
        end
      else if status_code =? 429 then
        let wait_time := 2 * 2 ^ attempt in
        continue (do_event (Sleep wait_time) st)
      else if (status_code >=? 500) && (attempt <? max_retries - 1) then
        let wait_time := backoff_factor * 2 ^ attempt in
        continue (do_event (Sleep wait_time) st)
      else
        after_for (set_has_next (VBool false) st)
  | RequestException =>
      if attempt <? max_retries - 1 then
        let wait_time := backoff_factor * 2 ^ attempt in
        continue (do_event (Sleep wait_time) st)
      else
        after_for (set_has_next (VBool false) st)
  end.

(** Where the loop stands once the answers of [upstream] are used up:
    the run has ended, or it is about to make attempt [attempt] for
    page [page st]. *)
Fixpoint advance (upstream : list response) (st : state) (attempt : Z)
    : progress :=
  match upstream with
  | [] => Next st attempt
  | r :: upstream' =>
      match step r st attempt with
      | Done o => Done o
      | Next st' attempt' => advance upstream' st' attempt'
      end
  end.

End Step.

(** The effects of a run, the pages it requested and the seconds it
    slept, in order. *)
Definition effects_of (o : outcome) : list event :=
  match o with
  | Returns _ effects | Raises _ effects | Starved effects => effects
  end.

Definition requests (effects : list event) : list Z :=
  flat_map (fun ev => match ev with Get p => [p] | Sleep _ => [] end) effects.

Definition sleeps (effects : list event) : list Z :=
  flat_map (fun ev => match ev with Get _ => [] | Sleep s => [s] end) effects.

(** A response with status 200 whose body holds the records under "data"
    and, under "pagination", the object [pagination] with its "hasNext"
    set to [has_next]. *)
Definition page_response (raw_patients : list (gmap string pyval))
    (pagination : gmap string pyval) (has_next : bool) : response :=
  Response 200
    (mkBody (Some raw_patients)
       (Some (<["hasNext" := VBool has_next]> pagination))).

(** An attempt that failed: [requests.get] raised, or the answer has a
    status of 500 or more. *)
Definition failed (r : response) : bool :=
  match r with
  | RequestException => true
  | Response status_code _ => status_code >=? 500
  end.

(** ** The interpreter's limit on printing an int *)

(** The values that [str] prints.  CPython refuses to print an int of
    more than 4300 digits (ValueError), on its own or inside a list or a
    dict, and the sanitizer calls [str] outside its [try] blocks.
    [PyConv.str] leaves this failure out, so what is proved of a call of
    [str] is stated for the values below: None, a bool, a float, a
    string, and an int of at most 4300 digits. *)
Definition prints (v : pyval) : Prop :=
  match v with
  | VInt z =>
      Z.of_nat (String.length (PyConv.str_of_int (Z.abs z)))
      <= PyStr.max_str_digits
  | VList _ | VDict _ => False
  | VNone | VBool _ | VFloat _ | VStr _ => True
  end.

(** * Properties *)

(** ** The runtime model on examples *)

Example split_demo : PyStr.split "/" "120/80" = ["120"; "80"] /\ PyStr.split "/" "" = [""]
  /\ PyStr.split "/" "150/" = ["150"; ""] /\ PyStr.split "/" "1/2/3" = ["1"; "2"; "3"].
Proof. repeat split; reflexivity. Qed.

Example int_demo : PyStr.int_of_str " 12 " = Some 12 /\ PyStr.int_of_str "-5" = Some (-5)
  /\ PyStr.int_of_str "1_000" = Some 1000 /\ PyStr.int_of_str "1__0" = None /\ PyStr.int_of_str "" = None
  /\ PyStr.int_of_str "+" = None /\ PyStr.int_of_str "12a" = None /\ PyStr.int_of_str "007" = Some 7
  /\ PyStr.int_of_str "+ 12" = None /\ PyStr.int_of_str "_12" = None /\ PyStr.int_of_str "12_" = None
  /\ PyStr.int_of_str (String "028" "12") = None
  /\ PyStr.int_of_str (PyStr.strip (String "028" "12")) = Some 12
  /\ PyStr.int_of_str (String "160" "12") = Some 12.
Proof. repeat split; reflexivity. Qed.

Example re_demo : PyStr.re_match_bp "120/80" = true /\ PyStr.re_match_bp "120/" = false
  /\ PyStr.re_match_bp "/80" = false /\ PyStr.re_match_bp "N/A" = false /\ PyStr.re_match_bp "1/2/3" = false
  /\ PyStr.strip "  a b  " = "a b" /\ PyStr.upper "n/a" = "N/A".
Proof. repeat split; reflexivity. Qed.

(** The float literals are valid binary64 numbers within half a unit in
    the last place (2^-47) of their numerals. *)
Example literals_binary64 :
  forallb PyNum.binary64 [PyNum.F99_5; PyNum.F99_6; PyNum.F100_9; PyNum.F101_0] = true.
Proof. reflexivity. Qed.

Example literals_nearest :
  (Qabs (PyNum.dyadic 7001690045677568 (-46) - (995 # 10)) <= (1 # 2 ^ 47)
   /\ Qabs (PyNum.dyadic 7008726920095334 (-46) - (996 # 10)) <= (1 # 2 ^ 47)
   /\ Qabs (PyNum.dyadic 7100206287526298 (-46) - (1009 # 10)) <= (1 # 2 ^ 47)
   /\ Qabs (PyNum.dyadic 7107243161944064 (-46) - (101 # 1)) <= (1 # 2 ^ 47))%Q.
Proof. repeat split; vm_compute; discriminate. Qed.

Example conversions_demo :
  PyNum.float_of_int 1 = Some (S754_finite false 4503599627370496 (-52))
  /\ PyNum.float_of_int (10 ^ 400) = None
  /\ PyNum.int_of_float (S754_finite true 7 (-1)) = PyNum.IntOk (-3)
  /\ PyNum.int_of_float (S754_infinity false) = PyNum.IntInfinite.
Proof. repeat split; vm_compute; reflexivity. Qed.

(** The text of floats and ints, as [repr] prints 98.6, 1e16, 1e-05,
    0.0001, 100.0, 1.5e+300, 1e15, 0.00012 and 1.5e-07. *)
Example float_format_demo :
  List.map (fun '(digits, decpt) => PyConv.format_finite digits decpt)
    [("986", 2); ("1", 17); ("1", -4); ("1", -3); ("1", 3); ("15", 301);
     ("1", 16); ("12", -3); ("15", -6)]
  = ["98.6"; "1e+16"; "1e-05"; "0.0001"; "100.0"; "1.5e+300";
     "1000000000000000.0"; "0.00012"; "1.5e-07"]
  /\ List.map PyConv.str_of_int [-7; 0; 1000] = ["-7"; "0"; "1000"].
Proof. split; vm_compute; reflexivity. Qed.

(** ** Order facts of the numeric comparisons *)

Module PyNumFacts.
Import PyNum.

Lemma xle_spec (p q : Q) :
  match (p ?= q)%Q with Lt | Eq => true | Gt => false end = true <-> (p <= q)%Q.
Proof.
  rewrite Qle_alt. destruct (p ?= q)%Q; split; intro H; try reflexivity;
    try discriminate; try (intro; discriminate). now elim H.
Qed.

Lemma le_finite (a b : num) :
  le a b = true ->
  match val a, val b with
  | XFin p, XFin q => (p <= q)%Q
  | XInf true, _ => True
  | _, XInf false => True
  | _, _ => False
  end.
Proof.
  unfold le, compare.
  destruct (val a) as [|[]|p], (val b) as [|[]|q]; simpl; try discriminate; auto.
  intro H. apply xle_spec. destruct (p ?= q)%Q; auto.
Qed.

Lemma le_trans (a b c : num) :
  le a b = true -> le b c = true -> le a c = true.
Proof.
  unfold le, compare.
  destruct (val a) as [|[]|p], (val b) as [|[]|q], (val c) as [|[]|r]; simpl;
    try discriminate; auto.
  intros H1 H2.
  assert (Hpq : (p <= q)%Q) by (apply xle_spec; destruct (p ?= q)%Q; auto).
  assert (Hqr : (q <= r)%Q) by (apply xle_spec; destruct (q ?= r)%Q; auto).
  assert (Hpr : (p <= r)%Q) by (eapply Qle_trans; eauto).
  apply xle_spec in Hpr. destruct (p ?= r)%Q; auto.
Qed.

Lemma lt_le (a b : num) : lt a b = true -> le a b = true.
Proof. unfold lt, le. destruct (compare a b) as [[]|]; auto. Qed.

Lemma gt_not_le (a b : num) : gt a b = true -> le a b = false.
Proof. unfold gt, le. destruct (compare a b) as [[]|]; auto; discriminate. Qed.

Lemma xcompare_antisym (x y : xval) :
  xcompare y x = option_map CompOpp (xcompare x y).
Proof.
  destruct x as [|[]|p], y as [|[]|q]; simpl; try reflexivity.
  now rewrite Qcompare_antisym.
Qed.

(** [a >= b] is [b <= a], and [a > b] is [b < a]. *)
Lemma ge_le (a b : num) : ge a b = le b a.
Proof.
  unfold ge, le, compare. rewrite (xcompare_antisym (val a) (val b)).
  destruct (xcompare (val a) (val b)) as [[]|]; reflexivity.
Qed.

Lemma gt_lt (a b : num) : gt a b = lt b a.
Proof.
  unfold gt, lt, compare. rewrite (xcompare_antisym (val a) (val b)).
  destruct (xcompare (val a) (val b)) as [[]|]; reflexivity.
Qed.

(** Without a NaN the order is total. *)
Lemma le_total (a b : num) :
  is_nan a = false -> is_nan b = false -> le a b = true \/ lt b a = true.
Proof.
  unfold is_nan, le, lt, compare. rewrite (xcompare_antisym (val a) (val b)).
  destruct (val a) as [|[]|p], (val b) as [|[]|q]; simpl; try discriminate; auto.
  destruct (p ?= q)%Q; auto.
Qed.

Lemma lt_not_le (a b : num) : lt b a = true -> le a b = false.
Proof. rewrite <- gt_lt. apply gt_not_le. Qed.

(** A NaN fails every ordering test. *)
Lemma nan_unordered (a b : num) :
  is_nan a = true ->
  lt a b = false /\ le a b = false /\ gt a b = false /\ ge a b = false
  /\ lt b a = false /\ le b a = false /\ gt b a = false /\ ge b a = false.
Proof.
  unfold is_nan, lt, le, gt, ge, compare.
  destruct (val a) as [|[]|p]; try discriminate. intros _.
  destruct (val b) as [|[]|q]; simpl; repeat split; reflexivity.
Qed.

Lemma le_not_lt (a b : num) : le a b = true -> lt b a = false.
Proof.
  intros H. destruct (lt b a) eqn:E; [|reflexivity].
  apply lt_not_le in E. congruence.
Qed.

Lemma le_not_gt (a b : num) : le a b = true -> gt a b = false.
Proof.
  intros H. destruct (gt a b) eqn:E; [|reflexivity].
  apply gt_not_le in E. congruence.
Qed.

Lemma int_not_nan (z : Z) : is_nan (NInt z) = false.
Proof. reflexivity. Qed.

End PyNumFacts.

(** ** Facts of the string operations *)

Module PyStrFacts.
Import PyStr.

Lemma append_cons (c : ascii) (r b : string) :
  String c r +:+ b = String c (r +:+ b).
Proof. reflexivity. Qed.

Lemma append_nil_l (b : string) : "" +:+ b = b.
Proof. reflexivity. Qed.

Lemma append_nil_r (s : string) : s +:+ "" = s.
Proof. induction s as [|c r IH]; [reflexivity|]. now rewrite append_cons, IH. Qed.

Lemma split_nonempty (sep : ascii) (s : string) : split sep s <> [].
Proof.
  destruct s as [|c r]; simpl; [discriminate|].
  destruct (Ascii.eqb c sep); [discriminate|].
  destruct (split sep r); discriminate.
Qed.

(** A string without the separator is one part. *)
Lemma split_without (sep : ascii) (s : string) :
  contains sep s = false -> split sep s = [s].
Proof.
  induction s as [|c r IH]; simpl; [reflexivity|].
  destruct (Ascii.eqb c sep); simpl; [discriminate|].
  intros H. now rewrite (IH H).
Qed.

Lemma split_append (sep : ascii) (a b : string) :
  contains sep a = false ->
  split sep (a +:+ String sep b) = a :: split sep b.
Proof.
  induction a as [|c r IH]; [rewrite append_nil_l | rewrite append_cons]; simpl.
  - intros _. now rewrite Ascii.eqb_refl.
  - destruct (Ascii.eqb c sep); simpl; [discriminate|].
    intros H. now rewrite (IH H).
Qed.

(** Two parts come from exactly one separator. *)
Lemma split_two (sep : ascii) (s a b : string) :
  split sep s = [a; b] ->
  s = a +:+ String sep b /\ contains sep a = false /\ contains sep b = false.
Proof.
  revert a. induction s as [|c r IH]; simpl; intros a; [discriminate|].
  destruct (Ascii.eqb c sep) eqn:E.
  - apply Ascii.eqb_eq in E. subst c. intros H. injection H as <- H.
    assert (contains sep r = false /\ r = b) as [Hc ->].
    { clear IH. revert b H. induction r as [|c' r' IH']; simpl; intros b.
      - intros H. injection H as <-. auto.
      - destruct (Ascii.eqb c' sep).
        { intros H. injection H as _ H. now destruct (split_nonempty sep r'). }
        destruct (split sep r') as [|p ps] eqn:Es; [now destruct (split_nonempty sep r')|].
        intros H. injection H as <- ->. destruct (IH' p eq_refl) as [-> ->]. auto. }
    auto.
  - destruct (split sep r) as [|p ps] eqn:Es; [now destruct (split_nonempty sep r)|].
    intros H. injection H as <- ->.
    destruct (IH p eq_refl) as (-> & Ha & Hb). rewrite append_cons. simpl.
    rewrite E. auto.
Qed.

Lemma contains_append (sep : ascii) (a b : string) :
  contains sep (a +:+ b) = contains sep a || contains sep b.
Proof.
  induction a as [|c r IH]; [reflexivity|].
  rewrite append_cons. simpl. now rewrite IH, orb_assoc.
Qed.

(** *** Stripping *)

Lemma rstrip_by_cons (sp : ascii -> bool) (c : ascii) (r : string) :
  rstrip_by sp (String c r)
  = match rstrip_by sp r with
    | EmptyString => if sp c then EmptyString else String c EmptyString
    | String c' r' => String c (String c' r')
    end.
Proof. reflexivity. Qed.

Section Strip.
Variable sp : ascii -> bool.

Lemma lstrip_by_head (s : string) :
  match lstrip_by sp s with
  | EmptyString => True
  | String c _ => sp c = false
  end.
Proof.
  induction s as [|c r IH]; simpl; [exact I|].
  destruct (sp c) eqn:E; [exact IH|]. exact E.
Qed.

Lemma lstrip_by_fixed (c : ascii) (r : string) :
  sp c = false -> lstrip_by sp (String c r) = String c r.
Proof. simpl. now intros ->. Qed.

Lemma rstrip_by_head (c : ascii) (r : string) :
  sp c = false -> rstrip_by sp (String c r) = String c (rstrip_by sp r).
Proof. rewrite rstrip_by_cons. intros ->. now destruct (rstrip_by sp r). Qed.

(** Stripping what a stronger stripping left changes nothing. *)
Lemma rstrip_by_sub (sp' : ascii -> bool) (s : string) :
  (forall c, sp' c = true -> sp c = true) ->
  rstrip_by sp' (rstrip_by sp s) = rstrip_by sp s.
Proof.
  intros Hsub. induction s as [|c r IH]; [reflexivity|].
  rewrite rstrip_by_cons. destruct (rstrip_by sp r) as [|c' r'] eqn:E.
  - destruct (sp c) eqn:Ec; [reflexivity|].
    rewrite rstrip_by_cons. simpl. destruct (sp' c) eqn:Ec'; [|reflexivity].
    apply Hsub in Ec'. congruence.
  - rewrite rstrip_by_cons, IH. reflexivity.
Qed.

Lemma strip_by_sub (sp' : ascii -> bool) (s : string) :
  (forall c, sp' c = true -> sp c = true) ->
  strip_by sp' (strip_by sp s) = strip_by sp s.
Proof.
  intros Hsub. unfold strip_by. pose proof (lstrip_by_head s) as H.
  destruct (lstrip_by sp s) as [|c r]; [reflexivity|].
  assert (H' : sp' c = false).
  { destruct (sp' c) eqn:E; [|reflexivity]. apply Hsub in E. congruence. }
  assert (E : lstrip_by sp' (rstrip_by sp (String c r)) = rstrip_by sp (String c r)).
  { rewrite (rstrip_by_head c r H). simpl. now rewrite H'. }
  rewrite E. now apply rstrip_by_sub.
Qed.

Lemma contains_lstrip_by (sep : ascii) (s : string) :
  sp sep = false -> contains sep (lstrip_by sp s) = contains sep s.
Proof.
  intros Hs. induction s as [|c r IH]; simpl; [reflexivity|].
  destruct (sp c) eqn:E; [|reflexivity].
  rewrite IH. destruct (Ascii.eqb c sep) eqn:E'; [|reflexivity].
  apply Ascii.eqb_eq in E'. congruence.
Qed.

Lemma contains_rstrip_by (sep : ascii) (s : string) :
  sp sep = false -> contains sep (rstrip_by sp s) = contains sep s.
Proof.
  intros Hs. induction s as [|c r IH]; [reflexivity|].
  rewrite rstrip_by_cons. simpl contains at 2. rewrite <- IH.
  destruct (rstrip_by sp r) as [|c' r'] eqn:E; [|reflexivity].
  simpl. destruct (sp c) eqn:Ec; simpl.
  - destruct (Ascii.eqb c sep) eqn:E'; [|reflexivity].
    apply Ascii.eqb_eq in E'. congruence.
  - reflexivity.
Qed.

Lemma contains_strip_by (sep : ascii) (s : string) :
  sp sep = false -> contains sep (strip_by sp s) = contains sep s.
Proof.
  intros Hs. unfold strip_by. now rewrite contains_rstrip_by, contains_lstrip_by.
Qed.

End Strip.

Lemma int_space_is_space (c : ascii) : is_int_space c = true -> is_space c = true.
Proof.
  destruct c as [[] [] [] [] [] [] [] []]; try reflexivity; discriminate.
Qed.

Lemma strip_idem (s : string) : strip (strip s) = strip s.
Proof. apply strip_by_sub. auto. Qed.

(** [int()] finds no whitespace to skip in a stripped string. *)
Lemma int_strip_of_strip (s : string) :
  strip_by is_int_space (strip s) = strip s.
Proof. apply strip_by_sub, int_space_is_space. Qed.

Lemma contains_strip (sep : ascii) (s : string) :
  is_space sep = false -> contains sep (strip s) = contains sep s.
Proof. apply contains_strip_by. Qed.

Lemma lstrip_fixed (c : ascii) (r : string) :
  is_space c = false -> lstrip_by is_space (String c r) = String c r.
Proof. apply lstrip_by_fixed. Qed.

Lemma rstrip_head (c : ascii) (r : string) :
  is_space c = false ->
  rstrip_by is_space (String c r) = String c (rstrip_by is_space r).
Proof. apply rstrip_by_head. Qed.

(** *** Integer literals *)

Lemma digit_val_some (c : ascii) (d : Z) : digit_val c = Some d -> is_digit c = true.
Proof. unfold digit_val. destruct (is_digit c); [reflexivity|discriminate]. Qed.

(** A literal that [int()] accepts holds digits and underscores only. *)
Lemma int_digits_chars (sep : ascii) (s : string) (acc : Z) (b : bool) (z : Z) :
  is_digit sep = false -> sep <> "_"%char ->
  int_digits s acc b = Some z -> contains sep s = false.
Proof.
  intros Hd Hu. revert acc b. induction s as [|c r IH]; simpl; intros acc b H;
    [reflexivity|].
  destruct (digit_val c) as [d|] eqn:E.
  - apply digit_val_some in E. rewrite (IH _ _ H), orb_false_r.
    destruct (Ascii.eqb c sep) eqn:E'; [|reflexivity].
    apply Ascii.eqb_eq in E'. congruence.
  - destruct (Ascii.eqb c "_") eqn:Eu; simpl in H; [|discriminate].
    destruct b; [|discriminate]. rewrite (IH _ _ H), orb_false_r.
    apply Ascii.eqb_eq in Eu. subst c.
    destruct (Ascii.eqb "_" sep) eqn:E'; [|reflexivity].
    apply Ascii.eqb_eq in E'. congruence.
Qed.

Lemma int_literal_digits (s : string) (z : Z) :
  int_literal s = Some z -> int_digits s 0 false = Some z.
Proof.
  unfold int_literal. destruct (int_digits s 0 false); [|discriminate].
  now destruct (count_digits s >? max_str_digits).
Qed.

Lemma int_of_str_no_slash (s : string) (z : Z) :
  int_of_str s = Some z -> contains "/" s = false.
Proof.
  unfold int_of_str. intros H.
  rewrite <- (contains_strip_by is_int_space "/" s) by reflexivity.
  destruct (strip_by is_int_space s) as [|c r]; [discriminate|].
  destruct (Ascii.eqb c "+") eqn:Ep.
  - apply Ascii.eqb_eq in Ep. subst c. simpl. apply int_literal_digits in H.
    apply (int_digits_chars "/" r 0 false z); [reflexivity|discriminate|exact H].
  - destruct (Ascii.eqb c "-") eqn:Em.
    + apply Ascii.eqb_eq in Em. subst c. simpl.
      destruct (int_literal r) as [z'|] eqn:E; [|discriminate].
      apply int_literal_digits in E.
      apply (int_digits_chars "/" r 0 false z'); [reflexivity|discriminate|exact E].
    + apply int_literal_digits in H.
      apply (int_digits_chars "/" (String c r) 0 false z);
        [reflexivity|discriminate|exact H].
Qed.

(** A side of "S/D" that reads as an integer once stripped holds no slash. *)
Lemma int_of_stripped_no_slash (s : string) (z : Z) :
  int_of_str (strip s) = Some z -> contains "/" s = false.
Proof.
  intros H. apply int_of_str_no_slash in H.
  now rewrite contains_strip in H.
Qed.

End PyStrFacts.

(** ** Risk scores *)

Lemma bp_risk_bounds (bp : pyval) : 0 <= calculate_bp_risk bp <= 3.
Proof.
  unfold calculate_bp_risk.
  destruct (negb (truthy bp) || negb (is_str bp)); [lia|].
  destruct bp; try lia.
  destruct (PyStr.split "/" s) as [|part0 [|part1 [|? ?]]]; try lia.
  destruct (PyStr.int_of_str (PyStr.strip part0)) as [systolic|]; [|lia].
  destruct (PyStr.int_of_str (PyStr.strip part1)) as [diastolic|]; [|lia].
  cbv zeta.
  repeat match goal with
         | |- context [if ?c then _ else _] => destruct c
         end; lia.
Qed.

Lemma temp_risk_bounds (t : pyval) : 0 <= calculate_temp_risk t <= 2.
Proof.
  unfold calculate_temp_risk. destruct (number_of t); [|lia].
  repeat match goal with
         | |- context [if ?c then _ else _] => destruct c
         end; lia.
Qed.

Lemma age_risk_bounds (a : pyval) : 0 <= calculate_age_risk a <= 2.
Proof.
  unfold calculate_age_risk. destruct (number_of a); [|lia].
  repeat match goal with
         | |- context [if ?c then _ else _] => destruct c
         end; lia.
Qed.

(** C1: the total risk is the sum of the three sub-scores, the blood
    pressure score lies in 0..3, the temperature score in 0..2 and the
    age score in 0..2, so the total lies in 0..8 (in fact in 0..7); the
    total is a function of the three scored fields alone, so identical
    input gives the identical total. *)
Theorem total_risk_sum_of_bounded_scores (patient : Patient) :
  calculate_total_risk patient
  = calculate_bp_risk (blood_pressure patient)
    + calculate_temp_risk (temperature patient)
    + calculate_age_risk (age patient)
  /\ 0 <= calculate_bp_risk (blood_pressure patient) <= 3
  /\ 0 <= calculate_temp_risk (temperature patient) <= 2
  /\ 0 <= calculate_age_risk (age patient) <= 2
  /\ 0 <= calculate_total_risk patient <= 8
  /\ calculate_total_risk patient <= 7
  /\ (forall other : Patient,
        blood_pressure other = blood_pressure patient ->
        temperature other = temperature patient ->
        age other = age patient ->
        calculate_total_risk other = calculate_total_risk patient).
Proof.
  pose proof (bp_risk_bounds (blood_pressure patient)).
  pose proof (temp_risk_bounds (temperature patient)).
  pose proof (age_risk_bounds (age patient)).
  unfold calculate_total_risk; cbv zeta.
  repeat split; try lia.
  intros other Hbp Ht Ha. now rewrite Hbp, Ht, Ha.
Qed.

(** The scenarios of the test suite. *)
Example scenario_total_0 :
  calculate_total_risk (mkPatient (VStr "TEST001") (VInt 35) (VStr "119/79") (VFloat PyNum.F98_6)) = 0.
Proof. vm_compute. reflexivity. Qed.

Example scenario_total_4 :
  calculate_total_risk
    (mkPatient (VStr "TEST004") (VInt 50) (VStr "135/79") (VFloat PyNum.F99_6)) = 4.
Proof. vm_compute. reflexivity. Qed.

Example scenario_total_7 :
  calculate_total_risk
    (mkPatient (VStr "TEST035") (VInt 70) (VStr "145/95") (VFloat PyNum.F101_0)) = 7.
Proof. vm_compute. reflexivity. Qed.

(** *** Temperature *)

Section TemperatureBuckets.
Import PyNum PyNumFacts.

Local Abbreviation c99_5 := (NFloat F99_5).
Local Abbreviation c99_6 := (NFloat F99_6).
Local Abbreviation c100_9 := (NFloat F100_9).
Local Abbreviation c101_0 := (NFloat F101_0).

(** The thresholds are ordered: 99.5 < 99.6 <= 100.9 < 101.0. *)
Lemma thresholds_ordered :
  le c99_6 c99_5 = false /\ le c101_0 c100_9 = false /\ le c101_0 c99_5 = false
  /\ le c99_6 c100_9 = true.
Proof. repeat split; vm_compute; reflexivity. Qed.

Lemma not_le_99_5 (t : num) : le c99_6 t = true -> le t c99_5 = false.
Proof.
  intros H. destruct (le t c99_5) eqn:E; [|reflexivity].
  pose proof (le_trans _ _ _ H E) as F.
  destruct thresholds_ordered as [G _]. congruence.
Qed.

Lemma not_le_100_9 (t : num) : le c101_0 t = true -> le t c100_9 = false.
Proof.
  intros H. destruct (le t c100_9) eqn:E; [|reflexivity].
  pose proof (le_trans _ _ _ H E) as F.
  destruct thresholds_ordered as [_ [G _]]. congruence.
Qed.

Lemma ge_101_not_le_99_5 (t : num) : le c101_0 t = true -> le t c99_5 = false.
Proof.
  intros H. destruct (le t c99_5) eqn:E; [|reflexivity].
  pose proof (le_trans _ _ _ H E) as F.
  destruct thresholds_ordered as [_ [_ [G _]]]. congruence.
Qed.

(** On the three buckets the code does what its docstring lists: a
    missing or non-numeric temperature scores 0; a numeric temperature T
    scores 0 exactly when T <= 99.5, scores 1 exactly when
    99.6 <= T <= 100.9, and scores 2 whenever T >= 101.0; the buckets
    are mutually exclusive.  (Comparisons are Python's, against the float
    literals.) *)
Lemma temp_risk_buckets (temperature : pyval) :
  (number_of temperature = None -> calculate_temp_risk temperature = 0)
  /\ (forall T : num, number_of temperature = Some T ->
        (calculate_temp_risk temperature = 0 <-> le T c99_5 = true)
        /\ (calculate_temp_risk temperature = 1
            <-> le c99_6 T = true /\ le T c100_9 = true)
        /\ (ge T c101_0 = true -> calculate_temp_risk temperature = 2)
        /\ ~ (le T c99_5 = true /\ le c99_6 T = true)
        /\ ~ (le T c99_5 = true /\ ge T c101_0 = true)
        /\ ~ (le T c100_9 = true /\ ge T c101_0 = true)
        /\ (calculate_temp_risk temperature = 0
            \/ calculate_temp_risk temperature = 1
            \/ calculate_temp_risk temperature = 2)).
Proof.
  unfold calculate_temp_risk. split.
  - intros ->. reflexivity.
  - intros T ->.
    rewrite !ge_le.
    destruct (le T c99_5) eqn:E0.
    + repeat split; auto; try discriminate.
      * intros [H _]. apply not_le_99_5 in H. congruence.
      * intros H. apply ge_101_not_le_99_5 in H. congruence.
      * intros [_ H]. apply not_le_99_5 in H. congruence.
      * intros [_ H]. apply ge_101_not_le_99_5 in H. congruence.
      * intros [H1 H]. apply not_le_100_9 in H. congruence.
    + destruct (le c99_6 T) eqn:E1, (le T c100_9) eqn:E2; simpl;
        repeat split; auto; try discriminate; try lia;
        try (intros [? ?]; discriminate);
        try (intros H; apply not_le_100_9 in H; congruence);
        try (intros [_ H]; apply not_le_100_9 in H; congruence).
Qed.

(** The score 2 is not kept for T >= 101.0. *)
Lemma temp_risk_99_55_counterexample :
  ~ (calculate_temp_risk (VFloat F99_55) = 2
     <-> ge (NFloat F99_55) (NFloat F101_0) = true).
Proof.
  intros [H _].
  assert (E : calculate_temp_risk (VFloat F99_55) = 2) by (vm_compute; reflexivity).
  specialize (H E). vm_compute in H. discriminate.
Qed.

(** The other values outside the three buckets score 2 as well. *)
Example temp_risk_outside_buckets :
  calculate_temp_risk (VFloat F100_95) = 2
  /\ calculate_temp_risk (VFloat S754_nan) = 2
  /\ le (NFloat F99_55) c99_5 = false /\ le c99_6 (NFloat F99_55) = false
  /\ ge (NFloat F99_55) c101_0 = false.
Proof. repeat split; vm_compute; reflexivity. Qed.

(** C3: the code breaks the claim between the buckets.  At 99.55, above
    99.5 and below 99.6, [calculate_temp_risk] returns 2, from the
    [else] branch that the source comments as "temperature >= 101.0" and
    whose score the docstring keeps for a high fever of 101.0 or more;
    the claim gives 2 exactly when T >= 101.0, and 99.55 < 101.0.  The
    same happens at 100.95, between 100.9 and 101.0. *)
Theorem temp_risk_below_101_scores_2 :
  calculate_temp_risk (VFloat F99_55) = 2
  /\ lt c99_5 (NFloat F99_55) = true /\ lt (NFloat F99_55) c99_6 = true
  /\ lt (NFloat F99_55) c101_0 = true /\ ge (NFloat F99_55) c101_0 = false
  /\ calculate_temp_risk (VFloat F100_95) = 2
  /\ lt c100_9 (NFloat F100_95) = true /\ lt (NFloat F100_95) c101_0 = true
  /\ ge (NFloat F100_95) c101_0 = false.
Proof. repeat split; vm_compute; reflexivity. Qed.

End TemperatureBuckets.

(** *** Blood pressure *)

Lemma bp_risk_of_parts (a b : string) (S D : Z) :
  PyStr.int_of_str (PyStr.strip a) = Some S ->
  PyStr.int_of_str (PyStr.strip b) = Some D ->
  calculate_bp_risk (VStr (a +:+ String "/" b))
  = Z.max (systolic_bucket S) (diastolic_bucket D).
Proof.
  intros Ha Hb. unfold calculate_bp_risk.
  assert (Hne : truthy (VStr (a +:+ String "/" b)) = true) by (now destruct a).
  rewrite Hne. cbn [negb is_str orb].
  rewrite PyStrFacts.split_append
    by (eapply PyStrFacts.int_of_stripped_no_slash; eauto).
  rewrite PyStrFacts.split_without
    by (eapply PyStrFacts.int_of_stripped_no_slash; eauto).
  rewrite Ha, Hb. cbv zeta.
  unfold systolic_bucket, diastolic_bucket.
  repeat match goal with
         | |- context [if ?c then _ else _] => destruct c eqn:?
         end; lia.
Qed.

Lemma bp_risk_positive_parses (bp : pyval) :
  calculate_bp_risk bp <> 0 -> exists S D, bp_parses bp S D.
Proof.
  unfold calculate_bp_risk.
  destruct (negb (truthy bp) || negb (is_str bp)); [congruence|].
  destruct bp as [| | | |s| |]; try congruence.
  destruct (PyStr.split "/" s) as [|part0 [|part1 [|? ?]]] eqn:Es; try congruence.
  destruct (PyStr.int_of_str (PyStr.strip part0)) as [systolic|] eqn:E0; [|congruence].
  destruct (PyStr.int_of_str (PyStr.strip part1)) as [diastolic|] eqn:E1; [|congruence].
  intros _. exists systolic, diastolic, part0, part1.
  apply PyStrFacts.split_two in Es as [-> _]. auto.
Qed.

(** C2: a blood pressure that is None, or any value that does not parse
    as "S/D" with integers S and D, scores 0; one that parses scores the
    maximum of the systolic bucket (0 below 120, 1 for 120-129, 2 for
    130-139, 3 from 140) and the diastolic bucket (0 below 80, 2 for
    80-89, 3 from 90); 119/120/129/130/139/140 and 79/80/89/90 fall on
    the bucket edges. *)
Theorem bp_risk_max_of_buckets (bp : pyval) :
  (forall S D : Z, bp_parses bp S D ->
     calculate_bp_risk bp = Z.max (systolic_bucket S) (diastolic_bucket D))
  /\ ((~ exists S D : Z, bp_parses bp S D) -> calculate_bp_risk bp = 0)
  /\ calculate_bp_risk VNone = 0
  /\ List.map (fun s => calculate_bp_risk (VStr s))
       ["119/79"; "120/79"; "129/79"; "130/79"; "139/79"; "140/79"]
     = [0; 1; 1; 2; 2; 3]
  /\ List.map (fun s => calculate_bp_risk (VStr s))
       ["119/79"; "119/80"; "119/89"; "119/90"]
     = [0; 2; 2; 3]
  /\ List.map systolic_bucket [119; 120; 129; 130; 139; 140] = [0; 1; 1; 2; 2; 3]
  /\ List.map diastolic_bucket [79; 80; 89; 90] = [0; 2; 2; 3].
Proof.
  split; [|split; [|repeat split; vm_compute; reflexivity]].
  - intros S D (a & b & -> & Ha & Hb). now apply bp_risk_of_parts.
  - intros Hno. destruct (Z.eq_dec (calculate_bp_risk bp) 0) as [E|E]; [exact E|].
    destruct Hno. now apply bp_risk_positive_parses.
Qed.

Example bp_risk_malformed :
  List.map calculate_bp_risk
    [VStr "120/"; VStr "/80"; VStr "INVALID"; VStr ""; VStr "1/2/3"; VInt 120;
     VStr " 120 / 80 "; VStr "-5/-3"]
  = [0; 0; 0; 0; 0; 0; 2; 0].
Proof. vm_compute. reflexivity. Qed.

(** ** Classifiers *)

(** A loop that appends the id of each patient passing a test computes
    the ids of the filtered list, in order. *)
Lemma collect_ids (test : Patient -> bool)
    (step : list pyval -> Patient -> list pyval) :
  (forall ids p, step ids p = if test p then ids ++ [patient_id p] else ids) ->
  forall patients acc,
    fold_left step patients acc
    = acc ++ List.map patient_id (List.filter test patients).
Proof.
  intros Hstep. induction patients as [|p ps IH]; intros acc; simpl.
  - now rewrite app_nil_r.
  - rewrite IH, Hstep. destruct (test p); simpl; [|reflexivity].
    now rewrite <- app_assoc.
Qed.

Lemma high_risk_filter (patients : list Patient) :
  get_high_risk_patients patients
  = List.map patient_id (List.filter is_high_risk patients).
Proof.
  unfold get_high_risk_patients.
  rewrite (collect_ids is_high_risk); [reflexivity|]. intros ids p. reflexivity.
Qed.

Lemma fever_filter (patients : list Patient) :
  get_fever_patients patients
  = List.map patient_id (List.filter has_fever patients).
Proof.
  unfold get_fever_patients.
  rewrite (collect_ids has_fever); [reflexivity|]. intros ids p.
  unfold has_fever. now destruct (number_of (temperature p)).
Qed.

Lemma data_quality_filter (patients : list Patient) :
  get_data_quality_issues patients
  = List.map patient_id (List.filter has_data_quality_issue patients).
Proof.
  unfold get_data_quality_issues.
  rewrite (collect_ids has_data_quality_issue); [reflexivity|]. intros ids p.
  unfold has_data_quality_issue. cbv zeta.
  destruct (_is_valid_bp (blood_pressure p)), (_is_valid_age (age p)),
    (_is_valid_temperature (temperature p)); reflexivity.
Qed.

(** C9: each classifier returns the patient_id of each input patient
    that satisfies its predicate, in input order; nothing is removed, so
    the output over two lists one after the other is the two outputs one
    after the other, and a patient listed twice is reported twice. *)
Theorem classifiers_filter_in_order (patients : list Patient) :
  (get_high_risk_patients patients
   = List.map patient_id (List.filter is_high_risk patients)
   /\ get_fever_patients patients
      = List.map patient_id (List.filter has_fever patients)
   /\ get_data_quality_issues patients
      = List.map patient_id (List.filter has_data_quality_issue patients))
  /\ (forall more : list Patient,
        get_high_risk_patients (patients ++ more)
        = get_high_risk_patients patients ++ get_high_risk_patients more
        /\ get_fever_patients (patients ++ more)
           = get_fever_patients patients ++ get_fever_patients more
        /\ get_data_quality_issues (patients ++ more)
           = get_data_quality_issues patients ++ get_data_quality_issues more)
  /\ (forall p : Patient,
        (is_high_risk p = true ->
         get_high_risk_patients [p; p] = [patient_id p; patient_id p])
        /\ (has_fever p = true ->
            get_fever_patients [p; p] = [patient_id p; patient_id p])
        /\ (has_data_quality_issue p = true ->
            get_data_quality_issues [p; p] = [patient_id p; patient_id p])).
Proof.
  split; [|split].
  - auto using high_risk_filter, fever_filter, data_quality_filter.
  - intros more. rewrite !high_risk_filter, !fever_filter, !data_quality_filter.
    rewrite !List.filter_app, !List.map_app. auto.
  - intros p. rewrite !high_risk_filter, !fever_filter, !data_quality_filter.
    simpl. repeat split; intros ->; reflexivity.
Qed.

(** *** Fever *)

Lemma has_fever_spec (p : Patient) :
  has_fever p = true
  <-> temperature p <> VNone
      /\ exists t : PyNum.num,
           number_of (temperature p) = Some t
           /\ PyNum.ge t (PyNum.NFloat PyNum.F99_6) = true.
Proof.
  unfold has_fever. split.
  - destruct (number_of (temperature p)) as [t|] eqn:E; [|discriminate].
    intros H. split; [|eauto]. intros E'. rewrite E' in E. discriminate.
  - intros [_ (t & -> & H)]. exact H.
Qed.

(** C4: the fever list holds a patient's id exactly when that patient's
    temperature is not None, is a number, and is >= 99.6; 99.5 is
    excluded and 99.6 included; the test reads the temperature alone and
    not the risk score: 99.6 has temperature risk 1, and 99.55 has
    temperature risk 2 without being a fever. *)
Theorem fever_iff_temperature_ge_99_6 (patients : list Patient) :
  (forall pid : pyval,
     In pid (get_fever_patients patients)
     <-> exists p : Patient,
           In p patients /\ patient_id p = pid
           /\ temperature p <> VNone
           /\ exists t : PyNum.num,
                number_of (temperature p) = Some t
                /\ PyNum.ge t (PyNum.NFloat PyNum.F99_6) = true)
  /\ (forall pid a bp : pyval,
        get_fever_patients [mkPatient pid a bp (VFloat PyNum.F99_5)] = []
        /\ get_fever_patients [mkPatient pid a bp (VFloat PyNum.F99_6)] = [pid]
        /\ get_fever_patients [mkPatient pid a bp VNone] = []
        /\ get_fever_patients [mkPatient pid a bp (VFloat PyNum.F99_55)] = [])
  /\ calculate_temp_risk (VFloat PyNum.F99_6) = 1
  /\ calculate_temp_risk (VFloat PyNum.F99_55) = 2.
Proof.
  split; [|split; [|split; vm_compute; reflexivity]].
  - intros pid. rewrite fever_filter, List.in_map_iff. split.
    + intros (p & Hid & Hin). apply List.filter_In in Hin as [Hin Hf].
      apply has_fever_spec in Hf. exists p. tauto.
    + intros (p & Hin & Hid & Hf). exists p. split; [exact Hid|].
      apply List.filter_In. split; [exact Hin|]. now apply has_fever_spec.
  - intros pid a bp. repeat split; vm_compute; reflexivity.
Qed.

(** *** Data quality *)

Section DataQuality.
Import PyNum PyNumFacts.

Lemma valid_bp_in_range (bp : pyval) : _is_valid_bp bp = true <-> bp_in_range bp.
Proof.
  unfold _is_valid_bp, bp_in_range. split.
  - destruct bp as [| | | |s| |]; try discriminate.
    destruct (PyStr.split "/" s) as [|part0 [|part1 [|? ?]]] eqn:Es; try discriminate.
    destruct (PyStr.int_of_str (PyStr.strip part0)) as [systolic|] eqn:E0;
      [|discriminate].
    destruct (PyStr.int_of_str (PyStr.strip part1)) as [diastolic|] eqn:E1;
      [|discriminate].
    destruct ((systolic <=? 0) || (systolic >? 300) || (diastolic <=? 0)
              || (diastolic >? 200)) eqn:R; [discriminate|]. intros _.
    exists systolic, diastolic. split; [|lia].
    exists part0, part1. apply PyStrFacts.split_two in Es as [-> _]. auto.
  - intros (S & D & (a & b & -> & Ha & Hb) & HS & HD).
    rewrite PyStrFacts.split_append
      by (eapply PyStrFacts.int_of_stripped_no_slash; eauto).
    rewrite PyStrFacts.split_without
      by (eapply PyStrFacts.int_of_stripped_no_slash; eauto).
    rewrite Ha, Hb.
    destruct ((S <=? 0) || (S >? 300) || (D <=? 0) || (D >? 200)) eqn:R;
      [lia|reflexivity].
Qed.

Lemma age_in_range_valid (age : pyval) : age_in_range age -> _is_valid_age age = true.
Proof.
  intros (a & E & H0 & H150). unfold _is_valid_age. rewrite E.
  now rewrite (le_not_lt _ _ H0), (le_not_gt _ _ H150).
Qed.

Lemma valid_age_in_range (age : pyval) :
  not_nan age -> _is_valid_age age = true -> age_in_range age.
Proof.
  intros Hn. unfold _is_valid_age, age_in_range.
  destruct (number_of age) as [a|] eqn:E; [|discriminate].
  specialize (Hn a E).
  destruct (lt a (NInt 0)) eqn:E0; [discriminate|].
  destruct (gt a (NInt 150)) eqn:E1; [discriminate|]. intros _.
  exists a. split; [reflexivity|]. split.
  - destruct (le_total (NInt 0) a eq_refl Hn); congruence.
  - destruct (le_total a (NInt 150) Hn eq_refl) as [H|H]; [exact H|].
    rewrite <- gt_lt in H. congruence.
Qed.

Lemma temperature_in_range_valid (temperature : pyval) :
  temperature_in_range temperature -> _is_valid_temperature temperature = true.
Proof.
  intros (t & E & H0 & H115). unfold _is_valid_temperature. rewrite E.
  now rewrite (lt_not_le _ _ H0), (le_not_gt _ _ H115).
Qed.

Lemma valid_temperature_in_range (temperature : pyval) :
  not_nan temperature -> _is_valid_temperature temperature = true ->
  temperature_in_range temperature.
Proof.
  intros Hn. unfold _is_valid_temperature, temperature_in_range.
  destruct (number_of temperature) as [t|] eqn:E; [|discriminate].
  specialize (Hn t E).
  destruct (le t (NInt 0)) eqn:E0; [discriminate|].
  destruct (gt t (NInt 115)) eqn:E1; [discriminate|]. intros _.
  exists t. split; [reflexivity|]. split.
  - destruct (le_total t (NInt 0) Hn eq_refl); congruence.
  - destruct (le_total t (NInt 115) Hn eq_refl) as [H|H]; [exact H|].
    rewrite <- gt_lt in H. congruence.
Qed.

(** Every flagged patient fails a range check. *)
Lemma data_quality_issue_fails_check (p : Patient) :
  has_data_quality_issue p = true ->
  ~ (bp_in_range (blood_pressure p) /\ age_in_range (age p)
     /\ temperature_in_range (temperature p)).
Proof.
  unfold has_data_quality_issue. intros H (Hb & Ha & Ht).
  apply valid_bp_in_range in Hb. apply age_in_range_valid in Ha.
  apply temperature_in_range_valid in Ht. rewrite Hb, Ha, Ht in H. discriminate.
Qed.

(** When neither the age nor the temperature is a NaN, the patients
    flagged are exactly those that fail a range check. *)
Lemma data_quality_iff_check_fails (p : Patient) :
  not_nan (age p) -> not_nan (temperature p) ->
  (has_data_quality_issue p = true
   <-> ~ (bp_in_range (blood_pressure p) /\ age_in_range (age p)
          /\ temperature_in_range (temperature p))).
Proof.
  intros Hna Hnt. split; [apply data_quality_issue_fails_check|].
  unfold has_data_quality_issue. intros H.
  destruct (_is_valid_bp (blood_pressure p)) eqn:Eb; [|reflexivity].
  destruct (_is_valid_age (age p)) eqn:Ea; [|reflexivity].
  destruct (_is_valid_temperature (temperature p)) eqn:Et; [|reflexivity].
  destruct H. split; [now apply valid_bp_in_range|].
  split; [now apply valid_age_in_range | now apply valid_temperature_in_range].
Qed.

(** A field that is None fails its check, so the patient is flagged. *)
Lemma none_field_flagged (p : Patient) :
  blood_pressure p = VNone \/ age p = VNone \/ temperature p = VNone ->
  has_data_quality_issue p = true /\ get_data_quality_issues [p] = [patient_id p].
Proof.
  intros H. assert (E : has_data_quality_issue p = true).
  { unfold has_data_quality_issue. destruct H as [->|[->| ->]]; simpl.
    - reflexivity.
    - now rewrite orb_true_r.
    - now rewrite orb_true_r. }
  split; [exact E|]. rewrite data_quality_filter. simpl. now rewrite E.
Qed.

(** A blood pressure in the sanitizer's format can still be out of range. *)
Example well_formed_bp_out_of_range :
  PyStr.re_match_bp "400/80" = true /\ _is_valid_bp (VStr "400/80") = false
  /\ PyStr.re_match_bp "0/0" = true /\ _is_valid_bp (VStr "0/0") = false.
Proof. repeat split; vm_compute; reflexivity. Qed.

(** C5 fails on a NaN temperature: NaN is a float, it is neither <= 0 nor
    > 115, so [_is_valid_temperature] accepts it and the patient is not
    flagged, although NaN does not satisfy 0 < temperature <= 115 (the
    other two fields are in range). *)
Theorem data_quality_nan_temperature_not_flagged :
  let p := mkPatient (VStr "P1") (VInt 30) (VStr "120/80") (VFloat S754_nan) in
  canonical p
  /\ bp_in_range (blood_pressure p)
  /\ age_in_range (age p)
  /\ ~ temperature_in_range (temperature p)
  /\ _is_valid_temperature (temperature p) = true
  /\ get_data_quality_issues [p] = [].
Proof.
  cbv zeta. split; [|split; [|split; [|split; [|split]]]].
  - unfold canonical; simpl. split; [eexists; reflexivity|].
    repeat split; right; eexists; reflexivity.
  - apply valid_bp_in_range. vm_compute. reflexivity.
  - exists (NInt 30). repeat split; vm_compute; reflexivity.
  - intros (t & E & H0 & _). simpl in E. injection E as <-.
    vm_compute in H0. discriminate.
  - vm_compute. reflexivity.
  - vm_compute. reflexivity.
Qed.

End DataQuality.

(** ** The test suite *)

(** The seven cases of [test_classifiers.py] give the counts the suite
    expects (high-risk, fever, data quality). *)
Example test_suite_counts :
  Tests.counts Tests.test_case_1 = (1, 1, 0)%nat
  /\ Tests.counts Tests.test_case_2 = (3, 3, 0)%nat
  /\ Tests.counts Tests.test_case_3 = (2, 0, 0)%nat
  /\ Tests.counts Tests.test_case_4 = (1, 1, 4)%nat
  /\ Tests.counts Tests.test_case_7 = (0, 0, 3)%nat
  /\ Tests.counts Tests.test_case_9 = (2, 2, 2)%nat
  /\ Tests.counts Tests.test_case_10 = (3, 2, 0)%nat.
Proof. repeat split; vm_compute; reflexivity. Qed.

(** A missing age: total 4, so high-risk, a fever, and a data quality
    issue at once. *)
Example scenario_missing_age :
  let p := Tests.P "TEST019" VNone (VStr "120/80") Tests.t101_0 in
  calculate_total_risk p = 4
  /\ get_high_risk_patients [p] = [VStr "TEST019"]
  /\ get_fever_patients [p] = [VStr "TEST019"]
  /\ get_data_quality_issues [p] = [VStr "TEST019"].
Proof. repeat split; vm_compute; reflexivity. Qed.

(** ** Sanitizer *)

Module SanitizerFacts.
Import PyStr PyStrFacts PyConv.

Lemma plain_head_not_in (c : ascii) (x : string) (l : list string) :
  forallb not_plain_head l = true -> plain c -> str_in (String c x) l = false.
Proof.
  intros Hl Hc. unfold str_in. induction l as [|w ws IH]; [reflexivity|].
  cbn [forallb] in Hl. apply andb_true_iff in Hl as [Hw Hws].
  cbn [existsb]. rewrite (IH Hws), orb_false_r.
  destruct w as [|d y]; [reflexivity|]. cbn [String.eqb].
  destruct (Ascii.eqb c d) eqn:E; [|reflexivity].
  apply Ascii.eqb_eq in E. subst d. cbn [not_plain_head] in Hw.
  destruct Hc as [Hd| ->]; [now rewrite Hd in Hw | discriminate].
Qed.

Lemma plain_not_space (c : ascii) : plain c -> is_space c = false.
Proof.
  intros [Hd| ->]; [|reflexivity].
  destruct c as [[] [] [] [] [] [] [] []]; try reflexivity; discriminate.
Qed.

Lemma plain_upper (c : ascii) : plain c -> upper_char c = c.
Proof.
  intros [Hd| ->]; [|reflexivity].
  destruct c as [[] [] [] [] [] [] [] []]; try reflexivity; discriminate.
Qed.

(** Text that starts like a number is no placeholder. *)
Lemma plain_text_not_placeholder (c : ascii) (r : string) (l : list string) :
  forallb not_plain_head l = true -> plain c ->
  str_in (upper (strip (String c r))) l = false.
Proof.
  intros Hl Hc. unfold strip, strip_by.
  rewrite (lstrip_fixed c r (plain_not_space c Hc)).
  rewrite (rstrip_head c r (plain_not_space c Hc)). simpl.
  rewrite (plain_upper c Hc). now apply plain_head_not_in.
Qed.

Lemma str_of_pos_head (n : positive) :
  exists c r, str_of_pos n = String c r /\ is_digit c = true.
Proof.
  unfold str_of_pos. pose proof (Unsigned.to_uint_nonnil n) as H.
  destruct (Pos.to_uint n); [congruence| ..]; simpl; eauto.
Qed.

Lemma format_finite_head (c : ascii) (r : string) (decpt : Z) :
  is_digit c = true ->
  exists c' r', format_finite (String c r) decpt = String c' r' /\ is_digit c' = true.
Proof.
  intros Hc. unfold format_finite.
  destruct ((decpt <=? -4) || (decpt >? 16)).
  { destruct r; rewrite append_cons; eauto. }
  destruct (decpt <=? 0) eqn:E0; [eauto|].
  destruct (decpt <? Z.of_nat (String.length (String c r))).
  - destruct (Z.to_nat decpt) as [|k] eqn:Ek; [lia|].
    simpl. rewrite append_cons. eauto.
  - rewrite append_cons. eauto.
Qed.

Section WithRuntime.
Context (rt : runtime).

Lemma str_of_float_not_placeholder (f : spec_float) (l : list string) :
  forallb not_plain_head l = true ->
  str_in "NAN" l = false -> str_in "INF" l = false ->
  str_in (upper (strip (str_of_float rt f))) l = false.
Proof.
  intros Hl Hnan Hinf. destruct f as [s|s| |s m e]; simpl.
  - destruct s; now apply plain_text_not_placeholder; [|right + left].
  - destruct s; [|exact Hinf].
    now apply plain_text_not_placeholder; [|right].
  - exact Hnan.
  - destruct (dtoa rt m e) as [digits decpt].
    destruct (str_of_pos_head digits) as (c & r & -> & Hc).
    destruct (format_finite_head c r decpt Hc) as (c' & r' & -> & Hc').
    destruct s; apply plain_text_not_placeholder; auto; [now right | now left].
Qed.

Lemma validate_age_None : validate_age VNone = Ok VNone.
Proof. reflexivity. Qed.

Lemma validate_age_int (z : Z) : validate_age (VInt z) = Ok (VInt z).
Proof. reflexivity. Qed.

Lemma validate_age_shape (v a : pyval) :
  validate_age v = Ok a -> a = VNone \/ exists z, a = VInt z.
Proof.
  unfold validate_age. destruct (is_none v || eq_empty_str v).
  - intros [= <-]. auto.
  - destruct (int v) as [z|[]]; intros [= <-]; eauto.
Qed.

Lemma validate_temperature_None : validate_temperature rt VNone = Ok VNone.
Proof. reflexivity. Qed.

Lemma validate_temperature_float (f : spec_float) :
  validate_temperature rt (VFloat f) = Ok (VFloat f).
Proof.
  unfold validate_temperature. cbn [is_none eq_empty_str orb str].
  now rewrite str_of_float_not_placeholder.
Qed.

Lemma validate_temperature_shape (v t : pyval) :
  validate_temperature rt v = Ok t -> t = VNone \/ exists f, t = VFloat f.
Proof.
  unfold validate_temperature. destruct (is_none v || eq_empty_str v).
  { intros [= <-]. auto. }
  destruct (str_in _ _).
  { intros [= <-]. auto. }
  destruct (float rt v) as [f|[]]; intros [= <-]; eauto.
Qed.

(** What [validate_blood_pressure] lets through: a stripped text that
    matches the pattern and is no placeholder. *)
Lemma validate_blood_pressure_shape (v : pyval) :
  validate_blood_pressure rt v = VNone
  \/ exists s, validate_blood_pressure rt v = VStr s
       /\ strip s = s /\ re_match_bp s = true
       /\ str_in (upper s) ["N/A"; "NA"; "INVALID"; "UNKNOWN"; "INVALID_BP_FORMAT"]
          = false.
Proof.
  unfold validate_blood_pressure.
  destruct (is_none v || eq_empty_str v); [now left|].
  set (bp_str := strip (str rt v)).
  destruct (str_in (upper bp_str) _) eqn:Ep; [now left|].
  destruct (re_match_bp bp_str) eqn:Em; simpl.
  - right. exists bp_str. repeat split; auto. apply strip_idem.
  - left. destruct (contains "/" bp_str); [|reflexivity].
    destruct (split "/" bp_str) as [|p0 [|p1 [|? ?]]]; try reflexivity.
    destruct (String.eqb p0 "" || String.eqb p1 ""); reflexivity.
Qed.

Lemma validate_blood_pressure_idem (v : pyval) :
  validate_blood_pressure rt (validate_blood_pressure rt v)
  = validate_blood_pressure rt v.
Proof.
  destruct (validate_blood_pressure_shape v) as [->|(s & -> & Hs & Hm & Hp)];
    [reflexivity|].
  unfold validate_blood_pressure. cbn [is_none str orb].
  destruct s as [|c r]; [discriminate|]. cbn [eq_empty_str].
  rewrite Hs, Hp, Hm. reflexivity.
Qed.

End WithRuntime.

End SanitizerFacts.

Section SanitizerTheorems.
Import SanitizerFacts.
Context (rt : runtime).

Lemma get_to_dict (p : Patient) :
  get (to_dict p) "patient_id" = patient_id p
  /\ get (to_dict p) "age" = age p
  /\ get (to_dict p) "blood_pressure" = blood_pressure p
  /\ get (to_dict p) "temperature" = temperature p.
Proof. unfold get, to_dict. repeat split; now simplify_map_eq. Qed.

(** Re-sanitizing the dictionary of a sanitized patient changes nothing. *)
Lemma sanitize_to_dict (raw : gmap string pyval) (p : Patient) :
  sanitize_patient rt raw = Ok p -> sanitize_patient rt (to_dict p) = Ok p.
Proof.
  unfold sanitize_patient at 1.
  destruct (validate_age (get raw "age")) as [a|e] eqn:Ea; [|discriminate].
  destruct (validate_temperature rt (get raw "temperature")) as [t|e] eqn:Et;
    [|discriminate].
  cbn. intros [= <-]. unfold sanitize_patient.
  destruct (get_to_dict
              (mkPatient (VStr (PyConv.str rt (get raw "patient_id"))) a
                 (validate_blood_pressure rt (get raw "blood_pressure")) t))
    as (-> & -> & -> & ->).
  cbn [patient_id age blood_pressure temperature].
  rewrite validate_blood_pressure_idem.
  apply validate_age_shape in Ea as [->|[z ->]];
    apply validate_temperature_shape in Et as [->|[f ->]];
    rewrite ?validate_age_None, ?validate_age_int, ?validate_temperature_None,
      ?validate_temperature_float; reflexivity.
Qed.

(** C8: sanitizing is idempotent through [to_dict]: sanitizing the
    dictionary of the sanitized record gives the sanitized record again,
    field for field; where the first sanitizing raises, so does the
    composition, with the same exception. *)
Theorem sanitize_patient_idempotent (raw : gmap string pyval) :
  (sanitize_patient rt raw ≫= (fun p => sanitize_patient rt (to_dict p)))
  = sanitize_patient rt raw
  /\ (forall p : Patient,
        sanitize_patient rt raw = Ok p ->
        sanitize_patient rt (to_dict p) = Ok p
        /\ patient_id p = get (to_dict p) "patient_id"
        /\ age p = get (to_dict p) "age"
        /\ blood_pressure p = get (to_dict p) "blood_pressure"
        /\ temperature p = get (to_dict p) "temperature").
Proof.
  split.
  - destruct (sanitize_patient rt raw) as [p|e] eqn:E; [|reflexivity].
    cbn. now apply (sanitize_to_dict raw).
  - intros p E. split; [now apply (sanitize_to_dict raw)|].
    destruct (get_to_dict p) as (-> & -> & -> & ->). auto.
Qed.

(** *** When the sanitizer raises *)

Lemma validate_age_raises (v : pyval) (e : exn) :
  validate_age v = Raise e ->
  e = OverflowError /\ exists s, v = VFloat (S754_infinity s).
Proof.
  unfold validate_age. destruct (is_none v || eq_empty_str v); [discriminate|].
  destruct v as [|b|z|f|s|l|d]; simpl; try discriminate.
  - destruct f as [s|s| |s m e']; simpl; try discriminate.
    intros [= <-]. eauto.
  - destruct (PyStr.int_of_str s); discriminate.
Qed.

Lemma validate_temperature_raises (v : pyval) (e : exn) :
  validate_temperature rt v = Raise e ->
  e = OverflowError /\ exists z, v = VInt z /\ PyNum.float_of_int z = None.
Proof.
  unfold validate_temperature. destruct (is_none v || eq_empty_str v); [discriminate|].
  destruct (PyStr.str_in _ _); [discriminate|].
  destruct v as [|b|z|f|s|l|d]; simpl; try discriminate.
  - destruct (PyNum.float_of_int z) eqn:E; [discriminate|]. intros [= <-]. eauto.
  - destruct (float_of_str rt s); discriminate.
Qed.

(** Outside the two overflows, and on fields that [str] prints (it
    refuses an int of more than 4300 digits), the sanitizer returns, and
    what it returns is canonical: every field is of its type or None. *)
Lemma sanitize_patient_returns_without_overflow (raw : gmap string pyval) :
  prints (get raw "patient_id") ->
  prints (get raw "blood_pressure") ->
  prints (get raw "temperature") ->
  (forall s, get raw "age" <> VFloat (S754_infinity s)) ->
  (forall z, get raw "temperature" = VInt z -> PyNum.float_of_int z <> None) ->
  exists p, sanitize_patient rt raw = Ok p /\ canonical p.
Proof.
  intros _ _ _ Hage Htemp. unfold sanitize_patient.
  destruct (validate_age (get raw "age")) as [a|e] eqn:Ea.
  2:{ apply validate_age_raises in Ea as [_ [s Hs]]. now destruct (Hage s). }
  destruct (validate_temperature rt (get raw "temperature")) as [t|e] eqn:Et.
  2:{ apply validate_temperature_raises in Et as [_ (z & Hz & Ho)].
      now destruct (Htemp z Hz). }
  cbn. eexists. split; [reflexivity|]. unfold canonical. cbn.
  split; [eauto|]. split; [now apply validate_age_shape in Ea|].
  split; [|now apply validate_temperature_shape in Et].
  destruct (validate_blood_pressure_shape rt (get raw "blood_pressure"))
    as [->|(s & -> & _)]; eauto.
Qed.

(** C7 fails on an overflow: [int()] of an infinite float and [float()]
    of an int beyond the float range raise OverflowError, which
    [except (ValueError, TypeError)] does not catch; the exception leaves
    [sanitize_patient].  JSON numbers such as 1e999 decode to these
    values. *)
Theorem sanitize_patient_raises_overflow :
  sanitize_patient rt
    (<["patient_id" := VStr "P1"]>
      (<["age" := VFloat (S754_infinity false)]>
        (<["blood_pressure" := VStr "120/80"]>
          (<["temperature" := VFloat PyNum.F98_6]> ∅))))
  = Raise OverflowError
  /\ sanitize_patient rt
       (<["patient_id" := VStr "P1"]>
         (<["age" := VInt 30]>
           (<["blood_pressure" := VStr "120/80"]>
             (<["temperature" := VInt (10 ^ 400)]> ∅))))
     = Raise OverflowError.
Proof.
  split.
  - unfold sanitize_patient, get. now simplify_map_eq.
  - vm_compute. reflexivity.
Qed.

(** C10 fails on the overflow of C7: a record with an infinite age and
    its id absent or null raises OverflowError, so no patient is
    produced.  Whenever the sanitizer returns, the id is a string, and
    for an absent or null id it is the string "None"; the sanitizer
    cannot tell a missing id from the id "None". *)
Theorem missing_patient_id_is_None_string :
  sanitize_patient rt {["age" := VFloat (S754_infinity false)]} = Raise OverflowError
  /\ sanitize_patient rt
       (<["patient_id" := VNone]> {["age" := VFloat (S754_infinity false)]})
     = Raise OverflowError
  /\ (forall raw : gmap string pyval,
        raw !! "patient_id" = None \/ raw !! "patient_id" = Some VNone ->
        (forall p, sanitize_patient rt raw = Ok p -> patient_id p = VStr "None")
        /\ sanitize_patient rt raw
           = sanitize_patient rt (<["patient_id" := VStr "None"]> raw))
  /\ (forall (raw : gmap string pyval) (p : Patient),
        sanitize_patient rt raw = Ok p -> exists s, patient_id p = VStr s).
Proof.
  split; [|split; [|split]].
  - unfold sanitize_patient, get. now simplify_map_eq.
  - unfold sanitize_patient, get. now simplify_map_eq.
  - intros raw Hid.
    assert (Hget : get raw "patient_id" = VNone).
    { unfold get. destruct Hid as [-> | ->]; reflexivity. }
    assert (Hsame : sanitize_patient rt raw
                    = sanitize_patient rt (<["patient_id" := VStr "None"]> raw)).
    { unfold sanitize_patient, get. rewrite lookup_insert_eq.
      rewrite !lookup_insert_ne by discriminate.
      fold (get raw "patient_id"). rewrite Hget. reflexivity. }
    split; [|exact Hsame].
    intros p. unfold sanitize_patient. rewrite Hget.
    destruct (validate_age _) as [a|e]; [|discriminate].
    destruct (validate_temperature _ _) as [t|e]; [|discriminate].
    cbn. now intros [= <-].
  - intros raw p. unfold sanitize_patient.
    destruct (validate_age _) as [a|e]; [|discriminate].
    destruct (validate_temperature _ _) as [t|e]; [|discriminate].
    cbn. intros [= <-]. eauto.
Qed.

(** The placeholder "INVALID" becomes None, scores 0 and is flagged. *)
Example scenario_invalid_bp :
  validate_blood_pressure rt (VStr "INVALID") = VNone
  /\ validate_blood_pressure rt (VStr " 120/80 ") = VStr "120/80"
  /\ validate_blood_pressure rt (VStr "150/") = VNone
  /\ validate_blood_pressure rt (VInt 120) = VNone
  /\ calculate_bp_risk VNone = 0
  /\ _is_valid_bp VNone = false.
Proof. repeat split; vm_compute; reflexivity. Qed.

Example validate_age_examples :
  validate_age (VStr "53") = Ok (VInt 53)
  /\ validate_age (VStr "fifty-three") = Ok VNone
  /\ validate_age (VStr "") = Ok VNone
  /\ validate_age (VFloat PyNum.F99_5) = Ok (VInt 99)
  /\ validate_age (VFloat S754_nan) = Ok VNone
  /\ validate_age (VList []) = Ok VNone
  /\ validate_age (VBool true) = Ok (VInt 1)
  /\ validate_age (VFloat (S754_infinity true)) = Raise OverflowError.
Proof. repeat split; vm_compute; reflexivity. Qed.

Example validate_temperature_examples :
  validate_temperature rt (VStr "TEMP_ERROR") = Ok VNone
  /\ validate_temperature rt (VStr " n/a ") = Ok VNone
  /\ validate_temperature rt (VInt 98)
     = Ok (VFloat (S754_finite false 6896136929411072 (-46)))
  /\ validate_temperature rt (VDict []) = Ok VNone
  /\ validate_temperature rt (VFloat S754_nan) = Ok (VFloat S754_nan).
Proof.
  repeat split; try (vm_compute; reflexivity).
  unfold validate_temperature. cbn [is_none eq_empty_str orb].
  destruct (PyStr.str_in _ _); reflexivity.
Qed.

(** The text "nan" is no placeholder: where [float("nan")] is the NaN, as
    in CPython, the sanitizer passes it on as a temperature, and the
    data quality classifier does not flag the patient. *)
Lemma nan_text_reaches_classifier :
  float_of_str rt "nan" = Some S754_nan ->
  exists p : Patient,
    sanitize_patient rt
      (<["patient_id" := VStr "P1"]>
        (<["age" := VInt 30]>
          (<["blood_pressure" := VStr "120/80"]>
            (<["temperature" := VStr "nan"]> ∅))))
    = Ok p
    /\ temperature p = VFloat S754_nan
    /\ get_data_quality_issues [p] = []
    /\ calculate_temp_risk (temperature p) = 2
    /\ get_fever_patients [p] = [].
Proof.
  intros Hnan. eexists. split.
  - unfold sanitize_patient, get. simplify_map_eq.
    unfold validate_temperature. cbn [is_none eq_empty_str orb PyConv.str PyConv.float].
    rewrite Hnan. vm_compute. reflexivity.
  - repeat split; vm_compute; reflexivity.
Qed.

End SanitizerTheorems.

(** ** Pagination *)

Section RoutesTheorems.
Context (rt : runtime).

(** Giving a page up ends the run: the accumulated records are returned
    and no further request is made, whatever the upstream would answer. *)
Lemma finish_abandoned (st : state) :
  exists r effects,
    finish (abandoned st) = Returns r effects
    /\ data r = all_patients st
    /\ effects = trace st ++ [Get (page st)].
Proof. unfold finish, abandoned. cbn. eauto. Qed.

(** A status that is neither 200 nor 429 nor a server error gives the
    page up at once. *)
Lemma client_error_abandons (upstream : list response) (st : state)
    (attempt status_code : Z) (json : body) :
  status_code <> 200 -> status_code <> 429 -> status_code < 500 ->
  fetch rt (Response status_code json :: upstream) st attempt
  = finish (abandoned st).
Proof.
  intros H200 H429 H500. cbn.
  destruct (status_code =? 200) eqn:E1; [lia|].
  destruct (status_code =? 429) eqn:E2; [lia|].
  destruct (status_code >=? 500) eqn:E3; [lia|]. reflexivity.
Qed.

(** The last attempt: a server error or a transport failure gives the
    page up. *)
Lemma server_error_exhausted (upstream : list response) (st : state)
    (status_code : Z) (json : body) :
  500 <= status_code ->
  fetch rt (Response status_code json :: upstream) st (max_retries - 1)
  = finish (abandoned st).
Proof.
  intros H500. cbn.
  destruct (status_code =? 200) eqn:E1; [lia|].
  destruct (status_code =? 429) eqn:E2; [lia|].
  now rewrite andb_false_r.
Qed.

Lemma transport_failure_exhausted (upstream : list response) (st : state) :
  fetch rt (RequestException :: upstream) st (max_retries - 1)
  = finish (abandoned st).
Proof. reflexivity. Qed.

(** Before the last attempt: they are retried after the wait
    [backoff_factor * 2 ^ attempt]. *)
Lemma server_error_retried (upstream : list response) (st : state)
    (attempt status_code : Z) (json : body) :
  500 <= status_code -> 0 <= attempt < max_retries - 1 ->
  fetch rt (Response status_code json :: upstream) st attempt
  = fetch rt upstream (retrying st (2 ^ attempt)) (attempt + 1).
Proof.
  intros H500 Ha. cbn. unfold max_retries, backoff_factor, retrying in *.
  rewrite Z.mul_1_l.
  assert (E1 : (status_code =? 200) = false) by lia.
  assert (E2 : (status_code =? 429) = false) by lia.
  assert (E3 : (status_code >=? 500) = true) by lia.
  assert (E4 : (attempt <? 10 - 1) = true) by lia.
  assert (E5 : (attempt + 1 <? 10) = true) by lia.
  now rewrite E1, E2, E3, E4, E5.
Qed.

Lemma transport_failure_retried (upstream : list response) (st : state)
    (attempt : Z) :
  0 <= attempt < max_retries - 1 ->
  fetch rt (RequestException :: upstream) st attempt
  = fetch rt upstream (retrying st (2 ^ attempt)) (attempt + 1).
Proof.
  intros Ha. cbn. unfold max_retries, backoff_factor, retrying in *.
  rewrite Z.mul_1_l.
  assert (E4 : (attempt <? 10 - 1) = true) by lia.
  assert (E5 : (attempt + 1 <? 10) = true) by lia.
  now rewrite E4, E5.
Qed.

(** A rate limit is retried after the wait [2 * 2 ^ attempt]... *)
Lemma rate_limit_retried (upstream : list response) (st : state)
    (attempt : Z) (json : body) :
  0 <= attempt < max_retries - 1 ->
  fetch rt (Response 429 json :: upstream) st attempt
  = fetch rt upstream (retrying st (2 * 2 ^ attempt)) (attempt + 1).
Proof.
  intros Ha. cbn. unfold max_retries, retrying in *.
  assert (E5 : (attempt + 1 <? 10) = true) by lia.
  now rewrite E5.
Qed.

(** ... but on the last attempt the [for] loop ends without [break] and
    without touching has_next, which is still true: the loop goes on to
    the next page. *)
Lemma rate_limit_exhausted_continues (upstream : list response) (st : state)
    (json : body) :
  truthy (has_next st) = true ->
  fetch rt (Response 429 json :: upstream) st (max_retries - 1)
  = fetch rt upstream
      (next_page (do_event (Sleep 1) (retrying st (2 * 2 ^ (max_retries - 1))))) 0.
Proof.
  intros H. cbn. unfold max_retries, retrying.
  change (10 - 1 + 1 <? 10) with false. cbv iota.
  rewrite H. cbn. now rewrite H.
Qed.

(** Ten attempts at one page.  Transport failures and server errors end
    the run with the records gathered so far; the only requests made are
    those for this page. *)
Ltac ten_attempts retried exhausted :=
  cbn [repeat app];
  do 9 (rewrite retried by (unfold max_retries; lia));
  replace (0 + 1 + 1 + 1 + 1 + 1 + 1 + 1 + 1 + 1) with (max_retries - 1)
    by reflexivity;
  rewrite exhausted by (unfold max_retries; lia).

Lemma transport_exhaustion_returns_accumulated (upstream : list response)
    (st : state) :
  exists r effects,
    fetch rt (repeat RequestException 10 ++ upstream) st 0 = Returns r effects
    /\ data r = all_patients st
    /\ (forall p, In (Get p) effects -> In (Get p) (trace st) \/ p = page st).
Proof.
  ten_attempts transport_failure_retried transport_failure_exhausted.
  unfold finish, abandoned, retrying. cbn. do 2 eexists.
  split; [reflexivity|]. split; [reflexivity|].
  intros p Hp. rewrite !in_app_iff in Hp. cbn in Hp.
  intuition (try discriminate; try congruence).
Qed.

Lemma server_exhaustion_returns_accumulated (upstream : list response)
    (st : state) (status_code : Z) (json : body) :
  500 <= status_code ->
  exists r effects,
    fetch rt (repeat (Response status_code json) 10 ++ upstream) st 0
    = Returns r effects
    /\ data r = all_patients st
    /\ (forall p, In (Get p) effects -> In (Get p) (trace st) \/ p = page st).
Proof.
  intros H500.
  ten_attempts server_error_retried server_error_exhausted.
  unfold finish, abandoned, retrying. cbn. do 2 eexists.
  split; [reflexivity|]. split; [reflexivity|].
  intros p Hp. rewrite !in_app_iff in Hp. cbn in Hp.
  intuition (try discriminate; try congruence).
Qed.

(** Ten rate limit responses leave the loop running: it goes on with the
    next page as if the page had been fetched. *)
Lemma rate_limit_exhaustion_continues (upstream : list response) (st : state)
    (json : body) :
  truthy (has_next st) = true ->
  exists st',
    fetch rt (repeat (Response 429 json) 10 ++ upstream) st 0
    = fetch rt upstream st' 0
    /\ page st' = page st + 1
    /\ all_patients st' = all_patients st
    /\ has_next st' = has_next st.
Proof.
  intros H. cbn [repeat app].
  do 9 (rewrite rate_limit_retried by (unfold max_retries; lia)).
  replace (0 + 1 + 1 + 1 + 1 + 1 + 1 + 1 + 1 + 1) with (max_retries - 1)
    by reflexivity.
  rewrite rate_limit_exhausted_continues by exact H.
  eexists. split; [reflexivity|]. cbn. auto.
Qed.

(** C6 fails when the retries of a page end on HTTP 429: after ten rate
    limit responses for page 1 the loop sleeps and requests page 2, and
    the records of page 2 are returned, where the claim has the fetcher
    stop and return the records gathered before. *)
Theorem rate_limit_exhaustion_requests_next_page :
  getPatients rt
    (repeat (Response 429 (mkBody None None)) 10
     ++ [Response 200 (mkBody (Some [{["patient_id" := VStr "P2"]}]) None)])
  = Returns
      (mkFetched [to_dict (mkPatient (VStr "P2") VNone VNone VNone)] 1 (VInt 2))
      [Get 1; Sleep 2; Get 1; Sleep 4; Get 1; Sleep 8; Get 1; Sleep 16;
       Get 1; Sleep 32; Get 1; Sleep 64; Get 1; Sleep 128; Get 1; Sleep 256;
       Get 1; Sleep 512; Get 1; Sleep 1024; Sleep 1; Get 2].
Proof. vm_compute. reflexivity. Qed.

(** The same ten failures as transport errors or server errors stop the
    run with nothing fetched and no request for page 2. *)
Example server_error_exhaustion_stops :
  getPatients rt
    (repeat (Response 503 (mkBody None None)) 10
     ++ [Response 200 (mkBody (Some [{["patient_id" := VStr "P2"]}]) None)])
  = Returns (mkFetched [] 0 (VInt 1))
      [Get 1; Sleep 1; Get 1; Sleep 2; Get 1; Sleep 4; Get 1; Sleep 8;
       Get 1; Sleep 16; Get 1; Sleep 32; Get 1; Sleep 64; Get 1; Sleep 128;
       Get 1; Sleep 256; Get 1].
Proof. vm_compute. reflexivity. Qed.

Example transport_exhaustion_stops :
  getPatients rt
    (repeat RequestException 10
     ++ [Response 200 (mkBody (Some [{["patient_id" := VStr "P2"]}]) None)])
  = Returns (mkFetched [] 0 (VInt 1))
      [Get 1; Sleep 1; Get 1; Sleep 2; Get 1; Sleep 4; Get 1; Sleep 8;
       Get 1; Sleep 16; Get 1; Sleep 32; Get 1; Sleep 64; Get 1; Sleep 128;
       Get 1; Sleep 256; Get 1].
Proof. vm_compute. reflexivity. Qed.

(** Three pages with hasNext true, true, false: three requests in order,
    a pause of one second between pages, all records in order. *)
Example three_pages :
  getPatients rt
    [Tests.page_of ["A"; "B"] true; Tests.page_of ["C"] true; Tests.page_of ["D"] false]
  = Returns
      (mkFetched (List.map Tests.sanitized ["A"; "B"; "C"; "D"]) 4 (VInt 3))
      [Get 1; Sleep 1; Get 2; Sleep 1; Get 3].
Proof. vm_compute. reflexivity. Qed.

(** Two server errors, then success: the page is fetched on the third
    attempt, after waits of 1 and 2 seconds. *)
Example retry_then_success :
  getPatients rt
    [Tests.failure 500; Tests.failure 500; Tests.page_of ["A"] false]
  = Returns (mkFetched [Tests.sanitized "A"] 1 (VInt 3))
      [Get 1; Sleep 1; Get 1; Sleep 2; Get 1].
Proof. vm_compute. reflexivity. Qed.

(** A client error on the second page: the first page is kept. *)
Example client_error_keeps_first_page :
  getPatients rt [Tests.page_of ["A"] true; Tests.failure 404; Tests.page_of ["B"] false]
  = Returns (mkFetched [Tests.sanitized "A"] 1 (VInt 3)) [Get 1; Sleep 1; Get 2].
Proof. vm_compute. reflexivity. Qed.

(** A record that overflows the sanitizer ends the whole run. *)
Example overflow_escapes_getPatients :
  getPatients rt
    [Tests.page_of ["A"] true;
     Response 200
       (mkBody (Some [{["age" := VFloat (S754_infinity false)]}]) None)]
  = Raises OverflowError [Get 1; Sleep 1; Get 2].
Proof. vm_compute. reflexivity. Qed.

End RoutesTheorems.

(** * Further properties *)

(** ** More order facts *)

Module PyNumOrder.
Import PyNum PyNumFacts.

Lemma xlt_spec (p q : Q) :
  match (p ?= q)%Q with Lt => true | _ => false end = true <-> (p < q)%Q.
Proof.
  rewrite Qlt_alt. destruct (p ?= q)%Q; split; intro H; try reflexivity;
    discriminate.
Qed.

Lemma le_lt_trans (a b c : num) :
  le a b = true -> lt b c = true -> lt a c = true.
Proof.
  unfold le, lt, compare.
  destruct (val a) as [|[]|p], (val b) as [|[]|q], (val c) as [|[]|r]; simpl;
    try discriminate; auto.
  intros H1 H2.
  assert (Hpq : (p <= q)%Q) by (apply xle_spec; destruct (p ?= q)%Q; auto).
  assert (Hqr : (q < r)%Q) by (apply xlt_spec; destruct (q ?= r)%Q; auto).
  assert (Hpr : (p < r)%Q) by (eapply Qle_lt_trans; eauto).
  apply xlt_spec in Hpr. destruct (p ?= r)%Q; auto.
Qed.

Lemma lt_le_trans (a b c : num) :
  lt a b = true -> le b c = true -> lt a c = true.
Proof.
  unfold le, lt, compare.
  destruct (val a) as [|[]|p], (val b) as [|[]|q], (val c) as [|[]|r]; simpl;
    try discriminate; auto.
  intros H1 H2.
  assert (Hpq : (p < q)%Q) by (apply xlt_spec; destruct (p ?= q)%Q; auto).
  assert (Hqr : (q <= r)%Q) by (apply xle_spec; destruct (q ?= r)%Q; auto).
  assert (Hpr : (p < r)%Q) by (eapply Qlt_le_trans; eauto).
  apply xlt_spec in Hpr. destruct (p ?= r)%Q; auto.
Qed.

(** An ordered pair holds no NaN. *)
Lemma le_not_nan (a b : num) :
  le a b = true -> is_nan a = false /\ is_nan b = false.
Proof.
  unfold le, compare, is_nan.
  destruct (val a) as [|[]|p], (val b) as [|[]|q]; simpl; try discriminate; auto.
Qed.

Lemma not_lt_le (a b : num) :
  is_nan a = false -> is_nan b = false -> lt a b = false -> le b a = true.
Proof.
  intros Ha Hb H. destruct (le_total b a Hb Ha) as [E|E]; [exact E|congruence].
Qed.

Lemma not_le_lt (a b : num) :
  is_nan a = false -> is_nan b = false -> le a b = false -> lt b a = true.
Proof.
  intros Ha Hb H. destruct (le_total a b Ha Hb) as [E|E]; [congruence|exact E].
Qed.

End PyNumOrder.

(** ** Age risk *)

Section AgeRisk.
Import PyNum PyNumFacts PyNumOrder.

Local Abbreviation c40 := (NInt 40).
Local Abbreviation c65 := (NInt 65).

Lemma age_risk_cases (age : pyval) (A : num) :
  number_of age = Some A -> is_nan A = false ->
  (lt A c40 = true /\ calculate_age_risk age = 0)
  \/ (le c40 A = true /\ le A c65 = true /\ calculate_age_risk age = 1)
  \/ (lt c65 A = true /\ calculate_age_risk age = 2).
Proof.
  intros E Hn. unfold calculate_age_risk. rewrite E.
  destruct (lt A c40) eqn:E0; [now left|]. right.
  apply (not_lt_le A c40 Hn eq_refl) in E0. rewrite E0.
  destruct (le A c65) eqn:E1; [now left|]. right.
  apply (not_le_lt A c65 Hn eq_refl) in E1. auto.
Qed.

(** X1: The age score of a number that is not a NaN: 0 exactly below 40, 1
    exactly from 40 to 65, 2 exactly above 65, and one of the three always
    holds (unlike the temperature buckets, these leave no gap); a value
    that is no number scores 0, and a NaN scores 2. *)
Theorem age_risk_buckets (age : pyval) :
  (number_of age = None -> calculate_age_risk age = 0)
  /\ (forall A : num, number_of age = Some A ->
        (is_nan A = true -> calculate_age_risk age = 2)
        /\ (is_nan A = false ->
            (calculate_age_risk age = 0 <-> lt A c40 = true)
            /\ (calculate_age_risk age = 1 <-> le c40 A = true /\ le A c65 = true)
            /\ (calculate_age_risk age = 2 <-> gt A c65 = true)
            /\ (lt A c40 = true \/ (le c40 A = true /\ le A c65 = true)
                \/ gt A c65 = true))).
Proof.
  split.
  - unfold calculate_age_risk. now intros ->.
  - intros A E. split.
    + intros Hn. unfold calculate_age_risk. rewrite E.
      destruct (nan_unordered A c40 Hn) as (-> & _ & _ & _ & _ & -> & _).
      reflexivity.
    + intros Hn. rewrite gt_lt.
      destruct (age_risk_cases age A E Hn) as [[H0 R]|[(H1 & H2 & R)|[H3 R]]];
        rewrite R.
      * pose proof (lt_not_le _ _ H0) as N1.
        assert (N3 : lt c65 A = false).
        { destruct (lt c65 A) eqn:X; [|reflexivity].
          pose proof (lt_le_trans _ _ _ X (lt_le _ _ H0)) as F.
          vm_compute in F. discriminate. }
        repeat split; auto; try discriminate; try congruence.
        intros [? ?]; congruence.
      * pose proof (le_not_lt _ _ H1) as N0. pose proof (le_not_lt _ _ H2) as N3.
        repeat split; auto; try discriminate; try congruence.
      * pose proof (lt_not_le _ _ H3) as N2.
        assert (N0 : lt A c40 = false).
        { destruct (lt A c40) eqn:X; [|reflexivity].
          pose proof (lt_le_trans _ _ _ H3 (lt_le _ _ X)) as F.
          vm_compute in F. discriminate. }
        repeat split; auto; try discriminate; try congruence.
        intros [? ?]; congruence.
Qed.

(** X2: The age score never decreases with the age. *)
Theorem age_risk_monotone (age age' : pyval) (A A' : num) :
  number_of age = Some A -> number_of age' = Some A' ->
  le A A' = true ->
  calculate_age_risk age <= calculate_age_risk age'.
Proof.
  intros E E' H. destruct (le_not_nan _ _ H) as [Hn Hn'].
  destruct (age_risk_cases age A E Hn) as [[H0 R]|[(H1 & H2 & R)|[H3 R]]];
    destruct (age_risk_cases age' A' E' Hn') as [[H0' R']|[(H1' & H2' & R')|[H3' R']]];
    rewrite R, R'; try lia; exfalso.
  - (* 40 <= A <= A' < 40 *)
    pose proof (le_lt_trans _ _ _ (le_trans _ _ _ H1 H) H0') as F.
    vm_compute in F. discriminate.
  - (* 65 < A <= A' < 40 *)
    pose proof (lt_le_trans _ _ _ H3 (lt_le _ _ (le_lt_trans _ _ _ H H0'))) as F.
    vm_compute in F. discriminate.
  - (* 65 < A <= A' <= 65 *)
    pose proof (lt_le_trans _ _ _ H3 (le_trans _ _ _ H H2')) as F.
    vm_compute in F. discriminate.
Qed.

Lemma age_risk_monotone_witness :
  le (NInt 39) (NFloat F99_5) = true
  /\ calculate_age_risk (VInt 39) <= calculate_age_risk (VFloat F99_5).
Proof.
  split; [reflexivity|].
  apply (age_risk_monotone (VInt 39) (VFloat F99_5) (NInt 39) (NFloat F99_5));
    reflexivity.
Defined.

End AgeRisk.

(** ** Blood pressure risk *)

(** X3: The blood pressure score never decreases when a reading rises. *)
Theorem bp_risk_monotone (bp bp' : pyval) (S D S' D' : Z) :
  bp_parses bp S D -> bp_parses bp' S' D' ->
  S <= S' -> D <= D' ->
  calculate_bp_risk bp <= calculate_bp_risk bp'.
Proof.
  intros (a & b & -> & Ha & Hb) (a' & b' & -> & Ha' & Hb') HS HD.
  rewrite (bp_risk_of_parts a b S D Ha Hb), (bp_risk_of_parts a' b' S' D' Ha' Hb').
  unfold systolic_bucket, diastolic_bucket.
  repeat match goal with
         | |- context [if ?c then _ else _] => destruct c eqn:?
         end; lia.
Qed.

Lemma bp_risk_monotone_witness :
  bp_parses (VStr "118/79") 118 79 /\ bp_parses (VStr "131/79") 131 79
  /\ calculate_bp_risk (VStr "118/79") <= calculate_bp_risk (VStr "131/79").
Proof.
  assert (H1 : bp_parses (VStr "118/79") 118 79)
    by (exists "118", "79"; repeat split; reflexivity).
  assert (H2 : bp_parses (VStr "131/79") 131 79)
    by (exists "131", "79"; repeat split; reflexivity).
  split; [exact H1|]. split; [exact H2|].
  apply (bp_risk_monotone (VStr "118/79") (VStr "131/79") 118 79 131 79 H1 H2); lia.
Defined.

(** ** High risk and fever against the scores *)

(** How many of the three scores of a patient are positive. *)
Lemma high_risk_two_positive (p : Patient) :
  is_high_risk p = true ->
  (1 <= calculate_bp_risk (blood_pressure p)
   /\ 1 <= calculate_temp_risk (temperature p))
  \/ (1 <= calculate_bp_risk (blood_pressure p)
      /\ 1 <= calculate_age_risk (age p))
  \/ (1 <= calculate_temp_risk (temperature p)
      /\ 1 <= calculate_age_risk (age p)).
Proof.
  unfold is_high_risk, calculate_total_risk. cbv zeta.
  pose proof (bp_risk_bounds (blood_pressure p)).
  pose proof (temp_risk_bounds (temperature p)).
  pose proof (age_risk_bounds (age p)).
  intros Hr. lia.
Qed.

(** X4: No single factor makes a patient high-risk: every id in the
    high-risk list belongs to an input patient with at least two positive
    scores among blood pressure, temperature and age. *)
Theorem high_risk_needs_two_factors (patients : list Patient) (pid : pyval) :
  In pid (get_high_risk_patients patients) ->
  exists p : Patient,
    In p patients /\ patient_id p = pid
    /\ ((1 <= calculate_bp_risk (blood_pressure p)
         /\ 1 <= calculate_temp_risk (temperature p))
        \/ (1 <= calculate_bp_risk (blood_pressure p)
            /\ 1 <= calculate_age_risk (age p))
        \/ (1 <= calculate_temp_risk (temperature p)
            /\ 1 <= calculate_age_risk (age p))).
Proof.
  rewrite high_risk_filter, List.in_map_iff.
  intros (p & Hid & Hin). apply List.filter_In in Hin as [Hin Hr].
  exists p. split; [exact Hin|]. split; [exact Hid|].
  now apply high_risk_two_positive.
Qed.

Lemma high_risk_needs_two_factors_witness :
  In (VStr "TEST004") (get_high_risk_patients Tests.test_case_1)
  /\ exists p : Patient,
       In p Tests.test_case_1 /\ patient_id p = VStr "TEST004"
       /\ ((1 <= calculate_bp_risk (blood_pressure p)
            /\ 1 <= calculate_temp_risk (temperature p))
           \/ (1 <= calculate_bp_risk (blood_pressure p)
               /\ 1 <= calculate_age_risk (age p))
           \/ (1 <= calculate_temp_risk (temperature p)
               /\ 1 <= calculate_age_risk (age p))).
Proof.
  assert (H : In (VStr "TEST004") (get_high_risk_patients Tests.test_case_1))
    by (vm_compute; auto).
  split; [exact H|].
  exact (high_risk_needs_two_factors Tests.test_case_1 (VStr "TEST004") H).
Defined.

(** X5: Every id in the fever list belongs to an input patient whose
    temperature score is at least 1. *)
Theorem fever_has_temperature_risk (patients : list Patient) (pid : pyval) :
  In pid (get_fever_patients patients) ->
  exists p : Patient,
    In p patients /\ patient_id p = pid
    /\ 1 <= calculate_temp_risk (temperature p).
Proof.
  rewrite fever_filter, List.in_map_iff.
  intros (p & Hid & Hin). apply List.filter_In in Hin as [Hin Hf].
  exists p. split; [exact Hin|]. split; [exact Hid|].
  unfold has_fever in Hf. unfold calculate_temp_risk.
  destruct (number_of (temperature p)) as [t|]; [|discriminate].
  rewrite PyNumFacts.ge_le in Hf. rewrite (not_le_99_5 t Hf).
  destruct (PyNum.le _ _ && PyNum.le _ _); lia.
Qed.

Lemma fever_has_temperature_risk_witness :
  In (VStr "TEST006") (get_fever_patients Tests.test_case_2)
  /\ exists p : Patient,
       In p Tests.test_case_2 /\ patient_id p = VStr "TEST006"
       /\ 1 <= calculate_temp_risk (temperature p).
Proof.
  assert (H : In (VStr "TEST006") (get_fever_patients Tests.test_case_2))
    by (vm_compute; auto).
  split; [exact H|].
  exact (fever_has_temperature_risk Tests.test_case_2 (VStr "TEST006") H).
Defined.

(** ** The detailed data quality report *)

Lemma collect_entries {A : Type} (test : Patient -> bool) (entry : Patient -> A)
    (step : list A -> Patient -> list A) :
  (forall acc p, step acc p = if test p then acc ++ [entry p] else acc) ->
  forall patients acc,
    fold_left step patients acc
    = acc ++ List.map entry (List.filter test patients).
Proof.
  intros Hstep. induction patients as [|p ps IH]; intros acc; simpl.
  - now rewrite app_nil_r.
  - rewrite IH, Hstep. destruct (test p); simpl; [|reflexivity].
    now rewrite <- app_assoc.
Qed.

Lemma issues_of_empty (p : Patient) :
  issues_of p = [] <-> has_data_quality_issue p = false.
Proof.
  unfold issues_of, has_data_quality_issue.
  destruct (_is_valid_bp (blood_pressure p)), (_is_valid_age (age p)),
    (_is_valid_temperature (temperature p)); simpl; split; congruence.
Qed.

(** The detailed list is the list of the reports of the flagged patients. *)
Lemma debug_filter (patients : list Patient) :
  debug_data_quality_issues patients
  = List.map entry_of (List.filter has_data_quality_issue patients).
Proof.
  unfold debug_data_quality_issues.
  rewrite (collect_entries has_data_quality_issue entry_of); [reflexivity|].
  intros acc p. unfold has_data_quality_issue, entry_of, issues_of. cbv zeta.
  destruct (_is_valid_bp (blood_pressure p)), (_is_valid_age (age p)),
    (_is_valid_temperature (temperature p)); reflexivity.
Qed.

Lemma issues_of_shape (p : Patient) :
  (length (issues_of p) <= 3)%nat
  /\ Forall (fun i => subscript i "status" = Some (VStr "missing/invalid")
                      /\ exists f, subscript i "field" = Some (VStr f)
                         /\ (f = "blood_pressure" /\ subscript i "value" = Some (blood_pressure p)
                             \/ f = "age" /\ subscript i "value" = Some (age p)
                             \/ f = "temperature" /\ subscript i "value" = Some (temperature p)))
       (issues_of p).
Proof.
  unfold issues_of.
  destruct (_is_valid_bp (blood_pressure p)), (_is_valid_age (age p)),
    (_is_valid_temperature (temperature p)); simpl; split; try lia;
    repeat constructor; eauto 10.
Qed.

(** X8: The detailed list names exactly the patients that
    [get_data_quality_issues] names, in the same order, and gives each
    from one to three issues, each with the status "missing/invalid" and
    the value of the field it is about. *)
Theorem debug_lists_flagged_patients (patients : list Patient) :
  List.map (fun d => subscript d "patient_id") (debug_data_quality_issues patients)
  = List.map Some (get_data_quality_issues patients)
  /\ Forall
       (fun d =>
          exists (p : Patient) (l : list pyval),
            In p patients /\ subscript d "patient_id" = Some (patient_id p)
            /\ subscript d "issues" = Some (VList l)
            /\ (1 <= length l <= 3)%nat
            /\ Forall
                 (fun i =>
                    subscript i "status" = Some (VStr "missing/invalid")
                    /\ exists f,
                         subscript i "field" = Some (VStr f)
                         /\ (f = "blood_pressure"
                             /\ subscript i "value" = Some (blood_pressure p)
                             \/ f = "age" /\ subscript i "value" = Some (age p)
                             \/ f = "temperature"
                                /\ subscript i "value" = Some (temperature p)))
                 l)
       (debug_data_quality_issues patients).
Proof.
  rewrite debug_filter, data_quality_filter. split.
  - rewrite !List.map_map. reflexivity.
  - apply List.Forall_forall. intros d Hd. apply List.in_map_iff in Hd as (p & <- & Hp).
    apply List.filter_In in Hp as [Hin Hissue].
    exists p, (issues_of p). split; [exact Hin|].
    split; [reflexivity|]. split; [reflexivity|].
    destruct (issues_of_shape p) as [Hlen Hall]. split; [|exact Hall].
    split; [|exact Hlen].
    destruct (issues_of p) eqn:E; simpl; [|lia].
    apply issues_of_empty in E. congruence.
Qed.

Lemma report_equation (patients : list Patient) :
  print_data_quality_report patients
  = match get_data_quality_issues patients with
    | [] =>
        ([PRule false; PTitle "DATA QUALITY REPORT"; PRule false;
          PTotalChecked (length patients);
          PWithIssues (length (get_data_quality_issues patients))]
         ++ [PNoIssues; PRule true], None)
    | first :: _ =>
        match join_items (get_data_quality_issues patients) with
        | None =>
            ([PRule false; PTitle "DATA QUALITY REPORT"; PRule false;
              PTotalChecked (length patients);
              PWithIssues (length (get_data_quality_issues patients))],
             Some JoinTypeError)
        | Some ids =>
            ([PRule false; PTitle "DATA QUALITY REPORT"; PRule false;
              PTotalChecked (length patients);
              PWithIssues (length (get_data_quality_issues patients))]
             ++ [PIds ids; PRule true; PTitle "DETAILED ISSUES";
                 PRule false; PPatientId first],
             Some (KeyError "name"))
        end
    end.
Proof.
  unfold print_data_quality_report. cbv zeta.
  rewrite debug_filter. rewrite data_quality_filter.
  destruct (List.filter has_data_quality_issue patients) as [|p ps].
  - reflexivity.
  - change (List.map patient_id (p :: ps))
      with (patient_id p :: List.map patient_id ps).
    destruct (join_items (patient_id p :: List.map patient_id ps));
      reflexivity.
Qed.

(** X9: The report cannot show an issue: with nobody flagged it prints the
    summary and "no issues"; with somebody flagged it prints the summary,
    the flagged ids and the id of the first flagged patient, and then
    raises KeyError at [patient_issue['name']], a key the detailed list
    never has (or TypeError at the join, when a flagged id is no string). *)
Theorem report_fails_on_first_issue (patients : list Patient) :
  let flagged := get_data_quality_issues patients in
  let summary :=
    [PRule false; PTitle "DATA QUALITY REPORT"; PRule false;
     PTotalChecked (length patients); PWithIssues (length flagged)] in
  print_data_quality_report patients
  = match flagged with
    | [] => (summary ++ [PNoIssues; PRule true], None)
    | first :: _ =>
        match join_items flagged with
        | None => (summary, Some JoinTypeError)
        | Some ids =>
            (summary ++ [PIds ids; PRule true; PTitle "DETAILED ISSUES";
                         PRule false; PPatientId first],
             Some (KeyError "name"))
        end
    end
  /\ (snd (print_data_quality_report patients) = None <-> flagged = [])
  /\ (forall field status value,
        ~ In (PIssue field status value) (fst (print_data_quality_report patients))).
Proof.
  cbv zeta. pose proof (report_equation patients) as E.
  split; [exact E|]. rewrite E.
  destruct (get_data_quality_issues patients) as [|first rest] eqn:F.
  - simpl. split; [tauto|]. intros f s v H.
    repeat (destruct H as [H|H]; [discriminate|]). exact H.
  - destruct (join_items (first :: rest)); simpl.
    + split; [split; discriminate|]. intros f s v H.
      repeat (destruct H as [H|H]; [discriminate|]). exact H.
    + split; [split; discriminate|]. intros f s v H.
      repeat (destruct H as [H|H]; [discriminate|]). exact H.
Qed.

Example report_examples :
  print_data_quality_report Tests.test_case_1
  = ([PRule false; PTitle "DATA QUALITY REPORT"; PRule false;
      PTotalChecked 4; PWithIssues 0; PNoIssues; PRule true], None)
  /\ print_data_quality_report Tests.test_case_7
     = ([PRule false; PTitle "DATA QUALITY REPORT"; PRule false;
         PTotalChecked 4; PWithIssues 3;
         PIds ["TEST028"; "TEST029"; "TEST030"];
         PRule true; PTitle "DETAILED ISSUES"; PRule false;
         PPatientId (VStr "TEST028")],
        Some (KeyError "name")).
Proof. split; vm_compute; reflexivity. Qed.

(** ** More facts of the string operations *)

Module PyStrMore.
Import PyStr PyStrFacts.










Lemma split_cons (sep c : ascii) (r : string) :
  split sep (String c r)
  = if Ascii.eqb c sep then EmptyString :: split sep r
    else match split sep r with
         | p :: ps => String c p :: ps
         | [] => [String c EmptyString]
         end.
Proof. reflexivity. Qed.

(** A text that matches the pattern starts with a digit. *)
Lemma re_match_head (s : string) :
  re_match_bp s = true -> exists c r, s = String c r /\ is_digit c = true.
Proof.
  unfold re_match_bp. destruct s as [|c r]; [discriminate|].
  intros H. exists c, r. split; [reflexivity|].
  destruct r as [|c' r'].
  - simpl in H. destruct (Ascii.eqb c "010"); [discriminate|].
    simpl in H. destruct (Ascii.eqb c "/"); discriminate.
  - change (chop_final_newline (String c (String c' r')))
      with (String c (chop_final_newline (String c' r'))) in H.
    rewrite split_cons in H. revert H. destruct (Ascii.eqb c "/").
    + destruct (split "/" (chop_final_newline (String c' r'))) as [|? [|? ?]];
        simpl; discriminate.
    + destruct (split "/" (chop_final_newline (String c' r'))) as [|a [|b [|? ?]]];
        try discriminate.
      intros H. apply andb_true_iff in H as [H _]. simpl in H.
      now apply andb_true_iff in H as [H _].
Qed.


End PyStrMore.


(** ** The validators of the sanitizer *)

(** X11: What [validate_age] does with each kind of value: it raises exactly
    on an infinite float (OverflowError); it gives None exactly for None,
    a string that is no integer literal (the empty string included), a
    NaN, a list or a dict; it gives an int exactly for an int, a bool (0
    or 1), an integer literal, or a finite float (truncated). *)
Theorem validate_age_outcomes :
  (forall (v : pyval) (e : exn),
     validate_age v = Raise e
     <-> e = OverflowError /\ exists s, v = VFloat (S754_infinity s))
  /\ (forall v : pyval,
        validate_age v = Ok VNone
        <-> v = VNone
            \/ (exists s, v = VStr s /\ PyStr.int_of_str s = None)
            \/ v = VFloat S754_nan
            \/ (exists l, v = VList l) \/ (exists d, v = VDict d))
  /\ (forall (v : pyval) (z : Z),
        validate_age v = Ok (VInt z)
        <-> v = VInt z
            \/ (exists b : bool, v = VBool b /\ z = if b then 1 else 0)
            \/ (exists s, v = VStr s /\ PyStr.int_of_str s = Some z)
            \/ (exists f, v = VFloat f /\ PyNum.int_of_float f = PyNum.IntOk z))
  /\ (forall v a : pyval,
        validate_age v = Ok a -> a = VNone \/ exists z, a = VInt z).
Proof.
  split; [|split; [|split]].
  - intros v e. split.
    + apply validate_age_raises.
    + intros [-> [s ->]]. reflexivity.
  - intros v. split.
    + destruct v as [|b|z|f|s|l|d]; simpl; try discriminate; eauto 10.
      * destruct f; simpl; try discriminate; auto.
      * unfold validate_age. destruct s as [|c r]; [eauto 10|]. simpl.
        destruct (PyStr.int_of_str (String c r)) eqn:E; [discriminate|]. eauto 10.
    + intros [->|[(s & -> & E)|[->|[[l ->]|[d ->]]]]]; try reflexivity.
      unfold validate_age. destruct s as [|c r]; [reflexivity|]. simpl.
      now rewrite E.
  - intros v z. split.
    + destruct v as [|b|z'|f|s|l|d]; simpl; try discriminate.
      * intros [= <-]. right. left. eauto.
      * intros [= <-]. now left.
      * unfold validate_age; simpl.
        destruct (PyNum.int_of_float f) eqn:E; try discriminate.
        intros [= <-]. do 3 right. eauto.
      * unfold validate_age. destruct s as [|c r]; [discriminate|]. simpl.
        destruct (PyStr.int_of_str (String c r)) eqn:E; [|discriminate].
        intros [= <-]. right. right. left. eauto.
    + intros [->|[(b & -> & ->)|[(s & -> & E)|(f & -> & E)]]]; try reflexivity.
      * unfold validate_age. destruct s as [|c r]; [discriminate|]. simpl.
        now rewrite E.
      * unfold validate_age; simpl. now rewrite E.
  - apply SanitizerFacts.validate_age_shape.
Qed.

(** ** Truncation of a float age *)

Section Truncation.
Import PyNum PyNumFacts PyNumOrder.

(** [int()] of a finite float: the integer part, toward zero. *)
Lemma int_of_float_bounds (f : spec_float) (z : Z) :
  int_of_float f = IntOk z ->
  lt (NInt (z - 1)) (NFloat f) = true
  /\ lt (NFloat f) (NInt (z + 1)) = true
  /\ (le (NInt 0) (NFloat f) = true -> 0 <= z /\ le (NInt z) (NFloat f) = true)
  /\ (le (NFloat f) (NInt 0) = true -> z <= 0 /\ le (NFloat f) (NInt z) = true).
Proof.
  destruct f as [s|s| |s m e]; simpl; try discriminate.
  - intros [= <-]. repeat split; reflexivity || lia.
  - intros [= <-].
    assert (Hpow : forall p, Zpos (2 ^ p) = 2 ^ Zpos p) by (intros; apply Pos2Z.inj_pow).
    unfold le, lt, compare. cbn [val float_val xcompare].
    rewrite !xle_spec, !xlt_spec.
    destruct e as [|p|p]; destruct s; cbn [dyadic];
      unfold Qle, Qlt; cbn [Qnum Qden]; rewrite ?Hpow;
      try (pose proof (Z.pow_pos_nonneg 2 (Zpos p) ltac:(lia) ltac:(lia)));
      try (pose proof (Z.mul_div_le (Zpos m) (2 ^ Zpos p) ltac:(lia)));
      try (pose proof (Z.mul_succ_div_gt (Zpos m) (2 ^ Zpos p) ltac:(lia)));
      try (pose proof (Z.div_pos (Zpos m) (2 ^ Zpos p) ltac:(lia) ltac:(lia)));
      repeat split; try nia.
Qed.

(** X12: A float age is cut to its integer part, toward zero and not to the
    nearest integer: the age z kept for a float f lies within one of f,
    with 0 <= z <= f when f is not negative and f <= z <= 0 when f is not
    positive. *)
Theorem validate_age_truncates (f : spec_float) (z : Z) :
  validate_age (VFloat f) = Ok (VInt z) ->
  lt (NInt (z - 1)) (NFloat f) = true
  /\ lt (NFloat f) (NInt (z + 1)) = true
  /\ (le (NInt 0) (NFloat f) = true -> 0 <= z /\ le (NInt z) (NFloat f) = true)
  /\ (le (NFloat f) (NInt 0) = true -> z <= 0 /\ le (NFloat f) (NInt z) = true).
Proof.
  unfold validate_age; simpl.
  destruct (int_of_float f) as [z'| |] eqn:E; try discriminate.
  intros [= <-]. now apply int_of_float_bounds.
Qed.

Lemma validate_age_truncates_witness :
  validate_age (VFloat F99_6) = Ok (VInt 99)
  /\ lt (NInt (99 - 1)) (NFloat F99_6) = true
  /\ lt (NFloat F99_6) (NInt (99 + 1)) = true
  /\ (le (NInt 0) (NFloat F99_6) = true -> 0 <= 99 /\ le (NInt 99) (NFloat F99_6) = true)
  /\ (le (NFloat F99_6) (NInt 0) = true -> 99 <= 0 /\ le (NFloat F99_6) (NInt 99) = true).
Proof.
  assert (H : validate_age (VFloat F99_6) = Ok (VInt 99)) by (vm_compute; reflexivity).
  split; [exact H|].
  exact (validate_age_truncates F99_6 99 H).
Defined.

Example truncation_toward_zero :
  validate_age (VFloat (S754_finite true 7 (-1))) = Ok (VInt (-3))
  /\ validate_age (VFloat (S754_finite true 1 (-1))) = Ok (VInt 0)
  /\ validate_age (VFloat F99_6) = Ok (VInt 99).
Proof. repeat split; vm_compute; reflexivity. Qed.

End Truncation.

(** ** Blood pressure through the sanitizer *)

Section BloodPressure.
Import PyStr PyStrFacts PyStrMore PyConv SanitizerFacts.
Context (rt : runtime).

(** X13: The pattern decides alone: the result is the stripped text when it
    matches [^(\d+)/(\d+)$] and None otherwise.  The tests for None, for
    the empty string, for the placeholder words and for the incomplete
    formats never change the result. *)
Theorem validate_blood_pressure_by_pattern (v : pyval) :
  validate_blood_pressure rt v
  = let s := strip (str rt v) in if re_match_bp s then VStr s else VNone.
Proof.
  cbv zeta. unfold validate_blood_pressure.
  destruct (is_none v || eq_empty_str v) eqn:E0.
  { destruct v as [|b|z|f|s|l|d]; try discriminate; [reflexivity|].
    destruct s; [reflexivity | discriminate]. }
  set (bp_str := strip (str rt v)).
  destruct (re_match_bp bp_str) eqn:Em.
  - destruct (re_match_head bp_str Em) as (c & r & -> & Hc).
    cbn [upper]. rewrite (plain_upper c) by now left.
    rewrite plain_head_not_in; [reflexivity|reflexivity|now left].
  - destruct (str_in (upper bp_str) _); [reflexivity|]. simpl.
    destruct (contains "/" bp_str); [|reflexivity].
    destruct (split "/" bp_str) as [|p0 [|p1 [|? ?]]]; try reflexivity.
    destruct (String.eqb p0 "" || String.eqb p1 ""); reflexivity.
Qed.


Example sanitized_blood_pressure_examples :
  validate_blood_pressure rt (VStr " 120/80 ") = VStr "120/80"
  /\ validate_blood_pressure rt (VStr "0/0") = VStr "0/0"
  /\ _is_valid_bp (VStr "0/0") = false
  /\ validate_blood_pressure rt (VStr "120 / 80") = VNone
  /\ _is_valid_bp (VStr "120 / 80") = true
  /\ validate_blood_pressure rt (VStr "-120/80") = VNone
  /\ validate_blood_pressure rt (VStr "150/") = VNone
  /\ validate_blood_pressure rt (VStr "/90") = VNone
  /\ validate_blood_pressure rt (VStr "N/A") = VNone
  /\ validate_blood_pressure rt (VInt 120) = VNone.
Proof.
  repeat split; vm_compute; reflexivity.
Qed.

(** A run of 4301 digits passes the sanitizer and is then read by
    neither the scorer nor the data quality check; with 4300 digits it is
    read. *)
Example long_digit_runs :
  validate_blood_pressure rt (VStr (zeros 4298 +:+ "145/70"))
  = VStr (zeros 4298 +:+ "145/70")
  /\ calculate_bp_risk (VStr (zeros 4298 +:+ "145/70")) = 0
  /\ _is_valid_bp (VStr (zeros 4298 +:+ "145/70")) = false
  /\ calculate_bp_risk (VStr (zeros 4297 +:+ "145/70")) = 3
  /\ _is_valid_bp (VStr (zeros 4297 +:+ "145/70")) = true
  /\ int_of_str (zeros 4301) = None /\ int_of_str (zeros 4300) = Some 0.
Proof. repeat split; vm_compute; reflexivity. Qed.

End BloodPressure.

(** ** Temperature through the sanitizer *)

Section Temperature.
Import PyStr PyStrFacts PyStrMore PyConv SanitizerFacts.
Context (rt : runtime).

Local Abbreviation placeholders :=
  ["TEMP_ERROR"; "INVALID"; "UNKNOWN"; "N/A"; "NA"].

Lemma str_of_int_head (z : Z) :
  exists c r, str_of_int z = String c r /\ plain c.
Proof.
  unfold str_of_int. destruct z as [|p|p]; simpl.
  - exists "0"%char, EmptyString. split; [reflexivity|now left].
  - unfold NilZero.string_of_uint.
    pose proof (Unsigned.to_uint_nonnil p) as H.
    destruct (Pos.to_uint p) eqn:E; [congruence| ..]; simpl;
      do 2 eexists; (split; [reflexivity|now left]).
  - do 2 eexists. split; [reflexivity|now right].
Qed.

Lemma str_of_int_not_placeholder (z : Z) :
  str_in (upper (strip (str_of_int z))) placeholders = false.
Proof.
  destruct (str_of_int_head z) as (c & r & -> & Hc).
  now apply plain_text_not_placeholder.
Qed.

(** X15: What [validate_temperature] does with each kind of value that
    [str] prints (None, a bool, a float, a string, an int of at most
    4300 digits).  It raises exactly on an int too large for a float
    (OverflowError).  It gives a float exactly for a float (a NaN and the
    infinities included), a bool (1.0 or 0.0), an int within the float
    range, or a non-empty string that is no placeholder word and that
    [float()] reads; a placeholder word is never recognised in a number.
    Whenever it returns, the result is None or a float, and None gives
    None. *)
Theorem validate_temperature_outcomes :
  (forall (v : pyval) (e : exn),
     prints v ->
     (validate_temperature rt v = Raise e
      <-> e = OverflowError
          /\ exists z, v = VInt z /\ PyNum.float_of_int z = None))
  /\ (forall (v : pyval) (f : spec_float),
        prints v ->
        (validate_temperature rt v = Ok (VFloat f)
         <-> v = VFloat f
             \/ (exists b : bool,
                   v = VBool b
                   /\ f = if b then S754_finite false 4503599627370496 (-52)
                          else S754_zero false)
             \/ (exists z, v = VInt z /\ PyNum.float_of_int z = Some f)
             \/ (exists s,
                   v = VStr s /\ s <> EmptyString
                   /\ str_in (upper (strip s)) placeholders = false
                   /\ float_of_str rt s = Some f)))
  /\ (forall v t : pyval,
        validate_temperature rt v = Ok t -> t = VNone \/ exists f, t = VFloat f)
  /\ validate_temperature rt VNone = Ok VNone.
Proof.
  split; [|split; [|split]].
  - intros v e _. split; [apply validate_temperature_raises|].
    intros [-> (z & -> & E)]. unfold validate_temperature.
    cbn [is_none eq_empty_str orb str].
    rewrite str_of_int_not_placeholder. simpl. now rewrite E.
  - intros v f Hv. split.
    + destruct v as [|b|z|f'|s|l|d].
      * discriminate.
      * unfold validate_temperature. cbn [is_none eq_empty_str orb str].
        destruct (str_in _ _); [discriminate|]. simpl.
        intros [= <-]. right. left. eauto.
      * unfold validate_temperature. cbn [is_none eq_empty_str orb str].
        destruct (str_in _ _); [discriminate|]. simpl.
        destruct (PyNum.float_of_int z) eqn:E; [|discriminate].
        intros [= <-]. do 2 right. left. eauto.
      * rewrite validate_temperature_float. intros [= <-]. now left.
      * unfold validate_temperature. destruct s as [|c r]; [discriminate|].
        cbn [is_none eq_empty_str orb str].
        destruct (str_in _ _) eqn:Ep; [discriminate|]. simpl.
        destruct (float_of_str rt (String c r)) eqn:E; [|discriminate].
        intros [= <-]. do 3 right. exists (String c r).
        repeat split; auto; discriminate.
      * destruct Hv.
      * destruct Hv.
    + intros [->|[(b & -> & ->)|[(z & -> & E)|(s & -> & Hs & Hp & E)]]].
      * apply validate_temperature_float.
      * unfold validate_temperature. cbn [is_none eq_empty_str orb str].
        destruct b; reflexivity.
      * unfold validate_temperature. cbn [is_none eq_empty_str orb str].
        rewrite str_of_int_not_placeholder. simpl. now rewrite E.
      * unfold validate_temperature. destruct s as [|c r]; [congruence|].
        cbn [is_none eq_empty_str orb str]. rewrite Hp. simpl. now rewrite E.
  - apply validate_temperature_shape.
  - reflexivity.
Qed.

(** An int of 401 digits is printed and is too large for a float; 98 is
    converted. *)
Example validate_temperature_of_int :
  prints (VInt (10 ^ 400))
  /\ validate_temperature rt (VInt (10 ^ 400)) = Raise OverflowError
  /\ prints (VInt 98)
  /\ validate_temperature rt (VInt 98)
     = Ok (VFloat (S754_finite false 6896136929411072 (-46))).
Proof.
  split; [vm_compute; discriminate|]. split; [vm_compute; reflexivity|].
  split; [vm_compute; discriminate|]. vm_compute; reflexivity.
Qed.

End Temperature.

(** ** When sanitize_patient raises *)

Section SanitizeRaises.
Context (rt : runtime).

(** X16: On a record whose patient_id, blood_pressure and temperature
    [str] prints (None, a bool, a float, a string, an int of at most 4300
    digits), [sanitize_patient] raises exactly when the age is an
    infinite float or the temperature is an int too large for a float,
    and then it is OverflowError; a missing key, a value of another type
    or a text that is no number never makes it raise. *)
Theorem sanitize_patient_raises_iff (raw : gmap string pyval) (e : exn) :
  prints (get raw "patient_id") ->
  prints (get raw "blood_pressure") ->
  prints (get raw "temperature") ->
  (sanitize_patient rt raw = Raise e
   <-> e = OverflowError
       /\ ((exists s, get raw "age" = VFloat (S754_infinity s))
           \/ (exists z, get raw "temperature" = VInt z
                         /\ PyNum.float_of_int z = None))).
Proof.
  intros _ _ _. unfold sanitize_patient. split.
  - destruct (validate_age (get raw "age")) as [a|e'] eqn:Ea.
    + destruct (validate_temperature rt (get raw "temperature")) as [t|e'] eqn:Et;
        [discriminate|].
      cbn. intros [= <-].
      apply validate_temperature_raises in Et as [-> H]. eauto.
    + cbn. intros [= <-]. apply validate_age_raises in Ea as [-> H]. eauto.
  - intros [-> [[s Hs]|(z & Hz & E)]].
    + rewrite Hs. reflexivity.
    + destruct (validate_age (get raw "age")) as [a|e'] eqn:Ea.
      * rewrite Hz.
        assert (Et : validate_temperature rt (VInt z) = Raise OverflowError).
        { unfold validate_temperature. cbn [is_none eq_empty_str orb PyConv.str].
          rewrite str_of_int_not_placeholder. simpl. now rewrite E. }
        now rewrite Et.
      * apply validate_age_raises in Ea as [-> _]. reflexivity.
Qed.

End SanitizeRaises.

(** The theorem at a record with an infinite age, whose three printed
    fields are strings and a float.  It holds for every runtime; the one
    taken here plays no part at this input. *)
Lemma sanitize_patient_raises_iff_witness :
  let rt := mkRuntime (fun m e => (m, e)) (fun _ => EmptyString) (fun _ => None) in
  let raw : gmap string pyval :=
    <["patient_id" := VStr "P1"]>
      (<["age" := VFloat (S754_infinity false)]>
        (<["blood_pressure" := VStr "120/80"]>
          (<["temperature" := VFloat PyNum.F98_6]> ∅))) in
  prints (get raw "patient_id")
  /\ prints (get raw "blood_pressure")
  /\ prints (get raw "temperature")
  /\ (sanitize_patient rt raw = Raise OverflowError
      <-> OverflowError = OverflowError
          /\ ((exists s, get raw "age" = VFloat (S754_infinity s))
              \/ (exists z, get raw "temperature" = VInt z
                            /\ PyNum.float_of_int z = None))).
Proof.
  intros rt raw.
  assert (H1 : prints (get raw "patient_id")) by (vm_compute; exact I).
  assert (H2 : prints (get raw "blood_pressure")) by (vm_compute; exact I).
  assert (H3 : prints (get raw "temperature")) by (vm_compute; exact I).
  split; [exact H1|]. split; [exact H2|]. split; [exact H3|].
  exact (sanitize_patient_raises_iff rt raw OverflowError H1 H2 H3).
Defined.

(** ** Invariants of the pagination loop *)

Section RoutesInvariants.
Context (rt : runtime).

Lemma fetch_step (r : response) (upstream : list response) (st : state)
    (attempt : Z) :
  fetch rt (r :: upstream) st attempt
  = match step rt r st attempt with
    | Done o => o
    | Next st' attempt' => fetch rt upstream st' attempt'
    end.
Proof.
  cbn [fetch]. unfold step. cbv zeta.
  repeat case_match; reflexivity.
Qed.

Lemma pow2_bounds (a : Z) : 0 <= a < 10 -> 1 <= 2 ^ a <= 512.
Proof.
  intros H. split.
  - pose proof (Z.pow_pos_nonneg 2 a). lia.
  - change 512 with (2 ^ 9). apply Z.pow_le_mono_r; lia.
Qed.

Lemma step_cases (r : response) (st : state) (a : Z) :
  0 <= a < max_retries ->
  exists (ws : list Z) (patients : list (gmap string pyval)),
    Forall (fun w => 1 <= w <= 1024) ws
    /\ (patients = all_patients st
        \/ exists raws, sanitize_page rt raws (all_patients st) = Ok patients)
    /\ ((exists e raws,
           sanitize_page rt raws (all_patients st) = Raise e
           /\ step rt r st a
              = Done (Raises e (trace st ++ Get (page st) :: List.map Sleep ws)))
        \/ (exists st',
              step rt r st a = Next st' (a + 1) /\ a + 1 < max_retries
              /\ page st' = page st /\ all_patients st' = all_patients st
              /\ trace st' = trace st ++ Get (page st) :: List.map Sleep ws)
        \/ (exists st',
              step rt r st a = Next st' 0
              /\ page st' = page st + 1 /\ all_patients st' = patients
              /\ trace st' = trace st ++ Get (page st) :: List.map Sleep ws)
        \/ (exists st',
              step rt r st a = Done (finish st')
              /\ page st' = page st + 1 /\ all_patients st' = patients
              /\ trace st' = trace st ++ Get (page st) :: List.map Sleep ws)).
Proof.
  unfold max_retries. intros Ha. pose proof (pow2_bounds a Ha) as Hp.
  unfold step. cbv zeta. unfold max_retries, backoff_factor.
  rewrite Z.mul_1_l.
  destruct r as [|status_code json].
  - destruct (a <? 10 - 1) eqn:E1.
    + assert (E2 : (a + 1 <? 10) = true) by lia. rewrite E2.
      exists [2 ^ a], (all_patients st). split; [repeat constructor; lia|].
      split; [now left|]. right. left. eexists. split; [reflexivity|].
      cbn. rewrite <- app_assoc. repeat split; auto. lia.
    + exists [], (all_patients st). split; [constructor|]. split; [now left|].
      do 3 right. cbn. eexists. split; [reflexivity|]. cbn. auto.
  - destruct (status_code =? 200) eqn:E200.
    + destruct (match body_data json with
                | Some raw_patients =>
                    sanitize_page rt raw_patients
                      (all_patients (do_event (Get (page st)) st))
                | None => Ok (all_patients (do_event (Get (page st)) st))
                end) as [patients|e] eqn:Es.
      * assert (Hpat : patients = all_patients st
                       \/ exists raws,
                            sanitize_page rt raws (all_patients st) = Ok patients).
        { destruct (body_data json) as [raws|]; [right; now exists raws|].
          left. now injection Es as <-. }
        set (st1 := match body_pagination json with
                    | Some pagination => _
                    | None => _
                    end).
        assert (H1 : page st1 = page st /\ all_patients st1 = patients
                     /\ trace st1 = trace st ++ [Get (page st)]).
        { subst st1. destruct (body_pagination json); cbn; auto. }
        destruct H1 as (P1 & A1 & T1).
        destruct (truthy (has_next st1)) eqn:Eh.
        -- exists [1], patients. split; [repeat constructor; lia|].
           split; [exact Hpat|]. do 2 right. left. cbn. rewrite Eh.
           eexists. split; [reflexivity|]. cbn. rewrite P1, A1, T1.
           rewrite <- !app_assoc. auto.
        -- exists [], patients. split; [constructor|].
           split; [exact Hpat|]. do 3 right. cbn. rewrite Eh.
           eexists. split; [reflexivity|]. cbn. rewrite P1, A1, T1. auto.
      * exists [], (all_patients st). split; [constructor|]. split; [now left|].
        left. destruct (body_data json) as [raws|]; [|discriminate].
        exists e, raws. split; [exact Es|]. reflexivity.
    + destruct (status_code =? 429) eqn:E429.
      * destruct (a + 1 <? 10) eqn:E2.
        -- exists [2 * 2 ^ a], (all_patients st). split; [repeat constructor; lia|].
           split; [now left|]. right. left. eexists. split; [reflexivity|].
           cbn. rewrite <- app_assoc. repeat split; auto. lia.
        -- cbn. destruct (truthy (has_next st)) eqn:Eh.
           ++ exists [2 * 2 ^ a; 1], (all_patients st).
              split; [repeat constructor; lia|]. split; [now left|].
              do 2 right. left. cbn. rewrite Eh. eexists. split; [reflexivity|].
              cbn. rewrite <- !app_assoc. auto.
           ++ exists [2 * 2 ^ a], (all_patients st).
              split; [repeat constructor; lia|]. split; [now left|].
              do 3 right. cbn. rewrite Eh. eexists. split; [reflexivity|].
              cbn. rewrite <- !app_assoc. auto.
      * destruct ((status_code >=? 500) && (a <? 10 - 1)) eqn:E5.
        -- apply andb_true_iff in E5 as [_ E1].
           assert (E2 : (a + 1 <? 10) = true) by lia. rewrite E2.
           exists [2 ^ a], (all_patients st). split; [repeat constructor; lia|].
           split; [now left|]. right. left. eexists. split; [reflexivity|].
           cbn. rewrite <- app_assoc. repeat split; auto. lia.
        -- exists [], (all_patients st). split; [constructor|]. split; [now left|].
           do 3 right. cbn. eexists. split; [reflexivity|]. cbn. auto.
Qed.

Lemma fetch_invariant (I : state -> Z -> Prop) (R : outcome -> Prop) :
  (forall st a, I st a -> R (Starved (trace st))) ->
  (forall r st a, I st a ->
     match step rt r st a with
     | Done o => R o
     | Next st' a' => I st' a'
     end) ->
  forall upstream st a, I st a -> R (fetch rt upstream st a).
Proof.
  intros Hstarved Hstep. induction upstream as [|r upstream IH]; intros st a HI.
  - exact (Hstarved st a HI).
  - rewrite fetch_step. specialize (Hstep r st a HI).
    destruct (step rt r st a) as [o|st' a']; [exact Hstep|now apply IH].
Qed.


Lemma requests_app (l l' : list event) : requests (l ++ l') = requests l ++ requests l'.
Proof. apply flat_map_app. Qed.

Lemma sleeps_app (l l' : list event) : sleeps (l ++ l') = sleeps l ++ sleeps l'.
Proof. apply flat_map_app. Qed.

Lemma requests_sleeps (ws : list Z) : requests (List.map Sleep ws) = [].
Proof. induction ws; [reflexivity|exact IHws]. Qed.

Lemma sleeps_sleeps (ws : list Z) : sleeps (List.map Sleep ws) = ws.
Proof. induction ws as [|w ws IH]; [reflexivity|]. cbn. now f_equal. Qed.

Lemma requests_attempt (l : list event) (p : Z) (ws : list Z) :
  requests (l ++ Get p :: List.map Sleep ws) = requests l ++ [p].
Proof.
  rewrite requests_app. f_equal.
  change (Get p :: List.map Sleep ws) with ([Get p] ++ List.map Sleep ws).
  now rewrite requests_app, requests_sleeps.
Qed.

Lemma sleeps_attempt (l : list event) (p : Z) (ws : list Z) :
  sleeps (l ++ Get p :: List.map Sleep ws) = sleeps l ++ ws.
Proof.
  rewrite sleeps_app. f_equal.
  change (Get p :: List.map Sleep ws) with ([Get p] ++ List.map Sleep ws).
  now rewrite sleeps_app, sleeps_sleeps.
Qed.

(** X19: No pause of the loop is shorter than one second or longer than 1024
    seconds, whatever the upstream answers. *)
Theorem sleeps_bounded (upstream : list response) :
  Forall (fun w => 1 <= w <= 1024) (sleeps (effects_of (getPatients rt upstream))).
Proof.
  unfold getPatients.
  apply (fetch_invariant
           (fun st a => 0 <= a < max_retries
                        /\ Forall (fun w => 1 <= w <= 1024) (sleeps (trace st)))).
  - intros st a [_ H]. exact H.
  - intros r st a [Ha H].
    destruct (step_cases r st a Ha)
      as (ws & patients & Hws & _
          & [(e & raws & _ & ->)|[(st' & -> & Ha' & _ & _ & T)
             |[(st' & -> & _ & _ & T)|(st' & -> & _ & _ & T)]]]);
      cbn; rewrite ?T, sleeps_attempt; repeat split;
      try (apply Forall_app; now split); unfold max_retries in *; lia.
  - split; [unfold max_retries; lia|constructor].
Qed.


Lemma sanitize_patient_canonical (raw : gmap string pyval) (p : Patient) :
  sanitize_patient rt raw = Ok p -> canonical p.
Proof.
  unfold sanitize_patient.
  destruct (validate_age (get raw "age")) as [a|e] eqn:Ea; [|discriminate].
  destruct (validate_temperature rt (get raw "temperature")) as [t|e] eqn:Et;
    [|discriminate].
  cbn. intros [= <-]. unfold canonical. cbn.
  split; [eauto|].
  split; [now apply SanitizerFacts.validate_age_shape in Ea|].
  split; [|now apply SanitizerFacts.validate_temperature_shape in Et].
  destruct (SanitizerFacts.validate_blood_pressure_shape rt (get raw "blood_pressure"))
    as [->|(s & -> & _)]; eauto.
Qed.

Lemma sanitize_patient_only_overflow (raw : gmap string pyval) (e : exn) :
  sanitize_patient rt raw = Raise e -> e = OverflowError.
Proof.
  unfold sanitize_patient.
  destruct (validate_age (get raw "age")) as [a|e'] eqn:Ea.
  - destruct (validate_temperature rt (get raw "temperature")) as [t|e'] eqn:Et;
      [discriminate|].
    cbn. intros [= <-]. now apply validate_temperature_raises in Et.
  - cbn. intros [= <-]. now apply validate_age_raises in Ea.
Qed.

Lemma sanitize_page_canonical (raws acc : list (gmap string pyval)) :
  Forall (fun d => exists p, canonical p /\ d = to_dict p) acc ->
  match sanitize_page rt raws acc with
  | Ok patients => Forall (fun d => exists p, canonical p /\ d = to_dict p) patients
  | Raise e => e = OverflowError
  end.
Proof.
  revert acc. induction raws as [|raw raws IH]; intros acc Hacc; [exact Hacc|].
  cbn [sanitize_page].
  destruct (sanitize_patient rt raw) as [p|e] eqn:E; cbn.
  - apply IH. apply Forall_app. split; [exact Hacc|].
    repeat constructor. exists p. split; [|reflexivity].
    now apply (sanitize_patient_canonical raw).
  - now apply (sanitize_patient_only_overflow raw).
Qed.

Lemma fetch_outcome (upstream : list response) (st : state) (a : Z) :
  0 <= a < max_retries ->
  Forall (fun d => exists p, canonical p /\ d = to_dict p) (all_patients st) ->
  match fetch rt upstream st a with
  | Returns r _ =>
      Forall (fun d => exists p, canonical p /\ d = to_dict p) (data r)
      /\ total r = Z.of_nat (length (data r))
  | Raises e _ => e = OverflowError
  | Starved _ => True
  end.
Proof.
  intros Ha0 H0.
  apply (fetch_invariant
           (fun st a => 0 <= a < max_retries
                        /\ Forall (fun d => exists p, canonical p /\ d = to_dict p)
                             (all_patients st))); [| |now split].
  - intros st' a' _. exact I.
  - clear st a Ha0 H0. intros r st a [Ha H].
    destruct (step_cases r st a Ha)
      as (ws & patients & _ & Hpat
          & [(e & raws & E & ->)|[(st' & -> & Ha' & _ & A & _)
             |[(st' & -> & _ & A & _)|(st' & -> & _ & A & _)]]]).
    + pose proof (sanitize_page_canonical raws _ H) as Hs. now rewrite E in Hs.
    + rewrite A. split; [unfold max_retries in *; lia|exact H].
    + split; [unfold max_retries; lia|]. rewrite A.
      destruct Hpat as [->|[raws E]]; [exact H|].
      pose proof (sanitize_page_canonical raws _ H) as Hs. now rewrite E in Hs.
    + cbn. rewrite A. split; [|reflexivity].
      destruct Hpat as [->|[raws E]]; [exact H|].
      pose proof (sanitize_page_canonical raws _ H) as Hs. now rewrite E in Hs.
Qed.




(** Ten transport failures, then ten server errors on the next page if
    it were asked for: the run returns, it does not raise. *)
Example failures_do_not_raise :
  getPatients rt (repeat RequestException 10 ++ repeat (Tests.failure 500) 10)
  = Returns (mkFetched [] 0 (VInt 1))
      [Get 1; Sleep 1; Get 1; Sleep 2; Get 1; Sleep 4; Get 1; Sleep 8;
       Get 1; Sleep 16; Get 1; Sleep 32; Get 1; Sleep 64; Get 1; Sleep 128;
       Get 1; Sleep 256; Get 1].
Proof. vm_compute. reflexivity. Qed.

Lemma blocks_snoc (counts : list nat) (c : nat) :
  concat (imap (fun i c => repeat (1 + Z.of_nat i) c) (counts ++ [c]))
  = concat (imap (fun i c => repeat (1 + Z.of_nat i) c) counts)
    ++ repeat (1 + Z.of_nat (length counts)) c.
Proof.
  rewrite imap_app, concat_app. cbn. now rewrite app_nil_r, Nat.add_0_r.
Qed.

Lemma blocks_attempt (counts : list nat) (p a : Z) :
  0 <= a -> p = 1 + Z.of_nat (length counts) ->
  (concat (imap (fun i c => repeat (1 + Z.of_nat i) c) counts)
   ++ repeat p (Z.to_nat a)) ++ [p]
  = concat (imap (fun i c => repeat (1 + Z.of_nat i) c)
              (counts ++ [Z.to_nat (a + 1)])).
Proof.
  intros Ha ->. rewrite blocks_snoc, <- app_assoc. f_equal.
  rewrite <- repeat_cons. rewrite Z2Nat.inj_add by lia.
  now rewrite Nat.add_1_r.
Qed.

(** X18: The pages are requested in order from page 1: every page at least
    once and at most ten times in a row, none skipped and none asked for
    again after a later one. *)
Theorem pages_requested_in_order (upstream : list response) :
  exists counts : list nat,
    Forall (fun c => (1 <= c <= 10)%nat) counts
    /\ requests (effects_of (getPatients rt upstream))
       = concat (imap (fun i c => repeat (1 + Z.of_nat i) c) counts).
Proof.
  unfold getPatients.
  apply (fetch_invariant
           (fun st a =>
              0 <= a < max_retries
              /\ exists counts : list nat,
                   Forall (fun c => (1 <= c <= 10)%nat) counts
                   /\ page st = 1 + Z.of_nat (length counts)
                   /\ requests (trace st)
                      = concat (imap (fun i c => repeat (1 + Z.of_nat i) c) counts)
                        ++ repeat (page st) (Z.to_nat a))).
  - intros st a (Ha & counts & Hc & Hp & Hr). cbn [effects_of].
    unfold max_retries in Ha.
    destruct (Z.eq_dec a 0) as [->|Hne].
    + exists counts. split; [exact Hc|]. rewrite Hr. cbn [Z.to_nat repeat]. apply app_nil_r.
    + exists (counts ++ [Z.to_nat a]). split.
      * apply Forall_app. split; [exact Hc|]. constructor; [lia|constructor].
      * rewrite Hr, blocks_snoc. now rewrite Hp.
  - intros r st a (Ha & counts & Hc & Hp & Hr).
    assert (Hnew : Forall (fun c => (1 <= c <= 10)%nat)
                     (counts ++ [Z.to_nat (a + 1)])).
    { apply Forall_app. split; [exact Hc|].
      unfold max_retries in Ha. constructor; [lia|constructor]. }
    assert (Hreq : forall ws,
              requests (trace st ++ Get (page st) :: List.map Sleep ws)
              = concat (imap (fun i c => repeat (1 + Z.of_nat i) c)
                          (counts ++ [Z.to_nat (a + 1)]))).
    { intros ws. rewrite requests_attempt, Hr. apply blocks_attempt; lia. }
    destruct (step_cases r st a Ha)
      as (ws & patients & _ & _
          & [(e & raws & _ & ->)|[(st' & -> & Ha' & P & _ & T)
             |[(st' & -> & P & _ & T)|(st' & -> & P & _ & T)]]]).
    + cbn [effects_of]. eauto.
    + split; [lia|]. exists counts. split; [exact Hc|].
      rewrite P, T. split; [exact Hp|].
      rewrite requests_attempt, Hr, <- app_assoc. f_equal.
      rewrite Z2Nat.inj_add by lia. rewrite Nat.add_1_r.
      symmetry. apply repeat_cons.
    + split; [unfold max_retries; lia|].
      exists (counts ++ [Z.to_nat (a + 1)]). split; [exact Hnew|].
      rewrite P, T, Hreq. rewrite length_app. cbn.
      split; [lia|now rewrite app_nil_r].
    + cbn [effects_of finish]. rewrite T. eauto.
  - split; [unfold max_retries; lia|]. exists []. cbn. auto.
Qed.


Lemma sanitize_page_app (a b acc : list (gmap string pyval)) :
  sanitize_page rt (a ++ b) acc
  = match sanitize_page rt a acc with
    | Ok acc' => sanitize_page rt b acc'
    | Raise e => Raise e
    end.
Proof.
  revert acc. induction a as [|raw a IH]; intros acc; [reflexivity|].
  cbn [app sanitize_page]. destruct (sanitize_patient rt raw); cbn; [apply IH|reflexivity].
Qed.

Lemma fetch_pages (pages : list (list (gmap string pyval) * gmap string pyval))
    (last : list (gmap string pyval)) (pagination : gmap string pyval)
    (rest : list response) (st : state) :
  match sanitize_page rt (concat (List.map fst pages) ++ last) (all_patients st) with
  | Ok patients =>
      fetch rt
        (List.map (fun '(raws, pg) => page_response raws pg true) pages
         ++ page_response last pagination false :: rest) st 0
      = Returns
          (mkFetched patients (Z.of_nat (length patients))
             (default (VInt (page st + Z.of_nat (length pages)))
                (pagination !! "totalPages")))
          (trace st
           ++ concat (imap (fun i _ => [Get (page st + Z.of_nat i); Sleep 1]) pages)
           ++ [Get (page st + Z.of_nat (length pages))])
  | Raise e =>
      exists effects,
        fetch rt
          (List.map (fun '(raws, pg) => page_response raws pg true) pages
           ++ page_response last pagination false :: rest) st 0
        = Raises e effects
  end.
Proof.
  revert st. induction pages as [|[raws pg] pages IH]; intros st.
  - cbn [List.map concat app length]. rewrite fetch_step.
    unfold step, page_response. cbv zeta.
    cbn [Z.eqb Pos.eqb body_data body_pagination].
    change (all_patients (do_event (Get (page st)) st)) with (all_patients st).
    destruct (sanitize_page rt last (all_patients st)) as [patients|e];
      [|eexists; reflexivity].
    rewrite lookup_insert_eq.
    unfold finish, next_page, set_has_next, set_last_pagination,
      set_all_patients, do_event.
    cbn [all_patients last_pagination page has_next trace default from_option
         id truthy].
    rewrite lookup_insert_ne by discriminate.
    cbn [Z.of_nat]. rewrite Z.add_0_r.
    replace (page st + 1 - 1) with (page st) by lia. reflexivity.
  - cbn [List.map concat app length fst]. rewrite <- app_assoc, sanitize_page_app.
    rewrite fetch_step. unfold page_response in *. unfold step. cbv zeta.
    cbn [Z.eqb Pos.eqb body_data body_pagination].
    change (all_patients (do_event (Get (page st)) st)) with (all_patients st).
    destruct (sanitize_page rt raws (all_patients st)) as [acc|e];
      [|eexists; reflexivity].
    rewrite lookup_insert_eq.
    unfold next_page, set_has_next, set_last_pagination, set_all_patients,
      do_event.
    cbn [all_patients last_pagination page has_next trace default from_option
         id truthy].
    match goal with
    | |- context [fetch rt _ ?s 0] => specialize (IH s)
    end.
    unfold next_page, set_has_next, set_last_pagination, set_all_patients,
      do_event in *.
    cbn [all_patients last_pagination page has_next trace default from_option
         id truthy] in *.
    destruct (sanitize_page rt (concat (List.map fst pages) ++ last) acc)
      as [patients|e']; [|exact IH].
    rewrite IH. clear IH.
    replace (page st + Z.of_nat (S (length pages)))
      with (page st + 1 + Z.of_nat (length pages)) by lia.
    f_equal. rewrite imap_cons. cbn [concat]. rewrite Z.add_0_r.
    rewrite <- !app_assoc. cbn [app]. do 5 f_equal.
    apply imap_ext. intros i x _. cbn. do 2 f_equal. lia.
Qed.

(** X20: When every page is answered at once with status 200, "hasNext" true
    on all pages but the last: the records of all pages are sanitized in
    order into one list, one request is made per page with a pause of
    one second between pages, and nothing is requested after the page
    whose "hasNext" is false.  If a record overflows the sanitizer the
    run raises that exception instead. *)
Theorem all_pages_fetched
    (pages : list (list (gmap string pyval) * gmap string pyval))
    (last : list (gmap string pyval)) (pagination : gmap string pyval)
    (rest : list response) :
  let upstream :=
    List.map (fun '(raws, pg) => page_response raws pg true) pages
    ++ page_response last pagination false :: rest in
  let n := Z.of_nat (length pages) in
  match sanitize_page rt (concat (List.map fst pages) ++ last) [] with
  | Ok patients =>
      getPatients rt upstream
      = Returns
          (mkFetched patients (Z.of_nat (length patients))
             (default (VInt (1 + n)) (pagination !! "totalPages")))
          (concat (imap (fun i _ => [Get (1 + Z.of_nat i); Sleep 1]) pages)
           ++ [Get (1 + n)])
  | Raise e => exists effects, getPatients rt upstream = Raises e effects
  end.
Proof.
  cbv zeta. exact (fetch_pages pages last pagination rest (initial)).
Qed.


End RoutesInvariants.

(** ** The data quality check, exactly *)

Section DataQualityExact.
Import PyNum PyNumFacts.

Lemma nan_value (v : pyval) (n : num) :
  number_of v = Some n -> is_nan n = true -> v = VFloat S754_nan.
Proof.
  destruct v as [|b|z|f|s|l|d]; try discriminate; intros [= <-]; try discriminate.
  destruct f; try discriminate. reflexivity.
Qed.

Lemma not_nan_or_nan (v : pyval) : not_nan v \/ v = VFloat S754_nan.
Proof.
  destruct (number_of v) as [n|] eqn:E.
  - destruct (is_nan n) eqn:En.
    + right. now apply (nan_value v n).
    + left. intros n' E'. congruence.
  - left. intros n' E'. congruence.
Qed.

Lemma valid_age_exactly (age : pyval) :
  _is_valid_age age = true <-> age_in_range age \/ age = VFloat S754_nan.
Proof.
  split.
  - intros H. destruct (not_nan_or_nan age) as [Hn|Hn]; [left|now right].
    now apply valid_age_in_range.
  - intros [H| ->]; [now apply age_in_range_valid|reflexivity].
Qed.

Lemma valid_temperature_exactly (temperature : pyval) :
  _is_valid_temperature temperature = true
  <-> temperature_in_range temperature \/ temperature = VFloat S754_nan.
Proof.
  split.
  - intros H. destruct (not_nan_or_nan temperature) as [Hn|Hn]; [left|now right].
    now apply valid_temperature_in_range.
  - intros [H| ->]; [now apply temperature_in_range_valid|reflexivity].
Qed.

(** X7: The patients flagged, exactly: an id is listed when one of the
    patients with that id has a blood pressure that does not read as S/D
    with 0 < S <= 300 and 0 < D <= 200, or an age that is neither a
    number with 0 <= age <= 150 nor a NaN, or a temperature that is
    neither a number with 0 < temperature <= 115 nor a NaN.  A NaN passes
    both number checks; None, a string in place of a number, and every
    number out of range are flagged. *)
Theorem data_quality_flags_exactly (patients : list Patient) (pid : pyval) :
  In pid (get_data_quality_issues patients)
  <-> exists p : Patient,
        In p patients /\ patient_id p = pid
        /\ ~ (bp_in_range (blood_pressure p)
              /\ (age_in_range (age p) \/ age p = VFloat S754_nan)
              /\ (temperature_in_range (temperature p)
                  \/ temperature p = VFloat S754_nan)).
Proof.
  rewrite data_quality_filter, in_map_iff.
  split; intros (p & H1 & H2); exists p.
  - apply List.filter_In in H2 as [Hin Hf]. split; [exact Hin|]. split; [exact H1|].
    intros (Hb & Ha & Ht). unfold has_data_quality_issue in Hf.
    apply valid_bp_in_range in Hb. apply valid_age_exactly in Ha.
    apply valid_temperature_exactly in Ht. rewrite Hb, Ha, Ht in Hf. discriminate.
  - destruct H2 as [Hid Hn]. split; [exact Hid|].
    apply List.filter_In. split; [exact H1|]. unfold has_data_quality_issue.
    destruct (_is_valid_bp (blood_pressure p)) eqn:Eb; [|reflexivity].
    destruct (_is_valid_age (age p)) eqn:Ea; [|reflexivity].
    destruct (_is_valid_temperature (temperature p)) eqn:Et; [|reflexivity].
    destruct Hn. split; [now apply valid_bp_in_range|].
    split; [now apply valid_age_exactly|now apply valid_temperature_exactly].
Qed.

End DataQualityExact.

(** ** The risk breakdown *)

(** X6: The breakdown of a patient agrees with the scorer and with the
    high-risk classifier: its three scores are within their ranges, its
    total is their sum and is [calculate_total_risk], and the patient is
    listed as high risk exactly when the total of the breakdown is 4 or
    more. *)
Theorem risk_breakdown_agrees (patient : Patient) :
  exists bp_score temp_score age_score : Z,
    get_risk_breakdown patient !! "patient_id" = Some (patient_id patient)
    /\ get_risk_breakdown patient !! "bp_score" = Some (VInt bp_score)
    /\ get_risk_breakdown patient !! "temp_score" = Some (VInt temp_score)
    /\ get_risk_breakdown patient !! "age_score" = Some (VInt age_score)
    /\ get_risk_breakdown patient !! "total_score" = Some (VInt (bp_score + temp_score + age_score))
    /\ 0 <= bp_score <= 3 /\ 0 <= temp_score <= 2 /\ 0 <= age_score <= 2
    /\ bp_score + temp_score + age_score = calculate_total_risk patient
    /\ (get_high_risk_patients [patient]
        = if bp_score + temp_score + age_score >=? 4 then [patient_id patient] else []).
Proof.
  exists (calculate_bp_risk (blood_pressure patient)),
    (calculate_temp_risk (temperature patient)),
    (calculate_age_risk (age patient)).
  unfold get_risk_breakdown. cbv zeta.
  repeat (split; [now simplify_map_eq|]).
  split; [apply bp_risk_bounds|]. split; [apply temp_risk_bounds|].
  split; [apply age_risk_bounds|]. split; [reflexivity|].
  rewrite high_risk_filter. cbn. unfold is_high_risk, calculate_total_risk.
  cbv zeta. now destruct (_ >=? 4).
Qed.

(** ** A page that is given up *)

Section GivingUp.
Context (rt : runtime).

Lemma retrying_page (st : state) (w : Z) : page (retrying st w) = page st.
Proof. reflexivity. Qed.

Lemma retrying_patients (st : state) (w : Z) :
  all_patients (retrying st w) = all_patients st.
Proof. reflexivity. Qed.

Lemma retrying_requests (st : state) (w : Z) :
  requests (trace (retrying st w)) = requests (trace st) ++ [page st].
Proof.
  unfold retrying, do_event. cbn [trace page].
  rewrite !requests_app. cbn. now rewrite app_nil_r.
Qed.

Lemma abandoned_patients (st : state) :
  all_patients (abandoned st) = all_patients st.
Proof. reflexivity. Qed.

Lemma abandoned_requests (st : state) :
  requests (trace (abandoned st)) = requests (trace st) ++ [page st].
Proof.
  unfold abandoned, next_page, set_has_next, do_event. cbn [trace page].
  now rewrite requests_app.
Qed.

Lemma fetch_app (before tail : list response) (st : state) (a : Z) :
  fetch rt (before ++ tail) st a
  = match advance rt before st a with
    | Done o => o
    | Next st' a' => fetch rt tail st' a'
    end.
Proof.
  revert st a. induction before as [|r before IH]; intros st a; [reflexivity|].
  cbn [app advance]. rewrite fetch_step.
  destruct (step rt r st a) as [o|st' a']; [reflexivity|apply IH].
Qed.

Lemma failed_retried (r : response) (upstream : list response) (st : state)
    (a : Z) :
  failed r = true -> 0 <= a < max_retries - 1 ->
  fetch rt (r :: upstream) st a
  = fetch rt upstream (retrying st (2 ^ a)) (a + 1).
Proof.
  destruct r as [|status_code json]; cbn [failed]; intros Hr Ha.
  - now apply transport_failure_retried.
  - apply server_error_retried; [lia|exact Ha].
Qed.

Lemma failed_exhausted (r : response) (upstream : list response) (st : state) :
  failed r = true ->
  fetch rt (r :: upstream) st (max_retries - 1) = finish (abandoned st).
Proof.
  destruct r as [|status_code json]; cbn [failed]; intros Hr.
  - apply transport_failure_exhausted.
  - apply server_error_exhausted. lia.
Qed.

(** The attempts from [a] to the last, all failed. *)
Lemma failing_attempts (failures rest : list response) (st : state) (a : Z) :
  0 <= a -> a + Z.of_nat (length failures) = max_retries -> failures <> [] ->
  forallb failed failures = true ->
  exists st',
    fetch rt (failures ++ rest) st a = finish st'
    /\ all_patients st' = all_patients st
    /\ requests (trace st')
       = requests (trace st) ++ repeat (page st) (length failures).
Proof.
  revert st a. induction failures as [|r failures IH]; intros st a Ha Hlen Hne Hall;
    [congruence|].
  cbn [forallb] in Hall. apply andb_true_iff in Hall as [Hr Hall].
  cbn [length] in Hlen. cbn [app].
  destruct failures as [|r' failures'].
  - assert (a = max_retries - 1) as -> by (cbn [length] in Hlen; lia).
    cbn [app]. rewrite (failed_exhausted r rest st Hr). eexists. split; [reflexivity|].
    rewrite abandoned_patients, abandoned_requests. auto.
  - rewrite (failed_retried r _ st a Hr)
      by (cbn [length] in Hlen; unfold max_retries in *; lia).
    destruct (IH (retrying st (2 ^ a)) (a + 1)) as (st' & E & A & T);
      [lia|cbn [length] in *; lia|discriminate|exact Hall|].
    exists st'. split; [exact E|]. split; [now rewrite A|].
    rewrite T, retrying_requests, retrying_page, <- app_assoc. reflexivity.
Qed.

(** X21: A page whose ten attempts all fail, each by a transport failure
    or by a status of 500 or more, in any mixture, ends the run,
    whatever the answers before it were (earlier pages fetched at once
    or after retries): [getPatients] returns as on success, its data
    the records gathered before that page, with no sign of the failure;
    the page is requested ten times and nothing is requested after it.
    [advance] is the loop up to the first attempt at that page. *)
Theorem failed_page_keeps_earlier_pages
    (before failures rest : list response) :
  match advance rt before initial 0 with
  | Next st attempt =>
      attempt = 0 -> length failures = 10%nat ->
      forallb failed failures = true ->
      exists (source_pages : pyval) (effects : list event),
        getPatients rt (before ++ failures ++ rest)
        = Returns
            (mkFetched (all_patients st)
               (Z.of_nat (length (all_patients st))) source_pages)
            effects
        /\ requests effects = requests (trace st) ++ repeat (page st) 10
  | Done _ => True
  end.
Proof.
  unfold getPatients. rewrite fetch_app.
  destruct (advance rt before initial 0) as [o|st attempt]; [exact I|].
  intros -> Hlen Hall.
  destruct (failing_attempts failures rest st 0) as (st' & -> & A & T);
    [lia|rewrite Hlen; reflexivity|now destruct failures|exact Hall|].
  unfold finish. do 2 eexists. split.
  - rewrite A. reflexivity.
  - rewrite T, Hlen. reflexivity.
Qed.


(** A first page fetched at the third attempt, then ten mixed failures
    on page 2: the record of page 1 is returned and page 3 is never
    requested. *)
Example mixed_failures_end_run :
  getPatients rt
    ([Tests.failure 500; RequestException; Tests.page_of ["A"] true]
     ++ [RequestException; Tests.failure 503; RequestException;
         Tests.failure 500; Tests.failure 502; RequestException;
         RequestException; Tests.failure 599; RequestException;
         Tests.failure 500]
     ++ [Tests.page_of ["B"] false])
  = Returns (mkFetched [Tests.sanitized "A"] 1 (VInt 3))
      [Get 1; Sleep 1; Get 1; Sleep 2; Get 1; Sleep 1;
       Get 2; Sleep 1; Get 2; Sleep 2; Get 2; Sleep 4; Get 2; Sleep 8;
       Get 2; Sleep 16; Get 2; Sleep 32; Get 2; Sleep 64; Get 2; Sleep 128;
       Get 2; Sleep 256; Get 2].
Proof. vm_compute. reflexivity. Qed.

End GivingUp.

(** ** The script of data_quality.py on fetched data *)

Section QualityScript.
Context (rt : runtime).

(** The dictionary of a patient converts back to the patient. *)
Lemma patient_of_to_dict (p : Patient) : patient_of_dict (to_dict p) = inr p.
Proof.
  unfold patient_of_dict, to_dict. simplify_map_eq. now destruct p.
Qed.

Lemma patients_of_dicts (ps acc : list Patient) :
  patients_of_data (List.map to_dict ps) acc = inr (acc ++ ps).
Proof.
  revert acc. induction ps as [|p ps IH]; intros acc; cbn [List.map patients_of_data].
  - now rewrite app_nil_r.
  - rewrite patient_of_to_dict, IH, <- app_assoc. reflexivity.
Qed.

Lemma canonical_dicts (l : list (gmap string pyval)) :
  Forall (fun d => exists p, canonical p /\ d = to_dict p) l ->
  exists ps, l = List.map to_dict ps /\ Forall canonical ps.
Proof.
  induction 1 as [|d l (p & Hp & ->) _ (ps & -> & Hps)].
  - exists []. split; [reflexivity|constructor].
  - exists (p :: ps). split; [reflexivity|now constructor].
Qed.

Lemma join_canonical_ids (ps : list Patient) :
  Forall canonical ps ->
  exists ids, join_items (List.map patient_id ps) = Some ids.
Proof.
  induction 1 as [|p ps ([s Hs] & _) _ [ids IH]]; [now exists []|].
  exists (s :: ids). cbn. now rewrite Hs, IH.
Qed.

(** X10: Run on what [getPatients] returned, the script never fails while it
    builds the patients, nor at the join of the flagged ids; it ends
    with KeyError 'name' exactly when one of the fetched patients is
    flagged, and otherwise prints the report of no issues. *)
Theorem report_on_fetched_data (upstream : list response) :
  match getPatients rt upstream with
  | Returns result _ =>
      exists patients : list Patient,
        data result = List.map to_dict patients
        /\ Forall canonical patients
        /\ report_fetched result
           = ([PFetching; PTotalFetched (length patients)]
              ++ fst (print_data_quality_report patients),
              match get_data_quality_issues patients with
              | [] => None
              | _ :: _ => Some (KeyError "name")
              end)
  | Raises _ _ | Starved _ => True
  end.
Proof.
  pose proof (fetch_outcome rt upstream initial 0
                ltac:(unfold max_retries; lia) ltac:(constructor)) as H.
  unfold getPatients.
  destruct (fetch rt upstream initial 0) as [result effects| |]; [|exact I..].
  destruct H as [H _]. apply canonical_dicts in H as (ps & E & Hps).
  exists ps. split; [exact E|]. split; [exact Hps|].
  unfold report_fetched. rewrite E, patients_of_dicts. cbn [app].
  rewrite (report_equation ps).
  assert (Hsub : Forall canonical (List.filter has_data_quality_issue ps)).
  { apply List.Forall_forall. intros p Hp. apply List.filter_In in Hp as [Hp _].
    revert p Hp. now apply List.Forall_forall. }
  rewrite data_quality_filter.
  destruct (join_canonical_ids _ Hsub) as [ids ->].
  destruct (List.map patient_id (List.filter has_data_quality_issue ps));
    reflexivity.
Qed.

End QualityScript.
